(** * Humanforce to Google Calendar sync: the reconciliation engine

    A shallow embedding of [upload_events_to_gcal] and of the history helpers
    of [sync.py], together with the older stand-alone script
    [HumanForce_Sync.py], and the properties of the reconciliation design
    that hold (or fail) on that code.

    Conventions of the embedding.
    - Python exceptions are values of [exn]; a computation that can raise
      returns a [Result].  Only instances of [Exception] are modelled: these
      are what [except Exception] catches.
    - Points in time are integers counting microseconds, the resolution of
      [datetime], from 1970-01-01T00:00:00; a [timedelta] is an integer
      number of microseconds.  A [datetime] holds the wall-clock times from
      [datetime_min] to [datetime_max] (years 1 to 9999): arithmetic that
      leaves this range raises [OverflowError].
    - The remote calendar, the OAuth bootstrap, the progress callback and
      the zone objects of [pytz] are the environment: one handler per
      operation, each of which may raise.  Every interaction with the
      calendar or the callback is also appended to a trace.
    - Reading and writing [history.json] is taken to succeed. *)

From Stdlib Require Import ZArith Lia.
From stdpp Require Import base option list strings gmap sorting.

Local Open Scope string_scope.
Local Open Scope list_scope.
Local Open Scope Z_scope.

(** ** Exceptions and results *)

Inductive exn : Type :=
| AttributeError (msg : string)
| TypeError (msg : string)
| ValueError (msg : string)
| KeyError (key : string)
| UnknownTimeZoneError (zone : string)
| FileNotFoundError (msg : string)
| OverflowError (msg : string)
| HttpError (status : Z) (msg : string)
| OtherError (msg : string).

Inductive Result (A : Type) : Type :=
| Ok (a : A)
| Raise (e : exn).

Arguments Ok {A} a.
Arguments Raise {A} e.

(** ** Dates and times

    [datetime.date] carries no [tzinfo] attribute at all; a
    [datetime.datetime] always has one, possibly [None]. *)

Definition second : Z := 1000000.
Definition hour : Z := 3600 * second.
Definition day : Z := 24 * hour.

(** [timedelta(hours=h)] *)
Definition timedelta_hours (h : Z) : Z := h * hour.

(** The first and the last wall-clock time a [datetime] holds:
    0001-01-01T00:00:00 and 9999-12-31T23:59:59.999999. *)
Definition datetime_min : Z := - 719162 * day.
Definition datetime_max : Z := 2932897 * day - 1.

Definition representable (wall : Z) : bool :=
  (datetime_min <=? wall) && (wall <=? datetime_max).

(** The [tzinfo] object attached to a datetime, with its [utcoffset] at a
    wall-clock time.  [FixedOffset] is [datetime.timezone], what
    [fromisoformat] produces.  [PytzInfo] is the object [pytz] attaches
    when it localizes: it stands for one period of a zone, prints the name
    of the zone and has one offset, whatever the datetime.  [ZoneInfo] is
    an object that looks its offset up from the wall-clock fields every
    time it is asked, as [zoneinfo.ZoneInfo] does (at [fold=0], the value
    of every datetime the code builds): the roster parser may attach one
    to a time that is given with a zone identifier. *)
Inductive tzinfo : Type :=
| FixedOffset (off : Z)
| PytzInfo (name : string) (off : Z)
| ZoneInfo (name : string) (offset_at : Z -> Z).

Definition utcoffset (tz : tzinfo) (wall : Z) : Z :=
  match tz with
  | FixedOffset off => off
  | PytzInfo _ off => off
  | ZoneInfo _ offset_at => offset_at wall
  end.

(** A [tzinfo] whose offset does not depend on the datetime. *)
Definition fixed (tz : tzinfo) : bool :=
  match tz with
  | FixedOffset _ | PytzInfo _ _ => true
  | ZoneInfo _ _ => false
  end.

(** [Date d] is the [datetime.date] [d] days after 1970-01-01. *)
Inductive PyTime : Type :=
| Date (days : Z)
| DateTime (wall : Z) (tz : option tzinfo).

(** A zone object as returned by [pytz.timezone], by its name and by what
    its method [localize] does with a naive datetime (with the default
    [is_dst=False]): it raises, or returns an aware datetime, given here
    by its wall-clock time and its [tzinfo].  The method belongs to the
    library, so it is taken as it comes; what is known of it is stated
    where it is needed ([keeps_wall_clock], [pytz_zone]). *)
Record TimeZone : Type := {
  zone_name : string;
  tz_localize : Z -> Result (Z * tzinfo)
}.

(** [timezone.localize(dt)] for a naive [dt] *)
Definition localize (zone : TimeZone) (wall : Z) : Result PyTime :=
  match tz_localize zone wall with
  | Ok (wall', tz) => Ok (DateTime wall' (Some tz))
  | Raise ex => Raise ex
  end.

(** The zones of [pytz].  For a zone with transitions [localize] first
    looks one day back and one day ahead of the naive time, which raises
    within a day of the limits of [datetime]; otherwise it returns the
    same wall-clock time with the object of the period that holds it,
    whose offset is [offset_at wall].  A zone without transitions, [UTC]
    among them, attaches itself and never raises. *)
Definition pytz_zone (name : string) (offset_at : Z -> Z) : TimeZone :=
  {| zone_name := name;
     tz_localize := fun wall =>
       if representable (wall - day) && representable (wall + day)
       then Ok (wall, PytzInfo name (offset_at wall))
       else Raise (OverflowError "date value out of range") |}.

Definition pytz_static_zone (name : string) (off : Z) : TimeZone :=
  {| zone_name := name;
     tz_localize := fun wall => Ok (wall, PytzInfo name off) |}.

(** The text of a timestamp, kept as what [datetime.fromisoformat] makes of
    it once a trailing [Z] has been replaced by [+00:00]. *)
Inductive IsoText : Type :=
| IsoEmpty
| IsoInvalid
| IsoDate (days : Z)
| IsoNaive (wall : Z)
| IsoAware (wall : Z) (off : Z).

(** [x.isoformat()]: an aware datetime prints the offset its [tzinfo] has
    at its own wall-clock time. *)
Definition isoformat (t : PyTime) : IsoText :=
  match t with
  | Date d => IsoDate d
  | DateTime w None => IsoNaive w
  | DateTime w (Some tz) => IsoAware w (utcoffset tz w)
  end.

(** [datetime.fromisoformat(s.replace('Z', '+00:00'))] *)
Definition fromisoformat (s : IsoText) : Result PyTime :=
  match s with
  | IsoEmpty => Raise (ValueError "Invalid isoformat string")
  | IsoInvalid => Raise (ValueError "Invalid isoformat string")
  | IsoDate d => Ok (DateTime (d * day) None)
  | IsoNaive w => Ok (DateTime w None)
  | IsoAware w off => Ok (DateTime w (Some (FixedOffset off)))
  end.

(** The instant (UTC microseconds) a timestamp text denotes, when it
    carries an offset. *)
Definition iso_instant (s : IsoText) : option Z :=
  match s with
  | IsoAware w off => Some (w - off)
  | _ => None
  end.

(** [x + timedelta] and [x - timedelta] for a delta below one day.  A date
    only looks at the [days] field of the delta, which is zero.  A
    datetime moves its wall-clock fields and keeps its [tzinfo] object,
    whatever offset that object has at the new time; a result outside the
    range of [datetime] raises. *)
Definition add_timedelta (t : PyTime) (delta : Z) : Result PyTime :=
  match t with
  | Date d => Ok (Date d)
  | DateTime w tz =>
      if representable (w + delta) then Ok (DateTime (w + delta) tz)
      else Raise (OverflowError "date value out of range")
  end.

Definition sub_timedelta (t : PyTime) (delta : Z) : Result PyTime :=
  match t with
  | Date d => Ok (Date d)
  | DateTime w tz =>
      if representable (w - delta) then Ok (DateTime (w - delta) tz)
      else Raise (OverflowError "date value out of range")
  end.

(** [a - b] for two points in time, in microseconds.  Two aware datetimes
    are compared through their offsets unless they share their [tzinfo]
    object; [b] is always a datetime that [fromisoformat] has just made,
    with a [tzinfo] of its own or the constant [timezone.utc], so sharing
    changes nothing here. *)
Definition sub_datetime (a b : PyTime) : Result Z :=
  match a, b with
  | DateTime wa (Some ta), DateTime wb (Some tb) =>
      Ok ((wa - utcoffset ta wa) - (wb - utcoffset tb wb))
  | DateTime wa None, DateTime wb None => Ok (wa - wb)
  | DateTime _ _, DateTime _ _ =>
      Raise (TypeError "can't subtract offset-naive and offset-aware datetimes")
  | Date da, Date db => Ok ((da - db) * day)
  | _, _ => Raise (TypeError "unsupported operand type(s) for -")
  end.

(** [str(x.tzinfo)]: a date has no such attribute. *)
Definition tzinfo_of (t : PyTime) : Result (option tzinfo) :=
  match t with
  | Date _ =>
      Raise (AttributeError "'datetime.date' object has no attribute 'tzinfo'")
  | DateTime _ tz => Ok tz
  end.

(** The instant (UTC microseconds) an aware datetime denotes. *)
Definition instant (t : PyTime) : option Z :=
  match t with
  | DateTime w (Some tz) => Some (w - utcoffset tz w)
  | _ => None
  end.

(** ** Time normalisation (sync.py 270-273)

    [if isinstance(x, datetime) and x.tzinfo is None: x = timezone.localize(x)] *)
Definition normalize (zone : TimeZone) (t : PyTime) : Result PyTime :=
  match t with
  | DateTime w None => localize zone w
  | _ => Ok t
  end.

(** ** Data exchanged with the calendar *)

(** An event as [parse_ical] builds it: a dict with the keys [summary],
    [start], [end], [uid] and [description].  [description] is read with
    [.get] and a default, so it is optional here. *)
Record SourceEvent : Type := {
  ev_summary : string;
  ev_start : PyTime;
  ev_end : PyTime;
  ev_uid : string;
  ev_description : option string
}.

(** [{'dateTime': x.isoformat(), 'timeZone': str(x.tzinfo)}]; the zone text
    is kept as the [tzinfo] it prints. *)
Record TimeField : Type := {
  dateTime : IsoText;
  timeZone : option tzinfo
}.

(** The request body [g_event]. *)
Record Payload : Type := {
  p_summary : string;
  p_start : TimeField;
  p_end : TimeField;
  p_description : string
}.

(** The [start] or [end] object of an event returned by the calendar: timed
    events carry [dateTime], all-day events carry [date] only. *)
Record RemoteTime : Type := {
  rt_dateTime : option IsoText;
  rt_date : option IsoText
}.

(** An item of the list response; every key may be missing. *)
Record RemoteEvent : Type := {
  re_id : option string;
  re_summary : option string;
  re_start : option RemoteTime;
  re_end : option RemoteTime
}.

Record ListResponse : Type := {
  items : option (list RemoteEvent)
}.

(** The keyword arguments of [service.events().list(...)]. *)
Record ListQuery : Type := {
  q_calendarId : string;
  q_timeMin : IsoText;
  q_timeMax : IsoText;
  q_singleEvents : bool;
  q_maxResults : Z;
  q_orderBy : string
}.

(** The fields of [Config] that the upload reads. *)
Record Config : Type := {
  CALENDAR_ID : string;
  TIMEZONE : string
}.

(** The three progress messages, kept structured: the summary, and either
    the normalised range or the exception that was caught. *)
Inductive LogMsg : Type :=
| LogUpdated (summary : string) (start end_ : PyTime)
| LogCreated (summary : string) (start end_ : PyTime)
| LogError (summary : string) (ex : exn).

(** [stats = {"created": 0, "updated": 0, "errors": 0}] *)
Record Stats : Type := {
  created : nat;
  updated : nat;
  errors : nat
}.

Definition stats_zero : Stats := {| created := 0; updated := 0; errors := 0 |}.

(** ** The environment and the run state *)

Inductive Action : Type :=
| CallService
| CallList (q : ListQuery)
| CallUpdate (calendarId eventId : string) (body : Payload)
| CallInsert (calendarId : string) (body : Payload)
| CallLog (m : LogMsg).

Definition is_store_call (a : Action) : bool :=
  match a with
  | CallList _ | CallUpdate _ _ _ | CallInsert _ _ => true
  | CallService | CallLog _ => false
  end.

(** What the upload runs against.  [R] is the state of everything outside
    the function.  [pytz_timezone] answers [None] where [pytz.timezone]
    raises [UnknownTimeZoneError]; [on_log] is the optional callback. *)
Record Env (R : Type) : Type := {
  get_calendar_service : R -> Result unit * R;
  pytz_timezone : string -> option TimeZone;
  events_list : ListQuery -> R -> Result ListResponse * R;
  events_update : string -> string -> Payload -> R -> Result unit * R;
  events_insert : string -> Payload -> R -> Result unit * R;
  on_log : option (LogMsg -> R -> Result unit * R)
}.

Arguments get_calendar_service {R} _ _.
Arguments pytz_timezone {R} _ _.
Arguments events_list {R} _ _ _.
Arguments events_update {R} _ _ _ _ _.
Arguments events_insert {R} _ _ _ _.
Arguments on_log {R} _.

Record RunState (R : Type) : Type := {
  stats : Stats;
  world : R;
  trace : list Action
}.

Arguments stats {R} _.
Arguments world {R} _.
Arguments trace {R} _.

Definition init_state {R : Type} (w : R) : RunState R :=
  {| stats := stats_zero; world := w; trace := [] |}.

(** A computation over the run state that may raise.  The state reached is
    returned in both cases: what was done before an exception stays done. *)
Definition M (R A : Type) : Type := RunState R -> Result A * RunState R.

Definition ret {R A : Type} (a : A) : M R A := fun s => (Ok a, s).

Definition raise {R A : Type} (e : exn) : M R A := fun s => (Raise e, s).

Definition bind {R A B : Type} (c : M R A) (k : A -> M R B) : M R B :=
  fun s =>
    match c s with
    | (Ok a, s') => k a s'
    | (Raise e, s') => (Raise e, s')
    end.

Definition lift {R A : Type} (r : Result A) : M R A := fun s => (r, s).

(** [try: body  except Exception as ex: handler(ex)] *)
Definition try_except {R A : Type} (body : M R A) (handler : exn -> M R A) : M R A :=
  fun s =>
    match body s with
    | (Ok a, s') => (Ok a, s')
    | (Raise e, s') => handler e s'
    end.

Declare Scope run_scope.
Delimit Scope run_scope with run.
Notation "x <~ c ;; k" := (bind c (fun x => k))
  (at level 100, c at next level, right associativity) : run_scope.
Notation "c ;;; k" := (bind c (fun _ => k))
  (at level 100, right associativity) : run_scope.

(** One interaction with the environment: recorded, then answered. *)
Definition interact {R A : Type} (a : Action) (h : R -> Result A * R) : M R A :=
  fun s =>
    let '(r, w') := h (world s) in
    (r, {| stats := stats s; world := w'; trace := trace s ++ [a] |}).

Definition set_stats {R : Type} (f : Stats -> Stats) : M R unit :=
  fun s => (Ok tt, {| stats := f (stats s); world := world s; trace := trace s |}).

Definition bump_created (st : Stats) : Stats :=
  {| created := S (created st); updated := updated st; errors := errors st |}.
Definition bump_updated (st : Stats) : Stats :=
  {| created := created st; updated := S (updated st); errors := errors st |}.
Definition bump_errors (st : Stats) : Stats :=
  {| created := created st; updated := updated st; errors := S (errors st) |}.

(** [for x in xs: body(x)] *)
Fixpoint for_each {R A : Type} (body : A -> M R unit) (xs : list A) : M R unit :=
  match xs with
  | [] => ret tt
  | x :: rest => bind (body x) (fun _ => for_each body rest)
  end.

(** [e.get("start", {}).get("dateTime")] and the same for [end] *)
Definition get_start_dateTime (e : RemoteEvent) : option IsoText :=
  match re_start e with
  | Some t => rt_dateTime t
  | None => None
  end.

Definition get_end_dateTime (e : RemoteEvent) : option IsoText :=
  match re_end e with
  | Some t => rt_dateTime t
  | None => None
  end.

(** Truth value of [x] in [if not x] for an optional text: [None] and the
    empty string are false. *)
Definition truthy (x : option IsoText) : bool :=
  match x with
  | None => false
  | Some IsoEmpty => false
  | Some _ => true
  end.

(** [matched['id']] *)
Definition get_id (e : RemoteEvent) : Result string :=
  match re_id e with
  | Some i => Ok i
  | None => Raise (KeyError "id")
  end.

(** [abs(delta.total_seconds()) <= 18000]: the quotient by one second is
    rounded to the nearest double, 18000 is a double, rounding is monotone
    and one microsecond more than 18000 seconds still rounds above 18000,
    so the comparison is the one on whole microseconds. *)
Definition within_tolerance (delta : Z) : bool :=
  Z.abs delta <=? 18000 * second.

(** ** sync.py *)

Module Sync.

(** The dict literal [g_event] (sync.py 275-280).  The only part that can
    raise is [str(x.tzinfo)]. *)
Definition build_payload (event : SourceEvent) (start end_ : PyTime) : Result Payload :=
  match tzinfo_of start with
  | Raise ex => Raise ex
  | Ok start_tz =>
      match tzinfo_of end_ with
      | Raise ex => Raise ex
      | Ok end_tz =>
          Ok {| p_summary := ev_summary event;
                p_start := {| dateTime := isoformat start; timeZone := start_tz |};
                p_end := {| dateTime := isoformat end_; timeZone := end_tz |};
                p_description :=
                  default "Imported from Humanforce" (ev_description event) |}
      end
  end.

(** The matching loop (sync.py 295-303): the first item that has a start
    [dateTime], lies within the tolerance of [start] and bears [summary].
    An item whose [dateTime] does not parse, or parses to a naive datetime,
    makes the loop raise.  Past the [if not estart: continue] test [estart]
    is a text, so the default below is never used. *)
Fixpoint match_existing (start : PyTime) (summary : string)
    (existing : list RemoteEvent) : Result (option RemoteEvent) :=
  match existing with
  | [] => Ok None
  | e :: rest =>
      let estart := get_start_dateTime e in
      if negb (truthy estart) then match_existing start summary rest
      else
        match fromisoformat (default IsoEmpty estart) with
        | Raise ex => Raise ex
        | Ok estart_dt =>
            match sub_datetime start estart_dt with
            | Raise ex => Raise ex
            | Ok delta =>
                if within_tolerance delta
                   && bool_decide (re_summary e = Some summary)
                then Ok (Some e)
                else match_existing start summary rest
            end
        end
  end.

(** The query of sync.py 283-292: [time_min], then [time_max], then the
    keyword arguments.  The subtraction and the addition may raise. *)
Definition window_query (cfg : Config) (start end_ : PyTime) : Result ListQuery :=
  match sub_timedelta start (timedelta_hours 5) with
  | Raise ex => Raise ex
  | Ok lo =>
      match add_timedelta end_ (timedelta_hours 5) with
      | Raise ex => Raise ex
      | Ok hi =>
          Ok {| q_calendarId := CALENDAR_ID cfg;
                q_timeMin := isoformat lo;
                q_timeMax := isoformat hi;
                q_singleEvents := true;
                q_maxResults := 10;
                q_orderBy := "startTime" |}
      end
  end.

Section Upload.

Context {R : Type} (env : Env R).

(** [log = on_log or (lambda *a, **k: None)] *)
Definition log (m : LogMsg) : M R unit :=
  match on_log env with
  | Some callback => interact (CallLog m) (callback m)
  | None => ret tt
  end.

(** The body of the [try] (sync.py 283-312).  [if matched] is the test
    for a selected item: an item is selected only when its [start] key
    holds a [dateTime], so it is never the empty dict. *)
Definition guarded_body (cfg : Config) (event : SourceEvent)
    (start end_ : PyTime) (g_event : Payload) : M R unit :=
  (q <~ lift (window_query cfg start end_) ;;
   results <~ interact (CallList q) (events_list env q) ;;
   let existing := default [] (items results) in
   matched <~ lift (match_existing start (ev_summary event) existing) ;;
   match matched with
   | Some m =>
       event_id <~ lift (get_id m) ;;
       interact (CallUpdate (CALENDAR_ID cfg) event_id g_event)
                (events_update env (CALENDAR_ID cfg) event_id g_event) ;;;
       set_stats bump_updated ;;;
       log (LogUpdated (ev_summary event) start end_)
   | None =>
       interact (CallInsert (CALENDAR_ID cfg) g_event)
                (events_insert env (CALENDAR_ID cfg) g_event) ;;;
       set_stats bump_created ;;;
       log (LogCreated (ev_summary event) start end_)
   end)%run.

(** The [except Exception as ex] clause (sync.py 313-315). *)
Definition on_fault (event : SourceEvent) (ex : exn) : M R unit :=
  (set_stats bump_errors ;;;
   log (LogError (ev_summary event) ex))%run.

(** One turn of the [for event in events] loop (sync.py 267-315): the two
    bounds are normalised and the payload is built outside the guard. *)
Definition process_event (cfg : Config) (zone : TimeZone)
    (event : SourceEvent) : M R unit :=
  (start <~ lift (normalize zone (ev_start event)) ;;
   end_ <~ lift (normalize zone (ev_end event)) ;;
   g_event <~ lift (build_payload event start end_) ;;
   try_except (guarded_body cfg event start end_ g_event) (on_fault event))%run.

(** [timezone = pytz.timezone(cfg.TIMEZONE)] *)
Definition resolve_timezone (cfg : Config) : M R TimeZone :=
  match pytz_timezone env (TIMEZONE cfg) with
  | Some zone => ret zone
  | None => raise (UnknownTimeZoneError (TIMEZONE cfg))
  end.

(** [upload_events_to_gcal(cfg, events, on_log)] (sync.py 259-317) *)
Definition upload_events_to_gcal (cfg : Config) (events : list SourceEvent) : M R Stats :=
  (interact CallService (get_calendar_service env) ;;;
   zone <~ resolve_timezone cfg ;;
   set_stats (fun _ => stats_zero) ;;;
   for_each (process_event cfg zone) events ;;;
   (fun s => (Ok (stats s), s)))%run.

(** A call of the function from the state [w] of the environment. *)
Definition run (cfg : Config) (events : list SourceEvent) (w : R)
    : Result Stats * RunState R :=
  upload_events_to_gcal cfg events (init_state w).

End Upload.

End Sync.

(** ** HumanForce_Sync.py

    The stand-alone script that predates sync.py.  It has its own
    [upload_events_to_gcal]: no statistics, [print] instead of a callback,
    a window that is not widened, five candidates, and a matching loop that
    looks at times only.  Its [fromisoformat] is applied to the text as it
    is, which [IsoText] does not tell apart from the text with [Z]
    replaced. *)

Module HumanForce_Sync.

Definition CALENDAR_ID : string := "your_calendar_id_here".

(** The matching loop (HumanForce_Sync.py 151-160). *)
Fixpoint match_existing (start : PyTime) (existing : list RemoteEvent)
    : Result (option RemoteEvent) :=
  match existing with
  | [] => Ok None
  | e :: rest =>
      let estart := get_start_dateTime e in
      let eend := get_end_dateTime e in
      if truthy estart && truthy eend then
        match fromisoformat (default IsoEmpty estart) with
        | Raise ex => Raise ex
        | Ok estart_dt =>
            match fromisoformat (default IsoEmpty eend) with
            | Raise ex => Raise ex
            | Ok eend_dt =>
                match sub_datetime start estart_dt with
                | Raise ex => Raise ex
                | Ok delta =>
                    if within_tolerance delta then Ok (Some e)
                    else match_existing start rest
                end
            end
        end
      else match_existing start rest
  end.

(** The query of HumanForce_Sync.py 139-146. *)
Definition window_query (start end_ : PyTime) : ListQuery :=
  {| q_calendarId := CALENDAR_ID;
     q_timeMin := isoformat start;
     q_timeMax := isoformat end_;
     q_singleEvents := true;
     q_maxResults := 5;
     q_orderBy := "startTime" |}.

Section Upload.

Context {R : Type} (env : Env R).

(** [print(...)]: written to the trace. *)
Definition print (m : LogMsg) : M R unit :=
  interact (CallLog m) (fun w => (Ok tt, w)).

Definition guarded_body (event : SourceEvent) (start end_ : PyTime)
    (g_event : Payload) : M R unit :=
  (let q := window_query start end_ in
   results <~ interact (CallList q) (events_list env q) ;;
   let existing := default [] (items results) in
   matched <~ lift (match_existing start existing) ;;
   match matched with
   | Some m =>
       event_id <~ lift (get_id m) ;;
       interact (CallUpdate CALENDAR_ID event_id g_event)
                (events_update env CALENDAR_ID event_id g_event) ;;;
       print (LogUpdated (ev_summary event) start end_)
   | None =>
       interact (CallInsert CALENDAR_ID g_event)
                (events_insert env CALENDAR_ID g_event) ;;;
       print (LogCreated (ev_summary event) start end_)
   end)%run.

Definition process_event (zone : TimeZone) (event : SourceEvent) : M R unit :=
  (start <~ lift (normalize zone (ev_start event)) ;;
   end_ <~ lift (normalize zone (ev_end event)) ;;
   g_event <~ lift (Sync.build_payload event start end_) ;;
   try_except (guarded_body event start end_ g_event)
              (fun ex => print (LogError (ev_summary event) ex)))%run.

(** [upload_events_to_gcal(events)] (HumanForce_Sync.py 116-171) *)
Definition upload_events_to_gcal (events : list SourceEvent) : M R unit :=
  (interact CallService (get_calendar_service env) ;;;
   zone <~ match pytz_timezone env "Australia/Melbourne" with
           | Some zone => ret zone
           | None => raise (UnknownTimeZoneError "Australia/Melbourne")
           end ;;
   for_each (process_event zone) events)%run.

End Upload.

End HumanForce_Sync.

(** ** The run history (sync.py 114-127, 818-827, 914-922) *)

Module History.

(** [HISTORY_MAX = 100] *)
Definition HISTORY_MAX : nat := 100.

(** One record of [history.json]. *)
Record Entry : Type := {
  h_time : string;
  h_created : Z;
  h_updated : Z;
  h_errors : Z;
  h_note : string
}.

(** What can be found at [HISTORY_PATH]: nothing, text that is not JSON, or
    a JSON list of records.  JSON of another kind, on which no append
    succeeds, is the case [Unexpected] of [Pipeline.Held]. *)
Inductive HistoryFile : Type :=
| Missing
| Corrupt
| Stored (entries : list Entry).

(** [entries[-n:]] for [n > 0] *)
Definition last_n {A : Type} (n : nat) (l : list A) : list A :=
  drop (length l - n) l.

(** [_load_history()] on such a file; [Pipeline.load_history] is the
    function on any file. *)
Definition _load_history (f : HistoryFile) : list Entry :=
  match f with
  | Missing => []
  | Corrupt => []
  | Stored entries => entries
  end.

(** [_save_history(entries)]: the file after the call. *)
Definition _save_history (entries : list Entry) : HistoryFile :=
  Stored (last_n HISTORY_MAX entries).

(** [_record_history] and the headless branch of [main]: load, append one
    record, save. *)
Definition record_history (f : HistoryFile) (entry : Entry) : HistoryFile :=
  _save_history (_load_history f ++ [entry]).

(** A sequence of runs, each appending its record. *)
Definition record_all (f : HistoryFile) (entries : list Entry) : HistoryFile :=
  foldl record_history f entries.

End History.

(** ** A faithful remote store

    The calendar behind the three operations, as the interface describes
    it: it holds exactly the bodies that were inserted or put by an update,
    each under an identifier of its own; a listing returns the events whose
    start lies in the closed window, in ascending order of start, at most
    [maxResults] of them.  Nothing else changes it. *)

Module FaithfulStore.

Abbreviation Store := (gmap string Payload).

Definition start_instant (body : Payload) : option Z :=
  iso_instant (dateTime (p_start body)).

Definition in_window (lo hi : Z) (item : string * Payload) : bool :=
  match start_instant (snd item) with
  | Some t => (lo <=? t) && (t <=? hi)
  | None => false
  end.

Definition starts_before (a b : string * Payload) : Prop :=
  default 0 (start_instant (snd a)) <= default 0 (start_instant (snd b)).

Global Instance starts_before_dec a b : Decision (starts_before a b).
Proof. unfold starts_before. apply _. Defined.

(** The JSON of a stored event. *)
Definition render (item : string * Payload) : RemoteEvent :=
  {| re_id := Some (fst item);
     re_summary := Some (p_summary (snd item));
     re_start := Some {| rt_dateTime := Some (dateTime (p_start (snd item)));
                         rt_date := None |};
     re_end := Some {| rt_dateTime := Some (dateTime (p_end (snd item)));
                       rt_date := None |} |}.

Definition candidates (lo hi : Z) (limit : nat) (s : Store) : list (string * Payload) :=
  take limit (merge_sort starts_before (filter (fun item => in_window lo hi item = true)
                                               (map_to_list s))).

Definition list_in_window (q : ListQuery) (s : Store) : Result ListResponse * Store :=
  match iso_instant (q_timeMin q), iso_instant (q_timeMax q) with
  | Some lo, Some hi =>
      (Ok {| items := Some (render <$> candidates lo hi (Z.to_nat (q_maxResults q)) s) |}, s)
  | _, _ => (Raise (HttpError 400 "Bad Request"), s)
  end.

Definition insert_event (calendarId : string) (body : Payload) (s : Store)
    : Result unit * Store :=
  (Ok tt, <[fresh (dom s) := body]> s).

Definition update_event (calendarId eventId : string) (body : Payload) (s : Store)
    : Result unit * Store :=
  match s !! eventId with
  | Some _ => (Ok tt, <[eventId := body]> s)
  | None => (Raise (HttpError 404 "Not Found"), s)
  end.

(** The environment of a run against the store: credentials are in place,
    the zone database is [zones], and no callback is given. *)
Definition env (zones : string -> option TimeZone) : Env Store :=
  {| get_calendar_service := fun s => (Ok tt, s);
     pytz_timezone := zones;
     events_list := list_in_window;
     events_update := update_event;
     events_insert := insert_event;
     on_log := None |}.

(** Two runs in a row with the same events, nothing else touching the
    store in between: the statistics of the first and of the second run. *)
Definition run_twice (zones : string -> option TimeZone) (cfg : Config)
    (events : list SourceEvent) (s : Store) : Result Stats * Result Stats :=
  let '(r1, st1) := Sync.run (env zones) cfg events s in
  let '(r2, _) := Sync.run (env zones) cfg events (world st1) in
  (r1, r2).

End FaithfulStore.

(** ** Sample data *)

Module Sample.

(** A zone database that knows one zone, a zone with transitions, taken
    in a season in which it is eleven hours ahead of UTC. *)
Definition melbourne : TimeZone :=
  pytz_zone "Australia/Melbourne" (fun _ => 11 * hour).

Definition zones (name : string) : option TimeZone :=
  if bool_decide (name = "Australia/Melbourne") then Some melbourne else None.

Definition cfg : Config :=
  {| CALENDAR_ID := "primary"; TIMEZONE := "Australia/Melbourne" |}.

Definition bad_cfg : Config :=
  {| CALENDAR_ID := "primary"; TIMEZONE := "Mars/Olympus" |}.

(** A one-hour shift starting [h] hours into the day, wall-clock time. *)
Definition shift (summary : string) (h : Z) : SourceEvent :=
  {| ev_summary := summary;
     ev_start := DateTime (h * hour) None;
     ev_end := DateTime ((h + 1) * hour) None;
     ev_uid := "uid";
     ev_description := None |}.

(** Three shifts with one summary, four hours apart. *)
Definition chain : list SourceEvent :=
  [shift "Shift" 0; shift "Shift" 4; shift "Shift" 8].

(** Ten shifts at one o'clock and an eleventh at two, all summaries
    different. *)
Definition crowd : list SourceEvent :=
  [shift "A" 1; shift "B" 1; shift "C" 1; shift "D" 1; shift "E" 1;
   shift "F" 1; shift "G" 1; shift "H" 1; shift "I" 1; shift "J" 1;
   shift "K" 2].

(** The time [h] hours into the day as the zone localizes it. *)
Definition at_hour (h : Z) : PyTime :=
  DateTime (h * hour) (Some (PytzInfo "Australia/Melbourne" (11 * hour))).

(** The request body the upload builds for [shift summary h]. *)
Definition shift_payload (summary : string) (h : Z) : Payload :=
  {| p_summary := summary;
     p_start := {| dateTime := IsoAware (h * hour) (11 * hour);
                   timeZone := Some (PytzInfo "Australia/Melbourne" (11 * hour)) |};
     p_end := {| dateTime := IsoAware ((h + 1) * hour) (11 * hour);
                 timeZone := Some (PytzInfo "Australia/Melbourne" (11 * hour)) |};
     p_description := "Imported from Humanforce" |}.

(** The listing the upload asks for [shift summary h]. *)
Definition shift_query (h : Z) : ListQuery :=
  {| q_calendarId := "primary";
     q_timeMin := IsoAware ((h - 5) * hour) (11 * hour);
     q_timeMax := IsoAware ((h + 6) * hour) (11 * hour);
     q_singleEvents := true;
     q_maxResults := 10;
     q_orderBy := "startTime" |}.

Definition pair_of_shifts : list SourceEvent := [shift "Early" 9; shift "Late" 13].

(** Three shifts with one summary, a day apart. *)
Definition daily : list SourceEvent :=
  [shift "Shift" 9; shift "Shift" 33; shift "Shift" 57].

Definition five : list SourceEvent :=
  [shift "A" 1; shift "B" 3; shift "C" 5; shift "D" 7; shift "E" 9].

(** An all-day entry of the roster: its bounds are plain dates. *)
Definition all_day : SourceEvent :=
  {| ev_summary := "Leave";
     ev_start := Date 20000;
     ev_end := Date 20001;
     ev_uid := "uid";
     ev_description := None |}.

(** A calendar that is always empty, whose insert fails for the summary
    [C], and a callback that keeps what it is told. *)
Definition flaky : Env (list LogMsg) :=
  {| get_calendar_service := fun w => (Ok tt, w);
     pytz_timezone := zones;
     events_list := fun _ w => (Ok {| items := Some [] |}, w);
     events_update := fun _ _ _ w => (Ok tt, w);
     events_insert := fun _ body w =>
       if bool_decide (p_summary body = "C")
       then (Raise (HttpError 503 "Backend Error"), w)
       else (Ok tt, w);
     on_log := Some (fun m w => (Ok tt, w ++ [m])) |}.

(** The same calendar with a callback that fails on the message of a
    created event. *)
Definition touchy : Env (list LogMsg) :=
  {| get_calendar_service := get_calendar_service flaky;
     pytz_timezone := zones;
     events_list := events_list flaky;
     events_update := events_update flaky;
     events_insert := events_insert flaky;
     on_log := Some (fun m w =>
       match m with
       | LogCreated _ _ _ => (Raise (OtherError "log failed"), w)
       | _ => (Ok tt, w ++ [m])
       end) |}.

(** The same calendar with a callback that fails on the message of an
    error, and with no callback at all. *)
Definition deaf : Env (list LogMsg) :=
  {| get_calendar_service := get_calendar_service flaky;
     pytz_timezone := zones;
     events_list := events_list flaky;
     events_update := events_update flaky;
     events_insert := events_insert flaky;
     on_log := Some (fun m w =>
       match m with
       | LogError _ _ => (Raise (OtherError "log failed"), w)
       | _ => (Ok tt, w ++ [m])
       end) |}.

Definition silent : Env (list LogMsg) :=
  {| get_calendar_service := get_calendar_service flaky;
     pytz_timezone := zones;
     events_list := events_list flaky;
     events_update := events_update flaky;
     events_insert := events_insert flaky;
     on_log := None |}.

(** The callback has been told nothing yet. *)
Definition quiet : list LogMsg := [].

(** The source start 09:00 at eleven hours ahead of UTC. *)
Definition nine : PyTime := DateTime (9 * hour) (Some (PytzInfo "Australia/Melbourne" (11 * hour))).

(** A zone object that looks its offset up: ten hours ahead of UTC before
    the wall-clock time [0], eleven hours from then on, as at the start of
    a summer time. *)
Definition summer_from_zero : tzinfo :=
  ZoneInfo "Australia/Melbourne" (fun wall => if wall <? 0 then 10 * hour else 11 * hour).

(** A one-hour shift two hours after that change, its bounds carrying the
    zone object. *)
Definition after_the_change : SourceEvent :=
  {| ev_summary := "Early";
     ev_start := DateTime (2 * hour) (Some summer_from_zero);
     ev_end := DateTime (3 * hour) (Some summer_from_zero);
     ev_uid := "uid";
     ev_description := None |}.

(** A shift that ends one hour before the last time a [datetime] holds,
    its bounds in UTC; and a naive time within a day of that limit. *)
Definition last_shift : SourceEvent :=
  {| ev_summary := "Last";
     ev_start := DateTime (datetime_max - 2 * hour) (Some (FixedOffset 0));
     ev_end := DateTime (datetime_max - hour) (Some (FixedOffset 0));
     ev_uid := "uid";
     ev_description := None |}.

Definition last_evening : PyTime := DateTime (datetime_max - hour) None.

(** A timed item of a listing, starting at wall-clock second [sec] with
    the offset of eleven hours. *)
Definition item (id summary : string) (sec : Z) : RemoteEvent :=
  {| re_id := Some id;
     re_summary := Some summary;
     re_start := Some {| rt_dateTime := Some (IsoAware (sec * second) (11 * hour));
                         rt_date := None |};
     re_end := Some {| rt_dateTime := Some (IsoAware ((sec + 3600) * second) (11 * hour));
                       rt_date := None |} |}.

(** An all-day item: its start carries a date and no [dateTime]. *)
Definition all_day_item (id summary : string) : RemoteEvent :=
  {| re_id := Some id;
     re_summary := Some summary;
     re_start := Some {| rt_dateTime := None; rt_date := Some (IsoDate 20000) |};
     re_end := Some {| rt_dateTime := None; rt_date := Some (IsoDate 20001) |} |}.

(** Candidates around 09:00: one second beyond the tolerance, close with
    another summary, all day, exactly at the tolerance, and on the spot. *)
Definition listing : list RemoteEvent :=
  [item "r1" "Shift A" (9 * 3600 + 18001);
   item "r2" "Shift B" (9 * 3600);
   all_day_item "r3" "Shift A";
   item "r4" "Shift A" (9 * 3600 + 18000);
   item "r5" "Shift A" (9 * 3600)].

Definition entry (i : nat) : History.Entry :=
  {| History.h_time := "2025-08-14 10:00:00";
     History.h_created := Z.of_nat i;
     History.h_updated := 0;
     History.h_errors := 0;
     History.h_note := "ok" |}.

Definition entries (n : nat) : list History.Entry := entry <$> seq 0 n.

End Sample.

(** ** The vocabulary of the properties *)

(** The instant at which a candidate starts, when its start carries a
    [dateTime] with an offset. *)
Definition candidate_instant (c : RemoteEvent) : option Z :=
  match get_start_dateTime c with
  | Some text => iso_instant text
  | None => None
  end.

(** The selection rule in the words of the design: the candidate starts at
    most 18000 seconds away from the source start, and its summary is the
    source summary. *)
Definition qualifies (source_start : Z) (summary : string) (c : RemoteEvent) : bool :=
  match candidate_instant c with
  | Some t =>
      (Z.abs (source_start - t) <=? 18000 * second)
      && bool_decide (re_summary c = Some summary)
  | None => false
  end.

(** A candidate the matching loop can read: its start has no [dateTime]
    (or an empty one), or a [dateTime] with an offset. *)
Definition readable (c : RemoteEvent) : Prop :=
  truthy (get_start_dateTime c) = false \/ is_Some (candidate_instant c).

(** A value that is a [datetime], not a plain [date]. *)
Definition timed (t : PyTime) : Prop :=
  match t with
  | DateTime _ _ => True
  | Date _ => False
  end.

Definition timed_event (e : SourceEvent) : Prop :=
  timed (ev_start e) /\ timed (ev_end e).

(** The callback, when there is one, returns normally. *)
Definition log_returns {R : Type} (env : Env R) : Prop :=
  match on_log env with
  | Some callback => forall m w, fst (callback m w) = Ok tt
  | None => True
  end.

(** The callback, when there is one, returns normally when it is told
    [m]. *)
Definition log_accepts {R : Type} (env : Env R) (m : LogMsg) : Prop :=
  match on_log env with
  | Some callback => forall w, fst (callback m w) = Ok tt
  | None => True
  end.

(** The messages about an event that was counted as created or updated
    (sync.py 307, 312), and a callback that returns normally on those. *)
Definition success_message (m : LogMsg) : bool :=
  match m with
  | LogUpdated _ _ _ | LogCreated _ _ _ => true
  | LogError _ _ => false
  end.

Definition log_returns_on_success {R : Type} (env : Env R) : Prop :=
  forall m, success_message m = true -> log_accepts env m.

(** What the callback is told, in order. *)
Definition logged (tr : list Action) : list LogMsg :=
  omap (fun a => match a with CallLog m => Some m | _ => None end) tr.

Definition store_calls (tr : list Action) : list Action :=
  filter (fun a => is_store_call a = true) tr.

Definition total (st : Stats) : nat := (created st + updated st + errors st)%nat.

(** What a message adds to the trace: nothing when no callback is given. *)
Definition log_entry {R : Type} (env : Env R) (m : LogMsg) : list Action :=
  match on_log env with
  | Some _ => [CallLog m]
  | None => []
  end.

Definition is_list_call (a : Action) : bool :=
  match a with
  | CallList _ => true
  | _ => false
  end.

(** The state in which the loop starts: the service has been built in the
    environment [w0], the counters are zero. *)
Definition started {R : Type} (w0 : R) : RunState R :=
  {| stats := stats_zero; world := w0; trace := [CallService] |}.

(** A fault [ex] raised inside the guarded part of one turn, by the step it
    comes from: the window query, the matching loop, the lookup of the
    matched identifier, the update, or the insert. *)
Inductive Fault {R : Type} (env : Env R) (cfg : Config) (event : SourceEvent)
    (start end_ : PyTime) (g_event : Payload) (w : R) (ex : exn) : Prop :=
| fault_window :
    Sync.window_query cfg start end_ = Raise ex ->
    Fault env cfg event start end_ g_event w ex
| fault_list q w1 :
    Sync.window_query cfg start end_ = Ok q ->
    events_list env q w = (Raise ex, w1) ->
    Fault env cfg event start end_ g_event w ex
| fault_match q results w1 :
    Sync.window_query cfg start end_ = Ok q ->
    events_list env q w = (Ok results, w1) ->
    Sync.match_existing start (ev_summary event) (default [] (items results)) = Raise ex ->
    Fault env cfg event start end_ g_event w ex
| fault_id q results w1 m :
    Sync.window_query cfg start end_ = Ok q ->
    events_list env q w = (Ok results, w1) ->
    Sync.match_existing start (ev_summary event) (default [] (items results)) = Ok (Some m) ->
    get_id m = Raise ex ->
    Fault env cfg event start end_ g_event w ex
| fault_update q results w1 m event_id w2 :
    Sync.window_query cfg start end_ = Ok q ->
    events_list env q w = (Ok results, w1) ->
    Sync.match_existing start (ev_summary event) (default [] (items results)) = Ok (Some m) ->
    get_id m = Ok event_id ->
    events_update env (CALENDAR_ID cfg) event_id g_event w1 = (Raise ex, w2) ->
    Fault env cfg event start end_ g_event w ex
| fault_insert q results w1 w2 :
    Sync.window_query cfg start end_ = Ok q ->
    events_list env q w = (Ok results, w1) ->
    Sync.match_existing start (ev_summary event) (default [] (items results)) = Ok None ->
    events_insert env (CALENDAR_ID cfg) g_event w1 = (Raise ex, w2) ->
    Fault env cfg event start end_ g_event w ex.

(** What a turn has in hand when it enters the guard (sync.py 267-280):
    the normalised start, the normalised end and the payload. *)
Definition prepare (zone : TimeZone) (event : SourceEvent)
    : Result (PyTime * PyTime * Payload) :=
  match normalize zone (ev_start event) with
  | Raise ex => Raise ex
  | Ok start =>
      match normalize zone (ev_end event) with
      | Raise ex => Raise ex
      | Ok end_ =>
          match Sync.build_payload event start end_ with
          | Raise ex => Raise ex
          | Ok g_event => Ok (start, end_, g_event)
          end
      end
  end.

(** An event that reaches the guard: its bounds are datetimes, and the
    zone localizes those that are naive. *)
Definition prepared (zone : TimeZone) (event : SourceEvent) : Prop :=
  exists start end_ g_event, prepare zone event = Ok (start, end_, g_event).

(** The instants at which an event starts and ends once normalised. *)
Definition start_at (zone : TimeZone) (e : SourceEvent) : option Z :=
  match normalize zone (ev_start e) with
  | Ok start => instant start
  | Raise _ => None
  end.

Definition end_at (zone : TimeZone) (e : SourceEvent) : option Z :=
  match normalize zone (ev_end e) with
  | Ok end_ => instant end_
  | Raise _ => None
  end.

(** The window query of an event, when its turn gets as far as making
    one. *)
Definition query_of (cfg : Config) (zone : TimeZone) (e : SourceEvent) : option ListQuery :=
  match prepare zone e with
  | Ok (start, end_, _) =>
      match Sync.window_query cfg start end_ with
      | Ok q => Some q
      | Raise _ => None
      end
  | Raise _ => None
  end.

(** The two instants between which the window of an event lies. *)
Definition window_at (cfg : Config) (zone : TimeZone) (e : SourceEvent) : option (Z * Z) :=
  match query_of cfg zone e with
  | Some q =>
      match iso_instant (q_timeMin q), iso_instant (q_timeMax q) with
      | Some lo, Some hi => Some (lo, hi)
      | _, _ => None
      end
  | None => None
  end.

(** An event whose turn makes a listing, and that starts inside the window
    it asks for.  This is so for an event with datetime bounds well inside
    the range of [datetime] whose zone objects have one offset each and
    which does not end more than five hours before it starts
    ([ordinary_events_are_well_ranged]). *)
Definition well_ranged (cfg : Config) (zone : TimeZone) (e : SourceEvent) : Prop :=
  exists ts lo hi,
    start_at zone e = Some ts /\ window_at cfg zone e = Some (lo, hi) /\ lo <= ts <= hi.

(** Events that bear one summary start at one instant or more than the
    tolerance apart. *)
Definition separated (zone : TimeZone) (events : list SourceEvent) : Prop :=
  forall e1 e2 t1 t2,
    e1 ∈ events -> e2 ∈ events ->
    ev_summary e1 = ev_summary e2 ->
    start_at zone e1 = Some t1 -> start_at zone e2 = Some t2 ->
    Z.abs (t1 - t2) <= 18000 * second ->
    t1 = t2.

(** The number of events of a list that start between two instants. *)
Definition starts_between (zone : TimeZone) (lo hi : Z) (e : SourceEvent) : bool :=
  match start_at zone e with
  | Some t => (lo <=? t) && (t <=? hi)
  | None => false
  end.

Definition starts_within (zone : TimeZone) (events : list SourceEvent) (lo hi : Z) : nat :=
  length (filter (fun e => starts_between zone lo hi e = true) events).

(** No window is crowded: the [k] events the store holds at first and the
    source events that start inside the window of any one event are ten at
    most, the number of candidates a listing returns. *)
Definition uncrowded (cfg : Config) (zone : TimeZone) (events : list SourceEvent)
    (k : nat) : Prop :=
  forall e lo hi,
    e ∈ events -> window_at cfg zone e = Some (lo, hi) ->
    (k + starts_within zone events lo hi <= 10)%nat.

(** The store holds an event with this summary starting at this instant. *)
Definition represented (s : FaithfulStore.Store) (summary : string) (t : Z) : Prop :=
  exists id body,
    s !! id = Some body
    /\ p_summary body = summary
    /\ FaithfulStore.start_instant body = Some t.

(** Idempotence as the design states it, for one event sequence and one
    initial store: if the first of two runs in a row ends with every event
    created or updated, the second creates nothing. *)
Definition second_run_creates_nothing (zones : string -> option TimeZone) (cfg : Config)
    (events : list SourceEvent) (s : FaithfulStore.Store) : Prop :=
  forall st1 st2,
    FaithfulStore.run_twice zones cfg events s = (Ok st1, Ok st2) ->
    errors st1 = 0%nat ->
    created st2 = 0%nat.

(** The number of stored events that start inside a window, and of those
    among them that are held under an identifier the store [base] did not
    use. *)
Definition held_within (lo hi : Z) (s : FaithfulStore.Store) : nat :=
  length (filter (fun item => FaithfulStore.in_window lo hi item = true) (map_to_list s)).

Definition added_within (base : FaithfulStore.Store) (lo hi : Z)
    (s : FaithfulStore.Store) : nat :=
  length (filter (fun item => (fst item ∉ dom base)
                              /\ FaithfulStore.in_window lo hi item = true)
                 (map_to_list s)).

(** What the turns keep true of a store that was [base] at first, for the
    source events [all] of which [todo] are still to come: an event held
    under a new identifier bears the summary and the start of a source
    event; the new events inside a window and the events to come that
    start inside it are no more than the source events that start inside
    it; and every source event that is not to come is represented. *)
Definition added_are_events (zone : TimeZone) (base : FaithfulStore.Store)
    (all : list SourceEvent) (s : FaithfulStore.Store) : Prop :=
  forall id body,
    s !! id = Some body -> (id ∉ dom base) ->
    exists e t,
      e ∈ all /\ p_summary body = ev_summary e
      /\ start_at zone e = Some t /\ FaithfulStore.start_instant body = Some t.

Definition added_are_counted (zone : TimeZone) (base : FaithfulStore.Store)
    (all todo : list SourceEvent) (s : FaithfulStore.Store) : Prop :=
  forall lo hi,
    (added_within base lo hi s + starts_within zone todo lo hi
     <= starts_within zone all lo hi)%nat.

Definition done_are_represented (zone : TimeZone) (all todo : list SourceEvent)
    (s : FaithfulStore.Store) : Prop :=
  forall e ts,
    e ∈ all -> start_at zone e = Some ts ->
    e ∈ todo \/ represented s (ev_summary e) ts.

(** The listings a trace contains, in order. *)
Definition list_calls (tr : list Action) : list Action :=
  filter (fun a => is_list_call a = true) tr.

(** The listing of a turn that has reached the guard with these bounds:
    none when the window cannot be computed. *)
Definition window_listing (cfg : Config) (start end_ : PyTime) : list Action :=
  match Sync.window_query cfg start end_ with
  | Ok q => [CallList q]
  | Raise _ => []
  end.

(** The listings of a run over these events, when it goes through them
    all: one for each event whose window can be computed, in order. *)
Definition listings_of (cfg : Config) (zone : TimeZone) (events : list SourceEvent)
    : list Action :=
  CallList <$> omap (query_of cfg zone) events.

(** The pytz contract of [localize]: the datetime it returns has the
    wall-clock fields of the naive datetime it was given. *)
Definition keeps_wall_clock (zone : TimeZone) : Prop :=
  forall wall wall' tz, tz_localize zone wall = Ok (wall', tz) -> wall' = wall.

(** A datetime whose [tzinfo], if any, has one offset. *)
Definition fixed_offset (t : PyTime) : Prop :=
  match t with
  | DateTime _ (Some tz) => fixed tz = true
  | _ => True
  end.

(** The reason a candidate qualifies or not is of no interest to the loop
    once it cannot read it: a start [dateTime] that is there and carries no
    offset. *)
Definition unreadable (c : RemoteEvent) : Prop :=
  truthy (get_start_dateTime c) = true /\ candidate_instant c = None.

(** ** From the roster files to the history (sync.py 199-215, 320-330,
    759-775, 818-827, 908-923)

    [parse_ical], [do_sync] and the two places that record a run.  The
    download, the reading of a file into calendar components and the
    callback are the environment; [str.strip] is the library function
    [strip]. *)

Module Pipeline.

(** A component as [cal.walk()] yields it: its name and the properties the
    parser reads, each of which may be missing.  [dtstart] and [dtend] hold
    the [.dt] value of the property. *)
Record Component : Type := {
  c_name : string;
  c_summary : option string;
  c_dtstart : option PyTime;
  c_dtend : option PyTime;
  c_uid : option string;
  c_description : option string
}.

(** [component.get(...).dt] on a missing property *)
Definition no_dt : exn := AttributeError "'NoneType' object has no attribute 'dt'".

(** What [do_sync] and the functions it calls tell the callback. *)
Inductive SyncMsg : Type :=
| MsgStarting
| MsgParsed (n : nat) (path : string)
| MsgUploading (n : nat)
| MsgComplete
| MsgUpload (m : LogMsg).

(** The environment of [do_sync]: the calendar (its own [on_log] field is
    not used, the callback is [sync_log]), the download, and the reading of
    one file, [open] followed by [Calendar.from_ical] and [walk]. *)
Record SyncEnv (R : Type) : Type := {
  calendar : Env R;
  download_icals : R -> Result (list string) * R;
  read_ical : string -> R -> Result (list Component) * R;
  sync_log : option (SyncMsg -> R -> Result unit * R)
}.

Arguments calendar {R} _.
Arguments download_icals {R} _ _.
Arguments read_ical {R} _ _ _.
Arguments sync_log {R} _.

(** [str(e)] for the note of a failed run: the message of the exception,
    a key between quotes.  No property looks further than the prefix of
    the note. *)
Definition exn_text (ex : exn) : string :=
  match ex with
  | AttributeError msg => msg
  | TypeError msg => msg
  | ValueError msg => msg
  | KeyError key => String.append "'" (String.append key "'")
  | UnknownTimeZoneError zone => String.append "'" (String.append zone "'")
  | FileNotFoundError msg => msg
  | OverflowError msg => msg
  | HttpError _ msg => msg
  | OtherError msg => msg
  end.

Section Parse.

Variable strip : string -> string.

(** The dict built for one [VEVENT] (sync.py 206-212): [str(None)] is the
    text [None]; a missing [dtstart] or [dtend] has no [.dt]. *)
Definition parse_component (c : Component) : Result SourceEvent :=
  match c_dtstart c with
  | None => Raise no_dt
  | Some start =>
      match c_dtend c with
      | None => Raise no_dt
      | Some end_ =>
          Ok {| ev_summary := default "None" (c_summary c);
                ev_start := start;
                ev_end := end_;
                ev_uid := strip (default "None" (c_uid c));
                ev_description := Some (strip (default EmptyString (c_description c))) |}
      end
  end.

(** The loop over [cal.walk()] (sync.py 204-213). *)
Fixpoint parse_events (walk : list Component) : Result (list SourceEvent) :=
  match walk with
  | [] => Ok []
  | c :: rest =>
      if bool_decide (c_name c = "VEVENT") then
        match parse_component c with
        | Raise ex => Raise ex
        | Ok event =>
            match parse_events rest with
            | Raise ex => Raise ex
            | Ok events => Ok (event :: events)
            end
        end
      else parse_events rest
  end.

Context {R : Type} (env : SyncEnv R).

(** [log = on_log or (lambda *a, **k: None)] *)
Definition emit (m : SyncMsg) (w : R) : Result unit * R :=
  match sync_log env with
  | Some callback => callback m w
  | None => (Ok tt, w)
  end.

(** The calendar as [upload_events_to_gcal] sees it when called from
    [do_sync]: [on_log] is the [log] of [do_sync], never [None]. *)
Definition upload_env : Env R :=
  {| get_calendar_service := get_calendar_service (calendar env);
     pytz_timezone := pytz_timezone (calendar env);
     events_list := events_list (calendar env);
     events_update := events_update (calendar env);
     events_insert := events_insert (calendar env);
     on_log := Some (fun m => emit (MsgUpload m)) |}.

(** [parse_ical(file_path, on_log)] (sync.py 199-215) *)
Definition parse_ical (path : string) (w : R) : Result (list SourceEvent) * R :=
  match read_ical env path w with
  | (Raise ex, w1) => (Raise ex, w1)
  | (Ok walk, w1) =>
      match parse_events walk with
      | Raise ex => (Raise ex, w1)
      | Ok events =>
          match emit (MsgParsed (length events) path) w1 with
          | (Raise ex, w2) => (Raise ex, w2)
          | (Ok _, w2) => (Ok events, w2)
          end
      end
  end.

(** [for path in ics_files: all_events.extend(parse_ical(path))] *)
Fixpoint parse_all (paths : list string) (w : R) : Result (list SourceEvent) * R :=
  match paths with
  | [] => (Ok [], w)
  | path :: rest =>
      match parse_ical path w with
      | (Raise ex, w1) => (Raise ex, w1)
      | (Ok events, w1) =>
          match parse_all rest w1 with
          | (Raise ex, w2) => (Raise ex, w2)
          | (Ok more, w2) => (Ok (events ++ more), w2)
          end
      end
  end.

(** [do_sync(cfg, on_log)] (sync.py 320-330).  Besides the result and the
    state of the environment it returns the trace of the upload, empty when
    the upload was not reached. *)
Definition do_sync (cfg : Config) (w : R) : Result Stats * R * list Action :=
  match emit MsgStarting w with
  | (Raise ex, w1) => (Raise ex, w1, [])
  | (Ok _, w1) =>
      match download_icals env w1 with
      | (Raise ex, w2) => (Raise ex, w2, [])
      | (Ok ics_files, w2) =>
          match parse_all ics_files w2 with
          | (Raise ex, w3) => (Raise ex, w3, [])
          | (Ok all_events, w3) =>
              match emit (MsgUploading (length all_events)) w3 with
              | (Raise ex, w4) => (Raise ex, w4, [])
              | (Ok _, w4) =>
                  match Sync.run upload_env cfg all_events w4 with
                  | (Raise ex, st) => (Raise ex, world st, trace st)
                  | (Ok stats, st) =>
                      match emit MsgComplete (world st) with
                      | (Raise ex, w5) => (Raise ex, w5, trace st)
                      | (Ok _, w5) => (Ok stats, w5, trace st)
                      end
                  end
              end
          end
      end
  end.

End Parse.

(** The record [_record_history] appends (sync.py 820-826). *)
Definition entry_of (now : string) (st : Stats) (note : string) : History.Entry :=
  {| History.h_time := now;
     History.h_created := Z.of_nat (created st);
     History.h_updated := Z.of_nat (updated st);
     History.h_errors := Z.of_nat (errors st);
     History.h_note := note |}.

(** [history.json] as [json.load] finds it: one of the cases of
    [History.HistoryFile], or JSON that is not a list (an object, a
    number, a text, [null]), given by the name of the Python type of the
    value. *)
Inductive Held : Type :=
| Expected (f : History.HistoryFile)
| Unexpected (type_name : string).

(** [_load_history()] on any file: the list of records, or a value of
    another type, which [json.load] returns just as well. *)
Definition load_history (h : Held) : list History.Entry + string :=
  match h with
  | Expected f => inl (History._load_history f)
  | Unexpected type_name => inr type_name
  end.

Definition no_append (type_name : string) : exn :=
  AttributeError
    (String.append "'" (String.append type_name "' object has no attribute 'append'")).

(** [_record_history] and the recording of the headless branch of [main]
    (sync.py 818-827, 914-922): load, append, save.  The outcome and the
    file afterwards: on a value that is not a list [hist.append] raises
    before anything is written. *)
Definition record (h : Held) (entry : History.Entry) : Result unit * Held :=
  match load_history h with
  | inl hist => (Ok tt, Expected (History._save_history (hist ++ [entry])))
  | inr type_name => (Raise (no_append type_name), h)
  end.

(** What the worker of [_sync_now] records for the outcome of [do_sync]
    (sync.py 763-771); the widgets it touches are taken to work. *)
Definition sync_now_record (now : string) (outcome : Result Stats) : History.Entry :=
  match outcome with
  | Ok st =>
      entry_of now st (if bool_decide (errors st = 0%nat) then "ok" else "with errors")
  | Raise ex =>
      entry_of now {| created := 0; updated := 0; errors := 1 |}
               (String.append "exception: " (exn_text ex))
  end.

Definition sync_now (now : string) (outcome : Result Stats) (f : History.HistoryFile)
    : History.HistoryFile :=
  History.record_history f (sync_now_record now outcome).

(** The [--sync] branch of [main] (sync.py 908-923): an exception of
    [do_sync] leaves [main] before the history is touched. *)
Definition headless_sync (now : string) (outcome : Result Stats) (f : History.HistoryFile)
    : Result History.HistoryFile :=
  match outcome with
  | Ok st => Ok (History.record_history f (entry_of now st "headless"))
  | Raise ex => Raise ex
  end.

(** The rows the history tab shows (sync.py 700-704): the last fifty
    records, newest first. *)
Definition refresh_rows (hist : list History.Entry) : list History.Entry :=
  reverse (History.last_n 50 hist).

End Pipeline.

(** A [VEVENT] component, and one that has both a start and an end. *)
Definition vevent (c : Pipeline.Component) : Prop := Pipeline.c_name c = "VEVENT".

Definition bounded (c : Pipeline.Component) : Prop :=
  is_Some (Pipeline.c_dtstart c) /\ is_Some (Pipeline.c_dtend c).

(** A [VEVENT] whose start and end are datetimes that the zone can
    normalise. *)
Definition timed_component (zone : TimeZone) (c : Pipeline.Component) : Prop :=
  exists start end_ start' end',
    Pipeline.c_dtstart c = Some start /\ Pipeline.c_dtend c = Some end_
    /\ timed start /\ timed end_
    /\ normalize zone start = Ok start' /\ normalize zone end_ = Ok end'.

(** The callback of [do_sync], when there is one, returns normally. *)
Definition sync_log_returns {R : Type} (env : Pipeline.SyncEnv R) : Prop :=
  match Pipeline.sync_log env with
  | Some callback => forall m w, fst (callback m w) = Ok tt
  | None => True
  end.

(** ** The months to export (sync.py 138-145, HumanForce_Sync.py 29-36) *)

Module Dates.

(** The date fields of [today]; its time of day plays no part. *)
Record CivilDate : Type := {
  year : Z;
  month : Z;
  dom : Z
}.

Definition is_leap (y : Z) : bool :=
  (y mod 4 =? 0) && (negb (y mod 100 =? 0) || (y mod 400 =? 0)).

Definition days_in_month (y m : Z) : Z :=
  if m =? 2 then (if is_leap y then 29 else 28)
  else if (m =? 4) || (m =? 6) || (m =? 9) || (m =? 11) then 30
  else 31.

(** [d.replace(day=n)] *)
Definition replace_day (d : CivilDate) (n : Z) : Result CivilDate :=
  if (1 <=? n) && (n <=? days_in_month (year d) (month d))
  then Ok {| year := year d; month := month d; dom := n |}
  else Raise (ValueError "day is out of range for month").

Definition next_day (d : CivilDate) : CivilDate :=
  if dom d <? days_in_month (year d) (month d)
  then {| year := year d; month := month d; dom := dom d + 1 |}
  else if month d <? 12
  then {| year := year d; month := month d + 1; dom := 1 |}
  else {| year := year d + 1; month := 1; dom := 1 |}.

(** [d + timedelta(days=n)] for a date [d] and [n] days: the addition
    raises an [OverflowError] past the last year [datetime] knows. *)
Definition MAXYEAR : Z := 9999.

Definition add_days (d : CivilDate) (n : nat) : Result CivilDate :=
  let later := Nat.iter n next_day d in
  if year later <=? MAXYEAR then Ok later
  else Raise (OtherError "OverflowError: date value out of range").

(** [first_this_month] and [first_next_month] (sync.py 139-140); their
    [strftime] texts are what the two exports are asked from. *)
Definition export_dates (today : CivilDate) : Result (CivilDate * CivilDate) :=
  match replace_day today 1 with
  | Raise ex => Raise ex
  | Ok first_this_month =>
      match replace_day first_this_month 28 with
      | Raise ex => Raise ex
      | Ok day28 =>
          match add_days day28 4 with
          | Raise ex => Raise ex
          | Ok later =>
              match replace_day later 1 with
              | Raise ex => Raise ex
              | Ok first_next_month => Ok (first_this_month, first_next_month)
              end
          end
      end
  end.

(** A date [datetime] can hold. *)
Definition valid (d : CivilDate) : Prop :=
  1 <= year d <= MAXYEAR
  /\ 1 <= month d <= 12 /\ 1 <= dom d <= days_in_month (year d) (month d).

(** The one month whose successor [datetime] cannot hold. *)
Definition last_month (d : CivilDate) : bool := (year d =? MAXYEAR) && (month d =? 12).

End Dates.

(** ** Building the calendar service (sync.py 218-256,
    HumanForce_Sync.py 105-114)

    The two files of the OAuth set-up are kept as what the code and the
    Google libraries make of them; the interactive flow, the removal and
    the writing of [token.json] and the discovery of the API are outcomes
    given from outside.  A token that is written is read back as the
    credentials it was written from.  Appending to the log is taken to
    succeed. *)

Module Auth.

Record Creds : Type := {
  cred_account : string;
  cred_valid : bool
}.

(** [token.json]: absent, not JSON (an empty file, say), or JSON, with what
    [Credentials.from_authorized_user_file] makes of it. *)
Inductive TokenFile : Type :=
| TokenMissing
| TokenNotJson
| TokenJson (parsed : Result Creds).

(** [credentials.json]: absent, not JSON, or JSON, with what
    [InstalledAppFlow.from_client_secrets_file] makes of it. *)
Inductive SecretsFile : Type :=
| SecretsMissing
| SecretsNotJson
| SecretsJson (loaded : Result unit).

Inductive AuthAction : Type :=
| Logged (line : string)
| RemovedToken
| RanFlow
| WroteToken (c : Creds)
| Built (c : Creds).

Record AuthState : Type := {
  token : TokenFile;
  secrets : SecretsFile;
  done : list AuthAction
}.

(** How the writing of [token.json] ends: done, [open] fails and the file
    is as it was, or the file is opened, hence emptied, and the write
    fails. *)
Inductive WriteOutcome : Type :=
| Written
| OpenFails (ex : exn)
| WriteFails (ex : exn).

(** What the world answers during one call. *)
Record Outside : Type := {
  remove_error : option exn;
  flow_outcome : Result Creds;
  write_outcome : WriteOutcome;
  build_error : option exn
}.

Definition act (a : AuthAction) (s : AuthState) : AuthState :=
  {| token := token s; secrets := secrets s; done := done s ++ [a] |}.

Definition set_token (t : TokenFile) (s : AuthState) : AuthState :=
  {| token := t; secrets := secrets s; done := done s |}.

(** The first part of [get_calendar_service] (sync.py 225-240): the
    credentials found in [token.json], if any. *)
Definition read_token (o : Outside) (s : AuthState) : option Creds * AuthState :=
  match token s with
  | TokenJson (Ok c) => (Some c, s)
  | TokenJson (Raise ex) => (None, act (Logged "token.json could not be parsed") s)
  | TokenNotJson =>
      let s1 := act (Logged "token.json is empty or invalid JSON") s in
      match remove_error o with
      | None => (None, act RemovedToken (set_token TokenMissing s1))
      | Some ex => (None, act (Logged "Failed to remove invalid token.json") s1)
      end
  | TokenMissing => (None, s)
  end.

(** [build('calendar', 'v3', credentials=creds)] *)
Definition build (o : Outside) (c : Creds) (s : AuthState) : Result Creds * AuthState :=
  match build_error o with
  | Some ex => (Raise ex, s)
  | None => (Ok c, act (Built c) s)
  end.

(** The second part (sync.py 243-254): the OAuth flow, and the token kept
    for the next time. *)
Definition authorize (o : Outside) (s : AuthState) : Result Creds * AuthState :=
  match secrets s with
  | SecretsMissing | SecretsNotJson =>
      (Raise (FileNotFoundError "credentials.json is missing or invalid JSON"), s)
  | SecretsJson (Raise ex) => (Raise ex, s)
  | SecretsJson (Ok _) =>
      match flow_outcome o with
      | Raise ex => (Raise ex, act RanFlow s)
      | Ok c =>
          let s1 := act RanFlow s in
          match write_outcome o with
          | Written => (Ok c, act (WroteToken c) (set_token (TokenJson (Ok c)) s1))
          | OpenFails ex =>
              (Ok c, act (Logged "Warning: failed to write token.json") s1)
          | WriteFails ex =>
              (Ok c, act (Logged "Warning: failed to write token.json")
                         (set_token TokenNotJson s1))
          end
      end
  end.

(** [get_calendar_service()] of sync.py; the service is represented by the
    credentials it is built with.  The flow is entered on
    [not creds or not creds.valid]. *)
Definition get_calendar_service (o : Outside) (s : AuthState) : Result Creds * AuthState :=
  let '(creds, s1) := read_token o s in
  match creds with
  | Some c =>
      if cred_valid c then build o c s1
      else
        match authorize o s1 with
        | (Raise ex, s2) => (Raise ex, s2)
        | (Ok fresh_creds, s2) => build o fresh_creds s2
        end
  | None =>
      match authorize o s1 with
      | (Raise ex, s2) => (Raise ex, s2)
      | (Ok fresh_creds, s2) => build o fresh_creds s2
      end
  end.

(** [get_calendar_service()] of HumanForce_Sync.py: no guard around the
    reading of the token, the loading of the secrets or the writing of the
    token. *)
Definition legacy_authorize (o : Outside) (s : AuthState) : Result Creds * AuthState :=
  match secrets s with
  | SecretsMissing => (Raise (FileNotFoundError "credentials.json"), s)
  | SecretsNotJson => (Raise (ValueError "Expecting value"), s)
  | SecretsJson (Raise ex) => (Raise ex, s)
  | SecretsJson (Ok _) =>
      match flow_outcome o with
      | Raise ex => (Raise ex, act RanFlow s)
      | Ok c =>
          let s1 := act RanFlow s in
          match write_outcome o with
          | Written => (Ok c, act (WroteToken c) (set_token (TokenJson (Ok c)) s1))
          | OpenFails ex => (Raise ex, s1)
          | WriteFails ex => (Raise ex, set_token TokenNotJson s1)
          end
      end
  end.

Definition legacy_get_calendar_service (o : Outside) (s : AuthState)
    : Result Creds * AuthState :=
  match token s with
  | TokenNotJson => (Raise (ValueError "Expecting value"), s)
  | TokenJson (Raise ex) => (Raise ex, s)
  | TokenJson (Ok c) =>
      if cred_valid c then build o c s
      else
        match legacy_authorize o s with
        | (Raise ex, s1) => (Raise ex, s1)
        | (Ok fresh_creds, s1) => build o fresh_creds s1
        end
  | TokenMissing =>
      match legacy_authorize o s with
      | (Raise ex, s1) => (Raise ex, s1)
      | (Ok fresh_creds, s1) => build o fresh_creds s1
      end
  end.

End Auth.

(** The selection rule of the older script: both the start and the end
    carry a [dateTime], and the start lies within the tolerance. *)
Definition older_rule (source_start : Z) (c : RemoteEvent) : bool :=
  truthy (get_start_dateTime c) && truthy (get_end_dateTime c)
  && match candidate_instant c with
     | Some t => Z.abs (source_start - t) <=? 18000 * second
     | None => false
     end.

(** A candidate the older loop can read: it is skipped, or its start
    carries an offset and its end parses. *)
Definition older_readable (c : RemoteEvent) : Prop :=
  truthy (get_start_dateTime c) && truthy (get_end_dateTime c) = false
  \/ (is_Some (candidate_instant c)
      /\ exists dt, fromisoformat (default IsoEmpty (get_end_dateTime c)) = Ok dt).

(** The window query of an event in the older script, when its turn
    reaches the guard. *)
Definition older_query_of (zone : TimeZone) (e : SourceEvent) : option ListQuery :=
  match prepare zone e with
  | Ok (start, end_, _) => Some (HumanForce_Sync.window_query start end_)
  | Raise _ => None
  end.

(** ** More sample data *)

Module Cases.

Import Pipeline.

(** A [strip] for the samples: blanks at both ends are dropped. *)
Fixpoint lstrip (s : string) : string :=
  match s with
  | String a rest => if Ascii.eqb a Ascii.Space then lstrip rest else s
  | EmptyString => s
  end.

Definition strip (s : string) : string :=
  String.rev (lstrip (String.rev (lstrip s))).

(** The components of a small roster file, as [walk] yields them: the
    calendar, a time zone, and two shifts. *)
Definition component (name : string) : Component :=
  {| c_name := name; c_summary := None; c_dtstart := None; c_dtend := None;
     c_uid := None; c_description := None |}.

Definition shift_component (summary : string) (h : Z) : Component :=
  {| c_name := "VEVENT";
     c_summary := Some summary;
     c_dtstart := Some (DateTime (h * hour) None);
     c_dtend := Some (DateTime ((h + 1) * hour) None);
     c_uid := Some " uid-1 ";
     c_description := None |}.

(** A shift that gives no end. *)
Definition open_ended (summary : string) (h : Z) : Component :=
  {| c_name := "VEVENT";
     c_summary := Some summary;
     c_dtstart := Some (DateTime (h * hour) None);
     c_dtend := None;
     c_uid := Some "uid-2";
     c_description := None |}.

Definition this_month : list Component :=
  [component "VCALENDAR"; component "VTIMEZONE";
   shift_component "Early" 9; shift_component "Late" 13].

Definition next_month : list Component :=
  [component "VCALENDAR"; shift_component "Night" 22].

Definition broken_month : list Component :=
  [component "VCALENDAR"; shift_component "Night" 22; open_ended "On call" 8].

Definition files : list string := ["roster_this.ics"; "roster_next.ics"].

Definition walk_of (path : string) : list Component :=
  if bool_decide (path = "roster_this.ics") then this_month else next_month.

Definition broken_walk_of (path : string) : list Component :=
  if bool_decide (path = "roster_this.ics") then this_month else broken_month.

(** A calendar that is always empty and accepts every write, the state
    being what the callback of [do_sync] has been told. *)
Definition empty_calendar : Env (list SyncMsg) :=
  {| get_calendar_service := fun w => (Ok tt, w);
     pytz_timezone := Sample.zones;
     events_list := fun _ w => (Ok {| items := Some [] |}, w);
     events_update := fun _ _ _ w => (Ok tt, w);
     events_insert := fun _ _ w => (Ok tt, w);
     on_log := None |}.

Definition sync_env (walks : string -> list Component) : SyncEnv (list SyncMsg) :=
  {| calendar := empty_calendar;
     download_icals := fun w => (Ok files, w);
     read_ical := fun path w => (Ok (walks path), w);
     sync_log := Some (fun m w => (Ok tt, w ++ [m])) |}.

(** A listing with an item whose start has no offset, in front of an exact
    match; and a listing whose match has no identifier. *)
Definition naive_item : RemoteEvent :=
  {| re_id := Some "r0";
     re_summary := Some "Shift A";
     re_start := Some {| rt_dateTime := Some (IsoNaive (9 * hour)); rt_date := None |};
     re_end := Some {| rt_dateTime := Some (IsoNaive (10 * hour)); rt_date := None |} |}.

Definition anonymous_item : RemoteEvent :=
  {| re_id := None;
     re_summary := Some "Shift A";
     re_start := Some {| rt_dateTime := Some (IsoAware (9 * hour) (11 * hour));
                         rt_date := None |};
     re_end := Some {| rt_dateTime := Some (IsoAware (10 * hour) (11 * hour));
                       rt_date := None |} |}.

Definition calendar_listing (listing : list RemoteEvent) : Env (list LogMsg) :=
  {| get_calendar_service := fun w => (Ok tt, w);
     pytz_timezone := Sample.zones;
     events_list := fun _ w => (Ok {| items := Some listing |}, w);
     events_update := fun _ _ _ w => (Ok tt, w);
     events_insert := fun _ _ w => (Ok tt, w);
     on_log := Some (fun m w => (Ok tt, w ++ [m])) |}.

(** A store that holds an appointment of the user. *)
Definition private_store : FaithfulStore.Store :=
  {["r9" := Sample.shift_payload "Dentist" 9]}.

(** Dates. *)
Definition last_of_january : Dates.CivilDate :=
  {| Dates.year := 2025; Dates.month := 1; Dates.dom := 31 |}.

(** The OAuth set-up: an empty [token.json] next to usable secrets, and a
    world in which everything works. *)
Definition alice : Auth.Creds := {| Auth.cred_account := "alice"; Auth.cred_valid := true |}.

Definition empty_token : Auth.AuthState :=
  {| Auth.token := Auth.TokenNotJson;
     Auth.secrets := Auth.SecretsJson (Ok tt);
     Auth.done := [] |}.

Definition all_goes_well : Auth.Outside :=
  {| Auth.remove_error := None;
     Auth.flow_outcome := Ok alice;
     Auth.write_outcome := Auth.Written;
     Auth.build_error := None |}.

End Cases.

(** ** The parsed sample shift *)

Module ParsedCase.

(** What the parser makes of the sample shift [Early], and the payload
    built for it. *)
Definition early_event : SourceEvent :=
  {| ev_summary := "Early";
     ev_start := DateTime (9 * hour) None;
     ev_end := DateTime (10 * hour) None;
     ev_uid := "uid-1";
     ev_description := Some EmptyString |}.

Definition early_payload : Payload :=
  {| p_summary := "Early";
     p_start := {| dateTime := IsoAware (9 * hour) (11 * hour);
                   timeZone := Some (PytzInfo "Australia/Melbourne" (11 * hour)) |};
     p_end := {| dateTime := IsoAware (10 * hour) (11 * hour);
                 timeZone := Some (PytzInfo "Australia/Melbourne" (11 * hour)) |};
     p_description := EmptyString |}.

End ParsedCase.

(** * Properties *)

(** ** Time normalisation *)

(** What normalisation returns is the date it was given, or an aware
    datetime. *)
Lemma normalize_result zone t t' :
  normalize zone t = Ok t' ->
  (exists d, t = Date d /\ t' = Date d) \/ (exists w tz, t' = DateTime w (Some tz)).
Proof.
  destruct t as [d | w [tz |]]; simpl.
  - intros H. injection H as <-. eauto.
  - intros H. injection H as <-. eauto.
  - unfold localize. destruct (tz_localize zone w) as [[w' tz] | ex]; [| discriminate].
    intros H. injection H as <-. eauto.
Qed.

Lemma normalize_timed zone t t' :
  normalize zone t = Ok t' -> timed t -> is_Some (instant t') /\ timed t'.
Proof.
  intros H Ht. destruct (normalize_result zone t t' H) as [(d & -> & _) | (w & tz & ->)].
  - destruct Ht.
  - simpl. eauto.
Qed.

Lemma normalize_date zone t t' :
  normalize zone t = Ok t' -> ~ timed t -> ~ timed t'.
Proof.
  destruct t as [d | w tz]; simpl.
  - intros H _. injection H as <-. auto.
  - intros _ H. exfalso. apply H. exact I.
Qed.

(** The zones of [pytz] keep the wall-clock time, and a zone with
    transitions localizes every time that is a day inside the limits. *)
Lemma pytz_zone_keeps_wall_clock name offset_at : keeps_wall_clock (pytz_zone name offset_at).
Proof.
  intros w w' tz. simpl.
  destruct (representable (w - day) && representable (w + day)); [| discriminate].
  intros H. injection H as <- _. reflexivity.
Qed.

Lemma pytz_static_zone_keeps_wall_clock name off : keeps_wall_clock (pytz_static_zone name off).
Proof. intros w w' tz. simpl. intros H. injection H as <- _. reflexivity. Qed.

Lemma pytz_zone_localizes name offset_at w :
  datetime_min + day <= w <= datetime_max - day ->
  normalize (pytz_zone name offset_at) (DateTime w None)
  = Ok (DateTime w (Some (PytzInfo name (offset_at w)))).
Proof.
  intros Hw. simpl. unfold localize. simpl. unfold representable.
  assert (Hday : 0 < day) by (vm_compute; reflexivity).
  destruct (Z.leb_spec datetime_min (w - day)); [| lia].
  destruct (Z.leb_spec (w - day) datetime_max); [| lia].
  destruct (Z.leb_spec datetime_min (w + day)); [| lia].
  destruct (Z.leb_spec (w + day) datetime_max); [| lia].
  reflexivity.
Qed.

Lemma pytz_zone_overflows name offset_at w :
  w < datetime_min + day \/ datetime_max - day < w ->
  normalize (pytz_zone name offset_at) (DateTime w None)
  = Raise (OverflowError "date value out of range").
Proof.
  intros Hw. simpl. unfold localize. simpl. unfold representable.
  destruct (Z.leb_spec datetime_min (w - day)); simpl; [| reflexivity].
  destruct (Z.leb_spec (w - day) datetime_max); simpl; [| reflexivity].
  destruct (Z.leb_spec datetime_min (w + day)); simpl; [| reflexivity].
  destruct (Z.leb_spec (w + day) datetime_max); simpl; [| reflexivity].
  lia.
Qed.

(** C6, as amended.  Normalising a datetime that already carries a zone returns it
    unchanged, so its offset and its instant are the ones it came with.
    A naive datetime is handed to [localize] of the configured zone and
    to nothing else: where [localize] raises, normalisation raises the
    same exception; where it returns, the result is the datetime it
    returned, which by the contract of [pytz] has the wall-clock time of
    the input, with a zone object attached and the offset of that
    object.  And normalising the result again changes nothing. *)
Theorem normalize_keeps_zoned_and_localizes_naive (zone : TimeZone) :
  keeps_wall_clock zone ->
  (forall w tz, normalize zone (DateTime w (Some tz)) = Ok (DateTime w (Some tz)))
  /\ (forall w t,
        normalize zone (DateTime w None) = Ok t ->
        exists tz,
          tz_localize zone w = Ok (w, tz)
          /\ t = DateTime w (Some tz)
          /\ isoformat t = IsoAware w (utcoffset tz w)
          /\ instant t = Some (w - utcoffset tz w))
  /\ (forall w ex,
        tz_localize zone w = Raise ex -> normalize zone (DateTime w None) = Raise ex)
  /\ (forall t t', normalize zone t = Ok t' -> normalize zone t' = Ok t').
Proof.
  intros Hkeeps. split; [reflexivity |]. split; [| split].
  - intros w t. simpl. unfold localize.
    destruct (tz_localize zone w) as [[w' tz] | ex] eqn:Hloc; [| discriminate].
    intros H. injection H as <-. pose proof (Hkeeps w w' tz Hloc) as ->.
    exists tz. repeat split.
  - intros w ex Hloc. simpl. unfold localize. rewrite Hloc. reflexivity.
  - intros t t' H.
    destruct (normalize_result zone t t' H) as [(d & _ & ->) | (w & tz & ->)]; reflexivity.
Qed.

(** ** History *)

Section HistoryFacts.

Import History.

Lemma last_n_length {A : Type} (n : nat) (l : list A) :
  length (last_n n l) = Nat.min n (length l).
Proof. unfold last_n. rewrite length_drop. lia. Qed.

Lemma last_n_short {A : Type} (n : nat) (l : list A) :
  (length l <= n)%nat -> last_n n l = l.
Proof.
  intros H. unfold last_n.
  replace (length l - n)%nat with 0%nat by lia. reflexivity.
Qed.

Lemma last_n_app_long {A : Type} (n : nat) (l k : list A) :
  (n <= length k)%nat -> last_n n (l ++ k) = last_n n k.
Proof.
  intros H. unfold last_n. rewrite length_app.
  replace (length l + length k - n)%nat with (length l + (length k - n))%nat by lia.
  rewrite drop_app_add. reflexivity.
Qed.

(** Cutting before appending changes nothing once the result is cut. *)
Lemma last_n_cut_then_append {A : Type} (n : nat) (l k : list A) :
  last_n n (last_n n l ++ k) = last_n n (l ++ k).
Proof.
  destruct (decide (length l <= n)%nat) as [Hle | Hgt].
  - rewrite (last_n_short n l Hle). reflexivity.
  - unfold last_n at 1 3. rewrite !length_app, last_n_length.
    replace (Nat.min n (length l)) with n by lia.
    unfold last_n.
    destruct (decide (length k <= n)%nat) as [Hk | Hk].
    + replace (length l + length k - n)%nat with ((length l - n) + (n + length k - n))%nat by lia.
      rewrite <- drop_drop.
      rewrite (drop_app_le l k (length l - n)) by lia.
      reflexivity.
    + rewrite (drop_app_ge (drop (length l - n) l)) by (rewrite length_drop; lia).
      rewrite (drop_app_ge l) by lia.
      rewrite length_drop. f_equal. lia.
Qed.

Lemma record_all_snoc f entries entry :
  record_all f (entries ++ [entry]) = record_history (record_all f entries) entry.
Proof. unfold record_all. rewrite foldl_app. reflexivity. Qed.

(** After at least one append, the file holds the last hundred of what was
    there followed by what was appended. *)
Lemma record_all_load f entries :
  entries <> [] ->
  _load_history (record_all f entries)
  = last_n HISTORY_MAX (_load_history f ++ entries).
Proof.
  induction entries as [| entry entries IH] using rev_ind; [congruence |].
  intros _. rewrite record_all_snoc. unfold record_history, _save_history.
  simpl _load_history at 1.
  destruct entries as [| e0 entries'].
  - reflexivity.
  - rewrite IH by discriminate.
    rewrite last_n_cut_then_append, <- app_assoc. reflexivity.
Qed.

(** C7.  Whatever the history file held, once more than a hundred records
    have been appended through load-append-save, a read returns exactly a
    hundred records: the last hundred that were appended, oldest first.
    The same cut applies to a single save of a longer list. *)
Theorem history_keeps_the_last_hundred (f : HistoryFile) (entries : list Entry) :
  (HISTORY_MAX < length entries)%nat ->
  _load_history (record_all f entries) = drop (length entries - 100) entries
  /\ length (_load_history (record_all f entries)) = 100%nat
  /\ _load_history (_save_history entries) = drop (length entries - 100) entries.
Proof.
  intros Hlen. unfold HISTORY_MAX in Hlen.
  assert (Hne : entries <> []) by (destruct entries; [simpl in Hlen; lia | discriminate]).
  rewrite (record_all_load f entries Hne).
  rewrite last_n_app_long by (unfold HISTORY_MAX; lia).
  unfold last_n, HISTORY_MAX. repeat split.
  - rewrite length_drop. lia.
Qed.

End HistoryFacts.

(** ** The matching loop *)

Section MatcherFacts.

Import Sync.

Lemma instant_aware t s :
  instant t = Some s -> exists w tz, t = DateTime w (Some tz) /\ s = w - utcoffset tz w.
Proof.
  destruct t as [d | w [tz |]]; simpl; intros H; try discriminate.
  injection H as <-. eauto.
Qed.

(** One turn of the loop on a candidate that is skipped. *)
Lemma match_existing_skip start summary c rest :
  truthy (get_start_dateTime c) = false ->
  match_existing start summary (c :: rest) = match_existing start summary rest.
Proof. intros H. simpl. rewrite H. reflexivity. Qed.

(** One turn of the loop on a candidate whose start carries an offset. *)
Lemma match_existing_aware start s summary c rest t :
  instant start = Some s ->
  candidate_instant c = Some t ->
  match_existing start summary (c :: rest)
  = if qualifies s summary c then Ok (Some c)
    else match_existing start summary rest.
Proof.
  intros Hs Hc. apply instant_aware in Hs as (w & tz & -> & ->).
  unfold qualifies. rewrite Hc. unfold candidate_instant in Hc. simpl.
  destruct (get_start_dateTime c) as [[| | d | wn | wc off] |]; simpl in Hc; try discriminate.
  injection Hc as <-. simpl. unfold within_tolerance. reflexivity.
Qed.

Lemma readable_cases c :
  readable c ->
  truthy (get_start_dateTime c) = false \/ exists t, candidate_instant c = Some t.
Proof. intros [H | [t H]]; eauto. Qed.

(** When the loop returns, it returns the first qualifying candidate. *)
Lemma match_existing_sound start s summary cands r :
  instant start = Some s ->
  match_existing start summary cands = Ok r ->
  r = List.find (qualifies s summary) cands.
Proof.
  intros Hs. induction cands as [| c rest IH]; simpl List.find.
  - simpl. congruence.
  - destruct (candidate_instant c) as [t |] eqn:Hc.
    + rewrite (match_existing_aware start s summary c rest t Hs Hc).
      destruct (qualifies s summary c); [congruence | exact IH].
    + assert (Hq : qualifies s summary c = false) by (unfold qualifies; rewrite Hc; reflexivity).
      rewrite Hq. unfold candidate_instant in Hc.
      apply instant_aware in Hs as (w & tz & -> & ->).
      simpl. destruct (get_start_dateTime c) as [[| | d | wn | wc off] |];
        simpl in *; try discriminate; exact IH.
Qed.

(** On readable candidates the loop does return. *)
Lemma match_existing_total start s summary cands :
  instant start = Some s ->
  Forall readable cands ->
  match_existing start summary cands = Ok (List.find (qualifies s summary) cands).
Proof.
  intros Hs Hall. induction Hall as [| c rest Hc _ IH]; [reflexivity |].
  simpl List.find. destruct (readable_cases c Hc) as [Hskip | [t Ht]].
  - rewrite (match_existing_skip _ _ _ _ Hskip), IH.
    assert (Hq : qualifies s summary c = false).
    { unfold qualifies, candidate_instant.
      destruct (get_start_dateTime c) as [[| | d | wn | wc off] |]; simpl in *;
        try discriminate; reflexivity. }
    rewrite Hq. reflexivity.
  - rewrite (match_existing_aware start s summary c rest t Hs Ht), IH.
    destruct (qualifies s summary c); reflexivity.
Qed.

Lemma find_first {A : Type} (f : A -> bool) (l : list A) (x : A) :
  List.find f l = Some x ->
  exists before after,
    l = before ++ x :: after /\ f x = true /\ Forall (fun y => f y = false) before.
Proof.
  induction l as [| y l IH]; simpl; [discriminate |].
  destruct (f y) eqn:Hy.
  - intros H. injection H as ->. exists [], l. auto.
  - intros H. destruct (IH H) as (before & after & -> & Hx & Hb).
    exists (y :: before), after. auto.
Qed.

Lemma find_none {A : Type} (f : A -> bool) (l : list A) :
  List.find f l = None -> Forall (fun y => f y = false) l.
Proof.
  induction l as [| y l IH]; simpl; [constructor |].
  destruct (f y) eqn:Hy; [discriminate | auto].
Qed.

(** C2.  For a source start that denotes the instant [s]: whenever the
    matching loop returns, its answer is the first candidate, in candidate
    order, that starts at most 18000 seconds from [s] and whose summary is
    the source summary, and no match when there is none; it does return on
    every sequence of readable candidates; and a selected candidate always
    bears the source summary and lies within the tolerance. *)
Theorem matcher_selects_first_qualifying (start : PyTime) (s : Z) (summary : string)
    (cands : list RemoteEvent) :
  instant start = Some s ->
  (forall r, match_existing start summary cands = Ok r ->
             r = List.find (qualifies s summary) cands)
  /\ (Forall readable cands ->
      match_existing start summary cands = Ok (List.find (qualifies s summary) cands))
  /\ (forall c, match_existing start summary cands = Ok (Some c) ->
        re_summary c = Some summary
        /\ (exists t, candidate_instant c = Some t /\ Z.abs (s - t) <= 18000 * second)
        /\ exists before after,
             cands = before ++ c :: after
             /\ Forall (fun y => qualifies s summary y = false) before)
  /\ (match_existing start summary cands = Ok None ->
      Forall (fun y => qualifies s summary y = false) cands).
Proof.
  intros Hs. split; [| split; [| split]].
  - intros r. apply match_existing_sound. exact Hs.
  - apply match_existing_total. exact Hs.
  - intros c Hm. apply (match_existing_sound _ _ _ _ _ Hs) in Hm. symmetry in Hm.
    destruct (find_first _ _ _ Hm) as (before & after & Hl & Hq & Hb).
    assert (Hq' := Hq). unfold qualifies in Hq'.
    destruct (candidate_instant c) as [t |] eqn:Hc; [| discriminate].
    apply andb_true_iff in Hq' as [Htol Hsum].
    apply bool_decide_eq_true in Hsum. apply Z.leb_le in Htol.
    split; [exact Hsum |]. split; [eauto |]. eauto.
  - intros Hm. apply (match_existing_sound _ _ _ _ _ Hs) in Hm. symmetry in Hm.
    apply find_none. exact Hm.
Qed.

(** C9.  A candidate whose start has no [dateTime] (or an empty one) is
    transparent to the matching loop: the loop answers as if the candidate
    were not in the list, so it is never the one selected, and candidates
    of this kind alone leave the event unmatched, which is the create
    path. *)
Theorem candidate_without_dateTime_is_skipped (start : PyTime) (summary : string) :
  (forall before c after,
      truthy (get_start_dateTime c) = false ->
      match_existing start summary (before ++ c :: after)
      = match_existing start summary (before ++ after))
  /\ (forall cands m,
        match_existing start summary cands = Ok (Some m) ->
        truthy (get_start_dateTime m) = true)
  /\ (forall cands,
        Forall (fun c => truthy (get_start_dateTime c) = false) cands ->
        match_existing start summary cands = Ok None).
Proof.
  split; [| split].
  - intros before c after Hc. induction before as [| b before IH].
    + apply match_existing_skip. exact Hc.
    + simpl. rewrite IH. reflexivity.
  - intros cands m. induction cands as [| c rest IH]; simpl; [discriminate |].
    destruct (truthy (get_start_dateTime c)) eqn:Ht; simpl; [| exact IH].
    destruct (fromisoformat _); [| discriminate].
    destruct (sub_datetime _ _); [| discriminate].
    destruct (_ && _); [| exact IH].
    intros H. injection H as <-. exact Ht.
  - intros cands Hall. induction Hall as [| c rest Hc _ IH]; [reflexivity |].
    rewrite (match_existing_skip _ _ _ _ Hc). exact IH.
Qed.

End MatcherFacts.

(** ** The upload loop *)

Section UploadFacts.

Context {R : Type} (env : Env R).

Lemma for_each_app {A : Type} (body : A -> M R unit) (xs ys : list A) (s : RunState R) :
  for_each body (xs ++ ys) s
  = match for_each body xs s with
    | (Ok _, s') => for_each body ys s'
    | (Raise ex, s') => (Raise ex, s')
    end.
Proof.
  revert s. induction xs as [| x xs IH]; intros s; simpl; [reflexivity |].
  unfold bind. destruct (body x s) as [[[] | ex] s1]; [apply IH | reflexivity].
Qed.

Lemma log_returns_accepts (Hlog : log_returns env) (m : LogMsg) : log_accepts env m.
Proof.
  unfold log_returns, log_accepts in *. destruct (on_log env); [| exact I].
  intros w. apply Hlog.
Qed.

Lemma log_returns_success (Hlog : log_returns env) : log_returns_on_success env.
Proof. intros m _. apply log_returns_accepts. exact Hlog. Qed.

Lemma log_accepted (m : LogMsg) (Hm : log_accepts env m) (s : RunState R) :
  exists w',
    Sync.log env m s
    = (Ok tt, {| stats := stats s; world := w'; trace := trace s ++ log_entry env m |}).
Proof.
  unfold Sync.log, log_entry, log_accepts in *.
  destruct (on_log env) as [callback |].
  - unfold interact. specialize (Hm (world s)).
    destruct (callback m (world s)) as [r w']. simpl in Hm. subst r. eauto.
  - exists (world s). unfold ret. rewrite app_nil_r. destruct s; reflexivity.
Qed.

Lemma log_run (Hlog : log_returns env) (m : LogMsg) (s : RunState R) :
  exists w',
    Sync.log env m s
    = (Ok tt, {| stats := stats s; world := w'; trace := trace s ++ log_entry env m |}).
Proof. apply log_accepted, log_returns_accepts, Hlog. Qed.

Lemma log_trace m (s : RunState R) :
  trace (snd (Sync.log env m s)) = trace s ++ log_entry env m.
Proof.
  unfold Sync.log, log_entry. destruct (on_log env) as [callback |].
  - unfold interact. destruct (callback m (world s)). reflexivity.
  - unfold ret. simpl. rewrite app_nil_r. reflexivity.
Qed.

Lemma log_stats m (s : RunState R) : stats (snd (Sync.log env m s)) = stats s.
Proof.
  unfold Sync.log. destruct (on_log env) as [callback |]; [| reflexivity].
  unfold interact. destruct (callback m (world s)). reflexivity.
Qed.

Lemma log_entry_no_list m : Forall (fun a => is_list_call a = false) (log_entry env m).
Proof. unfold log_entry. destruct (on_log env); repeat constructor. Qed.

(** A turn whose preparation succeeds is the guarded part with its
    handler; a turn whose preparation raises does nothing else. *)
Lemma process_event_prepared cfg zone event start end_ g_event (s : RunState R) :
  prepare zone event = Ok (start, end_, g_event) ->
  Sync.process_event env cfg zone event s
  = try_except (Sync.guarded_body env cfg event start end_ g_event)
               (Sync.on_fault env event) s.
Proof.
  unfold prepare, Sync.process_event, bind, lift.
  destruct (normalize zone (ev_start event)) as [start' | ex]; [| discriminate].
  destruct (normalize zone (ev_end event)) as [end' | ex]; [| discriminate].
  destruct (Sync.build_payload event start' end') as [g | ex]; [| discriminate].
  intros H. injection H as <- <- <-. reflexivity.
Qed.

Lemma process_event_unprepared cfg zone event ex (s : RunState R) :
  prepare zone event = Raise ex ->
  Sync.process_event env cfg zone event s = (Raise ex, s).
Proof.
  unfold prepare, Sync.process_event, bind, lift.
  destruct (normalize zone (ev_start event)) as [start' | ex1];
    [| intros H; injection H as <-; reflexivity].
  destruct (normalize zone (ev_end event)) as [end' | ex2];
    [| intros H; injection H as <-; reflexivity].
  destruct (Sync.build_payload event start' end') as [g | ex3]; [discriminate |].
  intros H. injection H as <-. reflexivity.
Qed.

(** What the guarded part of one turn does: it starts with the window
    query, when the window can be computed, issues no second query, and
    either returns having counted the event once as created or updated, or
    raises having counted nothing. *)
Lemma guarded_body_spec (Hlog : log_returns_on_success env) cfg event start end_ g_event
    s r s' :
  Sync.guarded_body env cfg event start end_ g_event s = (r, s') ->
  exists tail,
    trace s' = trace s ++ window_listing cfg start end_ ++ tail
    /\ Forall (fun a => is_list_call a = false) tail
    /\ ((r = Ok tt
         /\ (stats s' = bump_created (stats s) \/ stats s' = bump_updated (stats s)))
        \/ (exists ex, r = Raise ex /\ stats s' = stats s)).
Proof.
  unfold Sync.guarded_body, window_listing, bind, lift at 1.
  destruct (Sync.window_query cfg start end_) as [q | ex0].
  2:{ intros H. injection H as <- <-. exists []. rewrite !app_nil_r. eauto 10. }
  unfold bind, lift, interact, set_stats.
  destruct (events_list env _ (world s)) as [[results | ex] w1]; simpl.
  2:{ intros H. injection H as <- <-. exists []. simpl. eauto 10. }
  destruct (Sync.match_existing _ _ _) as [[m |] | ex]; simpl.
  - destruct (get_id m) as [event_id | ex]; simpl.
    2:{ intros H. injection H as <- <-. exists []. simpl. eauto 10. }
    destruct (events_update env _ _ _ w1) as [[[] | ex] w2]; simpl.
    2:{ intros H. injection H as <- <-. eexists [_]. simpl.
        rewrite <- app_assoc. simpl. split; [reflexivity |]. split; [repeat constructor |]. eauto. }
    match goal with |- Sync.log env ?m ?s0 = _ -> _ =>
      destruct (log_accepted m (Hlog m eq_refl) s0) as [w3 ->] end.
    intros H. injection H as <- <-. simpl.
    eexists (_ :: log_entry env _). rewrite <- !app_assoc. simpl.
    split; [reflexivity |]. split; [constructor; [reflexivity | apply log_entry_no_list] |].
    left. eauto.
  - destruct (events_insert env _ _ w1) as [[[] | ex] w2]; simpl.
    2:{ intros H. injection H as <- <-. eexists [_]. simpl.
        rewrite <- app_assoc. simpl. split; [reflexivity |]. split; [repeat constructor |]. eauto. }
    match goal with |- Sync.log env ?m ?s0 = _ -> _ =>
      destruct (log_accepted m (Hlog m eq_refl) s0) as [w3 ->] end.
    intros H. injection H as <- <-. simpl.
    eexists (_ :: log_entry env _). rewrite <- !app_assoc. simpl.
    split; [reflexivity |]. split; [constructor; [reflexivity | apply log_entry_no_list] |].
    left. eauto.
  - intros H. injection H as <- <-. exists []. simpl. eauto 10.
Qed.

Lemma build_payload_timed event start end_ :
  timed start -> timed end_ ->
  exists g_event, Sync.build_payload event start end_ = Ok g_event.
Proof.
  destruct start as [d | ws tzs]; [intros [] |].
  destruct end_ as [d | we tze]; [intros _ [] |].
  intros _ _. unfold Sync.build_payload. simpl. eauto.
Qed.

Lemma build_payload_date event start end_ :
  ~ (timed start /\ timed end_) ->
  exists msg, Sync.build_payload event start end_ = Raise (AttributeError msg).
Proof.
  intros H. unfold Sync.build_payload.
  destruct start as [d | ws tzs]; simpl; [eauto |].
  destruct end_ as [d | we tze]; simpl; [eauto |].
  exfalso. apply H. simpl. auto.
Qed.

Lemma prepare_normalized zone event start end_ g_event :
  prepare zone event = Ok (start, end_, g_event) ->
  normalize zone (ev_start event) = Ok start
  /\ normalize zone (ev_end event) = Ok end_
  /\ Sync.build_payload event start end_ = Ok g_event.
Proof.
  unfold prepare.
  destruct (normalize zone (ev_start event)) as [start' | ex]; [| discriminate].
  destruct (normalize zone (ev_end event)) as [end' | ex]; [| discriminate].
  destruct (Sync.build_payload event start' end') as [g | ex] eqn:Hpay; [| discriminate].
  intros H. injection H as <- <- <-. auto.
Qed.

(** What reaches the guard: two aware datetimes, and the payload made of
    their texts. *)
Lemma prepare_aware zone event start end_ g_event :
  prepare zone event = Ok (start, end_, g_event) ->
  exists ws tzs we tze,
    start = DateTime ws (Some tzs) /\ end_ = DateTime we (Some tze)
    /\ p_summary g_event = ev_summary event
    /\ dateTime (p_start g_event) = IsoAware ws (utcoffset tzs ws)
    /\ dateTime (p_end g_event) = IsoAware we (utcoffset tze we).
Proof.
  intros Hprep. destruct (prepare_normalized _ _ _ _ _ Hprep) as (Hs & He & Hpay).
  destruct (normalize_result zone _ _ Hs) as [(d & _ & ->) | (ws & tzs & ->)];
    [discriminate Hpay |].
  destruct (normalize_result zone _ _ He) as [(d & _ & ->) | (we & tze & ->)];
    [discriminate Hpay |].
  unfold Sync.build_payload in Hpay. simpl in Hpay. injection Hpay as <-.
  exists ws, tzs, we, tze. repeat split.
Qed.

(** An event is prepared when its bounds are datetimes that the zone
    normalises, and only then. *)
Lemma prepared_iff zone event :
  prepared zone event
  <-> timed_event event
      /\ (exists start, normalize zone (ev_start event) = Ok start)
      /\ (exists end_, normalize zone (ev_end event) = Ok end_).
Proof.
  unfold prepared, prepare, timed_event. split.
  - intros (start & end_ & g & H).
    destruct (normalize zone (ev_start event)) as [start' | ex] eqn:Hs; [| discriminate].
    destruct (normalize zone (ev_end event)) as [end' | ex] eqn:He; [| discriminate].
    destruct (Sync.build_payload event start' end') as [g' | ex] eqn:Hpay; [| discriminate].
    split; [| eauto].
    destruct (ev_start event) as [d | ws tzs].
    { simpl in Hs. injection Hs as <-. discriminate Hpay. }
    destruct (ev_end event) as [d | we tze].
    { simpl in He. injection He as <-. unfold Sync.build_payload in Hpay.
      destruct (tzinfo_of start'); discriminate Hpay. }
    split; exact I.
  - intros ([Hts Hte] & [start Hs] & [end_ He]). rewrite Hs, He.
    destruct (normalize_timed zone _ _ Hs Hts) as [_ Hts'].
    destruct (normalize_timed zone _ _ He Hte) as [_ Hte'].
    destruct (build_payload_timed event start end_ Hts' Hte') as [g ->]. eauto.
Qed.

(** An event with a plain date as a bound never reaches the guard. *)
Lemma prepare_date zone event :
  ~ timed_event event ->
  exists ex,
    prepare zone event = Raise ex
    /\ (forall start end_,
          normalize zone (ev_start event) = Ok start ->
          normalize zone (ev_end event) = Ok end_ ->
          exists msg, ex = AttributeError msg).
Proof.
  intros Hdate. unfold prepare.
  destruct (normalize zone (ev_start event)) as [start | ex1] eqn:Hs.
  2:{ exists ex1. split; [reflexivity | discriminate]. }
  destruct (normalize zone (ev_end event)) as [end_ | ex2] eqn:He.
  2:{ exists ex2. split; [reflexivity |]. intros ? ? _ H. discriminate H. }
  destruct (build_payload_date event start end_) as [msg ->].
  { intros [Hts Hte]. apply Hdate. split.
    - destruct (ev_start event) as [d | ws tzs]; [| exact I].
      simpl in Hs. injection Hs as <-. exact Hts.
    - destruct (ev_end event) as [d | we tze]; [| exact I].
      simpl in He. injection He as <-. exact Hte. }
  exists (AttributeError msg). split; [reflexivity |]. eauto.
Qed.

(** One turn of the loop, when it reaches the guard: it returns, and
    exactly one of the three counters has gone up by one. *)
Lemma process_event_spec (Hlog : log_returns env) cfg zone event start end_ g_event s :
  prepare zone event = Ok (start, end_, g_event) ->
  exists s',
    Sync.process_event env cfg zone event s = (Ok tt, s')
    /\ total (stats s') = S (total (stats s))
    /\ exists tail,
         trace s' = trace s ++ window_listing cfg start end_ ++ tail
         /\ Forall (fun a => is_list_call a = false) tail.
Proof.
  intros Hprep. rewrite (process_event_prepared cfg zone event _ _ _ s Hprep).
  unfold try_except.
  destruct (Sync.guarded_body env cfg event start end_ g_event s) as [r s1] eqn:Hbody.
  destruct (guarded_body_spec (log_returns_success Hlog) _ _ _ _ _ _ _ _ Hbody)
    as (tail & Htr & Hnolist & [[-> Hst] | (ex & -> & Hst)]).
  - exists s1. split; [reflexivity |]. split.
    + destruct Hst as [-> | ->]; unfold total; simpl; lia.
    + eauto.
  - unfold Sync.on_fault, bind, set_stats.
    match goal with |- context [Sync.log env ?m ?s0] =>
      destruct (log_run Hlog m s0) as [w3 ->] end.
    eexists. split; [reflexivity |]. simpl. split.
    + rewrite Hst. unfold total. simpl. lia.
    + exists (tail ++ log_entry env (LogError (ev_summary event) ex)).
      rewrite Htr, <- !app_assoc. split; [reflexivity |].
      apply Forall_app. split; [exact Hnolist | apply log_entry_no_list].
Qed.

(** A turn that returns has counted its event once, also when the
    callback may fail on the message of an error: the turn does not return
    then. *)
Lemma process_event_returns_counts (Hlog : log_returns_on_success env) cfg zone event s s' :
  Sync.process_event env cfg zone event s = (Ok tt, s') ->
  total (stats s') = S (total (stats s)).
Proof.
  destruct (prepare zone event) as [[[start end_] g_event] | ex] eqn:Hprep.
  - rewrite (process_event_prepared cfg zone event _ _ _ s Hprep). unfold try_except.
    destruct (Sync.guarded_body env cfg event start end_ g_event s) as [r s1] eqn:Hbody.
    destruct (guarded_body_spec Hlog _ _ _ _ _ _ _ _ Hbody)
      as (tail & _ & _ & [[-> Hst] | (ex & -> & Hst)]).
    + intros H. injection H as <-.
      destruct Hst as [-> | ->]; unfold total; simpl; lia.
    + unfold Sync.on_fault, bind, set_stats.
      match goal with |- context [Sync.log env ?m ?s0] =>
        pose proof (log_stats m s0) as Hkeep end.
      intros H. rewrite H in Hkeep. simpl in Hkeep. rewrite Hkeep, Hst.
      unfold total. simpl. lia.
  - rewrite (process_event_unprepared _ _ _ _ _ Hprep). discriminate.
Qed.

Lemma for_each_counts (Hlog : log_returns_on_success env) cfg zone events s s' :
  for_each (Sync.process_event env cfg zone) events s = (Ok tt, s') ->
  total (stats s') = (total (stats s) + length events)%nat.
Proof.
  revert s. induction events as [| e events IH]; intros s; simpl.
  - unfold ret. intros H. injection H as <-. lia.
  - unfold bind.
    destruct (Sync.process_event env cfg zone e s) as [[[] | ex] s1] eqn:He; [| discriminate].
    intros H. apply IH in H. apply (process_event_returns_counts Hlog) in He. lia.
Qed.

Lemma for_each_returns (Hlog : log_returns env) cfg zone events s :
  Forall (prepared zone) events ->
  exists s', for_each (Sync.process_event env cfg zone) events s = (Ok tt, s').
Proof.
  intros Hall. revert s.
  induction Hall as [| e events (start & end_ & g & Hprep) _ IH]; intros s; simpl.
  - unfold ret. eauto.
  - destruct (process_event_spec Hlog cfg zone e _ _ _ s Hprep) as (s1 & Hrun & _).
    unfold bind. rewrite Hrun. apply IH.
Qed.

End UploadFacts.

(** ** Whole runs *)

Section RunFacts.

Context {R : Type} (env : Env R).

Lemma run_started cfg events w w0 zone :
  get_calendar_service env w = (Ok tt, w0) ->
  pytz_timezone env (TIMEZONE cfg) = Some zone ->
  Sync.run env cfg events w
  = match for_each (Sync.process_event env cfg zone) events (started w0) with
    | (Ok _, s') => (Ok (stats s'), s')
    | (Raise ex, s') => (Raise ex, s')
    end.
Proof.
  intros Hsvc Hzone.
  unfold Sync.run, Sync.upload_events_to_gcal, Sync.resolve_timezone, bind, interact,
    set_stats, ret, init_state, started.
  simpl. rewrite Hsvc, Hzone. simpl. reflexivity.
Qed.

Lemma run_returns_started cfg events w st s' :
  Sync.run env cfg events w = (Ok st, s') ->
  exists w0 zone,
    get_calendar_service env w = (Ok tt, w0)
    /\ pytz_timezone env (TIMEZONE cfg) = Some zone
    /\ for_each (Sync.process_event env cfg zone) events (started w0) = (Ok tt, s')
    /\ st = stats s'.
Proof.
  unfold Sync.run, Sync.upload_events_to_gcal, Sync.resolve_timezone, bind, interact,
    set_stats, ret, raise, init_state, started.
  simpl. destruct (get_calendar_service env w) as [[[] | ex] w0]; [| discriminate].
  destruct (pytz_timezone env (TIMEZONE cfg)) as [zone |]; [| discriminate].
  simpl.
  destruct (for_each _ events _) as [[[] | ex] s1] eqn:Hloop; [| discriminate].
  intros H. injection H as <- <-. eauto 10.
Qed.

(** C1, as amended.  Provided the callback returns normally when it is
    told of a created or an updated event: whenever
    [upload_events_to_gcal] returns statistics for a sequence of events,
    the three counters add up to the number of events.  With usable
    credentials and a zone that resolves, statistics are returned for the
    empty sequence, all three zero, and, when the callback returns
    normally on every message, for every sequence of events that reach
    the guard. *)
Theorem stats_account_for_every_event (cfg : Config) (events : list SourceEvent) (w : R) :
  log_returns_on_success env ->
  (forall st s',
      Sync.run env cfg events w = (Ok st, s') ->
      (created st + updated st + errors st)%nat = length events)
  /\ (forall zone,
        fst (get_calendar_service env w) = Ok tt ->
        pytz_timezone env (TIMEZONE cfg) = Some zone ->
        (log_returns env ->
         Forall (prepared zone) events ->
         exists st s',
           Sync.run env cfg events w = (Ok st, s')
           /\ (created st + updated st + errors st)%nat = length events)
        /\ fst (Sync.run env cfg [] w) = Ok stats_zero).
Proof.
  intros Hlog. split.
  - intros st s' Hrun.
    destruct (run_returns_started _ _ _ _ _ Hrun) as (w0 & zone & _ & _ & Hloop & ->).
    apply (for_each_counts env Hlog) in Hloop. unfold total in Hloop. simpl in Hloop. lia.
  - intros zone Hsvc Hzone.
    destruct (get_calendar_service env w) as [r w0] eqn:Hs. simpl in Hsvc. subst r.
    split.
    + intros Hall Hprep. rewrite (run_started cfg events w w0 zone Hs Hzone).
      destruct (for_each_returns env Hall cfg zone events (started w0) Hprep) as [s' Hloop].
      rewrite Hloop. exists (stats s'), s'. split; [reflexivity |].
      apply (for_each_counts env Hlog) in Hloop. unfold total in Hloop. simpl in Hloop. lia.
    + rewrite (run_started cfg [] w w0 zone Hs Hzone). reflexivity.
Qed.

Lemma fault_raises cfg event start end_ g_event s ex :
  Fault env cfg event start end_ g_event (world s) ex ->
  exists s1,
    Sync.guarded_body env cfg event start end_ g_event s = (Raise ex, s1)
    /\ stats s1 = stats s
    /\ logged (trace s1) = logged (trace s).
Proof.
  intros HF. unfold Sync.guarded_body, bind, lift, interact, logged.
  destruct HF as [Hq | q w1 Hq Hl | q results w1 Hq Hl Hm | q results w1 m Hq Hl Hm Hid
                  | q results w1 m event_id w2 Hq Hl Hm Hid Hu | q results w1 w2 Hq Hl Hm Hi];
    rewrite Hq; simpl; try rewrite Hl; simpl; try rewrite Hm; simpl; try rewrite Hid; simpl;
    try rewrite Hu; try rewrite Hi; simpl;
    (eexists; split; [reflexivity |]; split; [reflexivity |]);
    simpl; rewrite ?omap_app; simpl; rewrite ?app_nil_r; reflexivity.
Qed.

Lemma logged_app (a b : list Action) : logged (a ++ b) = logged a ++ logged b.
Proof. unfold logged. apply omap_app. Qed.

(** C3, as amended.  A fault of the window arithmetic, the list call,
    the matching loop, the lookup of the matched identifier, the update
    or the insert, for an event that has reached the guard, is caught
    there: created and updated stay as they were, errors goes up by one,
    and the callback, when there is one, is told the summary and the
    exception; the statistics keep a count and no reason.  Provided the
    callback returns normally when it is told so, the turn returns and the
    loop goes on with the next event, from the state the turn has left. *)
Theorem store_fault_is_counted_and_loop_goes_on (cfg : Config) (zone : TimeZone)
    (event : SourceEvent) (rest : list SourceEvent) (start end_ : PyTime)
    (g_event : Payload) (s : RunState R) (ex : exn) :
  log_accepts env (LogError (ev_summary event) ex) ->
  prepare zone event = Ok (start, end_, g_event) ->
  Fault env cfg event start end_ g_event (world s) ex ->
  exists s1 s2,
    Sync.guarded_body env cfg event start end_ g_event s = (Raise ex, s1)
    /\ stats s1 = stats s
    /\ Sync.process_event env cfg zone event s = (Ok tt, s2)
    /\ stats s2 = bump_errors (stats s)
    /\ trace s2 = trace s1 ++ log_entry env (LogError (ev_summary event) ex)
    /\ (is_Some (on_log env) ->
        logged (trace s2) = logged (trace s) ++ [LogError (ev_summary event) ex])
    /\ (on_log env = None -> trace s2 = trace s1)
    /\ for_each (Sync.process_event env cfg zone) (event :: rest) s
       = for_each (Sync.process_event env cfg zone) rest s2.
Proof.
  intros Hlog Hprep HF.
  destruct (fault_raises _ _ _ _ _ _ _ HF) as (s1 & Hbody & Hst & Hlogged).
  assert (Hturn : exists w2,
    Sync.process_event env cfg zone event s
    = (Ok tt, {| stats := bump_errors (stats s); world := w2;
                 trace := trace s1 ++ log_entry env (LogError (ev_summary event) ex) |})).
  { rewrite (process_event_prepared env cfg zone event _ _ _ s Hprep).
    unfold try_except. rewrite Hbody.
    unfold Sync.on_fault, bind, set_stats.
    match goal with |- context [Sync.log env ?m ?s0] =>
      destruct (log_accepted env m Hlog s0) as [w2 ->] end.
    simpl. rewrite Hst. eauto. }
  destruct Hturn as [w2 Hturn].
  eexists s1, _. split; [exact Hbody |]. split; [exact Hst |].
  split; [exact Hturn |]. split; [reflexivity |]. split; [reflexivity |].
  split; [| split].
  - intros [callback Hcb]. simpl. rewrite logged_app, Hlogged.
    unfold log_entry. rewrite Hcb. reflexivity.
  - intros Hnone. simpl. unfold log_entry. rewrite Hnone. apply app_nil_r.
  - simpl. unfold bind. rewrite Hturn. reflexivity.
Qed.

(** C8.  When the configured zone does not resolve, the upload raises
    whatever the event sequence: the only thing that has happened is the
    construction of the service, so no calendar call was issued, the
    callback was never called and no counter moved; with usable
    credentials the exception is the unknown-zone error. *)
Theorem unknown_timezone_aborts_before_any_event (cfg : Config)
    (events : list SourceEvent) (w : R) :
  pytz_timezone env (TIMEZONE cfg) = None ->
  exists ex s',
    Sync.run env cfg events w = (Raise ex, s')
    /\ trace s' = [CallService]
    /\ store_calls (trace s') = []
    /\ logged (trace s') = []
    /\ stats s' = stats_zero
    /\ (fst (get_calendar_service env w) = Ok tt ->
        ex = UnknownTimeZoneError (TIMEZONE cfg)).
Proof.
  intros Hzone.
  unfold Sync.run, Sync.upload_events_to_gcal, Sync.resolve_timezone, bind, interact,
    raise, init_state.
  simpl. rewrite Hzone.
  destruct (get_calendar_service env w) as [[[] | ex] w0]; simpl.
  - eexists _, _. split; [reflexivity |]. simpl. repeat split.
  - eexists _, _. split; [reflexivity |]. simpl. repeat split. discriminate.
Qed.

(** An exception raised before the guard leaves the upload from the state
    reached by the events before. *)
Lemma unprepared_event_aborts cfg zone before event after w w0 s1 ex :
  get_calendar_service env w = (Ok tt, w0) ->
  pytz_timezone env (TIMEZONE cfg) = Some zone ->
  for_each (Sync.process_event env cfg zone) before (started w0) = (Ok tt, s1) ->
  prepare zone event = Raise ex ->
  Sync.process_event env cfg zone event s1 = (Raise ex, s1)
  /\ Sync.run env cfg (before ++ event :: after) w = (Raise ex, s1).
Proof.
  intros Hsvc Hzone Hbefore Hprep.
  assert (Hturn := process_event_unprepared env cfg zone event _ s1 Hprep).
  split; [exact Hturn |].
  rewrite (run_started cfg _ w w0 zone Hsvc Hzone), for_each_app, Hbefore.
  simpl. unfold bind. rewrite Hturn. reflexivity.
Qed.

(** C10.  An event with a plain date as its start or end makes the turn
    raise outside the guard: the exception leaves the upload, which
    returns no statistics; the state at that point is the one reached by
    the events before it, so the event is not counted as an error, no call
    is made for it, and the events after it are never looked at.  The
    exception is the attribute error of the construction of the payload,
    unless the normalisation of the other bound has raised before it.  An
    exception of the normalisation leaves the upload in the same way,
    whatever the event. *)
Theorem payload_fault_aborts_the_batch (cfg : Config) (zone : TimeZone)
    (before : list SourceEvent) (event : SourceEvent) (after : list SourceEvent)
    (w w0 : R) (s1 : RunState R) :
  get_calendar_service env w = (Ok tt, w0) ->
  pytz_timezone env (TIMEZONE cfg) = Some zone ->
  for_each (Sync.process_event env cfg zone) before (started w0) = (Ok tt, s1) ->
  ~ timed_event event ->
  (exists ex,
     Sync.process_event env cfg zone event s1 = (Raise ex, s1)
     /\ Sync.run env cfg (before ++ event :: after) w = (Raise ex, s1)
     /\ (forall start end_,
           normalize zone (ev_start event) = Ok start ->
           normalize zone (ev_end event) = Ok end_ ->
           exists msg, ex = AttributeError msg))
  /\ (forall other ex,
        normalize zone (ev_start other) = Raise ex
        \/ (exists start, normalize zone (ev_start other) = Ok start)
           /\ normalize zone (ev_end other) = Raise ex ->
        Sync.process_event env cfg zone other s1 = (Raise ex, s1)
        /\ Sync.run env cfg (before ++ other :: after) w = (Raise ex, s1)).
Proof.
  intros Hsvc Hzone Hbefore Hdate. split.
  - destruct (prepare_date zone event Hdate) as (ex & Hprep & Hkind).
    exists ex.
    destruct (unprepared_event_aborts cfg zone before event after w w0 s1 ex
                Hsvc Hzone Hbefore Hprep) as [Hturn Hrun].
    auto.
  - intros other ex Hnorm.
    apply (unprepared_event_aborts cfg zone before other after w w0 s1 ex Hsvc Hzone Hbefore).
    unfold prepare. destruct Hnorm as [-> | [[start ->] ->]]; reflexivity.
Qed.

End RunFacts.

(** ** The window query *)

Section QueryFacts.

Context {R : Type} (env : Env R).

(** The guarded part of a turn issues the window query first and no other
    query, whatever happens afterwards. *)
Lemma guarded_body_queries_once cfg event start end_ g_event (s : RunState R) :
  exists tail,
    trace (snd (Sync.guarded_body env cfg event start end_ g_event s))
    = trace s ++ window_listing cfg start end_ ++ tail
    /\ Forall (fun a => is_list_call a = false) tail.
Proof.
  unfold Sync.guarded_body, window_listing, bind, lift at 1.
  destruct (Sync.window_query cfg start end_) as [q | ex0].
  2:{ exists []. simpl. rewrite app_nil_r. auto. }
  unfold bind, lift, interact, set_stats.
  destruct (events_list env _ (world s)) as [[results | ex] w1]; simpl.
  2:{ exists []. auto. }
  destruct (Sync.match_existing _ _ _) as [[m |] | ex]; simpl.
  - destruct (get_id m) as [event_id | ex]; simpl.
    2:{ exists []. auto. }
    destruct (events_update env _ _ _ w1) as [[[] | ex] w2]; simpl.
    2:{ eexists [_]. rewrite <- app_assoc. simpl. split; [reflexivity | repeat constructor]. }
    match goal with |- context [Sync.log env ?m ?s0] =>
      destruct (Sync.log env m s0) as [r s'] eqn:Hlog;
      pose proof (log_trace env m s0) as Htr; rewrite Hlog in Htr end.
    simpl in *. rewrite Htr, <- !app_assoc. simpl.
    eexists. split; [reflexivity |].
    constructor; [reflexivity | apply log_entry_no_list].
  - destruct (events_insert env _ _ w1) as [[[] | ex] w2]; simpl.
    2:{ eexists [_]. rewrite <- app_assoc. simpl. split; [reflexivity | repeat constructor]. }
    match goal with |- context [Sync.log env ?m ?s0] =>
      destruct (Sync.log env m s0) as [r s'] eqn:Hlog;
      pose proof (log_trace env m s0) as Htr; rewrite Hlog in Htr end.
    simpl in *. rewrite Htr, <- !app_assoc. simpl.
    eexists. split; [reflexivity |].
    constructor; [reflexivity | apply log_entry_no_list].
  - exists []. auto.
Qed.

Lemma process_event_queries_once cfg zone event start end_ g_event (s : RunState R) :
  prepare zone event = Ok (start, end_, g_event) ->
  exists tail,
    trace (snd (Sync.process_event env cfg zone event s))
    = trace s ++ window_listing cfg start end_ ++ tail
    /\ Forall (fun a => is_list_call a = false) tail.
Proof.
  intros Hprep. rewrite (process_event_prepared env cfg zone event _ _ _ s Hprep).
  unfold try_except.
  destruct (guarded_body_queries_once cfg event start end_ g_event s) as (tail & Htr & Hno).
  destruct (Sync.guarded_body env cfg event _ _ g_event s) as [[[] | ex] s1]; simpl in *.
  - eauto.
  - unfold Sync.on_fault, bind, set_stats.
    match goal with |- context [Sync.log env ?m ?s0] =>
      destruct (Sync.log env m s0) as [r s'] eqn:Hlog;
      pose proof (log_trace env m s0) as Htr'; rewrite Hlog in Htr' end.
    simpl in *. rewrite Htr', Htr, <- !app_assoc.
    eexists. split; [reflexivity |].
    apply Forall_app. split; [exact Hno | apply log_entry_no_list].
Qed.

(** A window that cannot be computed: the turn makes no call, counts one
    error and tells the callback. *)
Lemma process_event_without_window cfg zone event start end_ g_event (s : RunState R) ex :
  prepare zone event = Ok (start, end_, g_event) ->
  Sync.window_query cfg start end_ = Raise ex ->
  trace (snd (Sync.process_event env cfg zone event s))
  = trace s ++ log_entry env (LogError (ev_summary event) ex)
  /\ stats (snd (Sync.process_event env cfg zone event s)) = bump_errors (stats s).
Proof.
  intros Hprep Hq. rewrite (process_event_prepared env cfg zone event _ _ _ s Hprep).
  unfold try_except, Sync.guarded_body, bind, lift at 1. rewrite Hq.
  unfold Sync.on_fault, bind, set_stats.
  match goal with |- context [Sync.log env ?m ?s0] =>
    pose proof (log_trace env m s0) as Htr; pose proof (log_stats env m s0) as Hst end.
  simpl in *.
  destruct (Sync.log env _ _) as [[[] | ex'] s']; simpl in *; (split; assumption).
Qed.

(** A listing whose items all lack a start [dateTime] sends the turn down
    the insert path: the query is followed by the insert of the payload. *)
Lemma listing_without_dateTime_leads_to_insert cfg zone event start end_ g_event q
    (s : RunState R) results w1 :
  prepare zone event = Ok (start, end_, g_event) ->
  Sync.window_query cfg start end_ = Ok q ->
  events_list env q (world s) = (Ok results, w1) ->
  Forall (fun c => truthy (get_start_dateTime c) = false) (default [] (items results)) ->
  exists tail,
    trace (snd (Sync.process_event env cfg zone event s))
    = trace s ++ [CallList q; CallInsert (CALENDAR_ID cfg) g_event] ++ tail.
Proof.
  intros Hprep Hq Hlist Hall.
  assert (Hnone : Sync.match_existing start (ev_summary event)
                    (default [] (items results)) = Ok None).
  { induction Hall as [| c rest Hc _ IH]; [reflexivity |].
    simpl. rewrite Hc. exact IH. }
  rewrite (process_event_prepared env cfg zone event _ _ _ s Hprep). unfold try_except.
  unfold Sync.guarded_body, bind, lift at 1. rewrite Hq.
  unfold bind, lift, interact, set_stats.
  rewrite Hlist. simpl. rewrite Hnone. simpl.
  destruct (events_insert env _ _ w1) as [[[] | ex] w2]; simpl.
  - match goal with |- context [Sync.log env ?m ?s0] =>
      destruct (Sync.log env m s0) as [[[] | ex] s'] eqn:Hlog;
      pose proof (log_trace env m s0) as Htr; rewrite Hlog in Htr end; simpl in *.
    + rewrite Htr, <- !app_assoc. simpl. eauto.
    + unfold Sync.on_fault, bind, set_stats.
      match goal with |- context [Sync.log env ?m ?s0] =>
        destruct (Sync.log env m s0) as [r2 s2] eqn:Hlog2;
        pose proof (log_trace env m s0) as Htr2; rewrite Hlog2 in Htr2 end; simpl in *.
      rewrite Htr2, Htr, <- !app_assoc. simpl. eauto.
  - unfold Sync.on_fault, bind, set_stats.
    match goal with |- context [Sync.log env ?m ?s0] =>
      destruct (Sync.log env m s0) as [r2 s2] eqn:Hlog2;
      pose proof (log_trace env m s0) as Htr2; rewrite Hlog2 in Htr2 end; simpl in *.
    rewrite Htr2, <- !app_assoc. simpl. eauto.
Qed.

Lemma fixed_utcoffset tz w1 w2 : fixed tz = true -> utcoffset tz w1 = utcoffset tz w2.
Proof. destruct tz; simpl; [reflexivity | reflexivity | discriminate]. Qed.

(** The two bounds of the window, for bounds that are datetimes. *)
Lemma window_query_bounds cfg ws tzs we tze :
  Sync.window_query cfg (DateTime ws tzs) (DateTime we tze)
  = if representable (ws - 5 * hour) then
      if representable (we + 5 * hour) then
        Ok {| q_calendarId := CALENDAR_ID cfg;
              q_timeMin := isoformat (DateTime (ws - 5 * hour) tzs);
              q_timeMax := isoformat (DateTime (we + 5 * hour) tze);
              q_singleEvents := true;
              q_maxResults := 10;
              q_orderBy := "startTime" |}
      else Raise (OverflowError "date value out of range")
    else Raise (OverflowError "date value out of range").
Proof.
  unfold Sync.window_query, sub_timedelta, add_timedelta, timedelta_hours.
  destruct (representable (ws - 5 * hour)); [| reflexivity].
  destruct (representable (we + 5 * hour)); reflexivity.
Qed.

(** C5, as amended.  For an event that reaches the guard with the bounds
    [start] and [end_].  When [start - 5h] and [end_ + 5h] are times a
    [datetime] holds, the turn issues exactly one listing, before anything
    else: its bounds are the texts of these two datetimes, which have the
    wall-clock fields moved by five hours and the zone object of [start]
    and of [end_]; in instants they lie five hours before the start and
    five hours after the end when the zone object has one offset; it asks
    for at most ten results, single events, ordered by start time, in the
    configured calendar.  When one of the two is not such a time, the turn
    makes no listing: it counts the event as an error. *)
Theorem window_is_event_range_widened_by_five_hours (cfg : Config) (zone : TimeZone)
    (event : SourceEvent) (start end_ : PyTime) (g_event : Payload) (s : RunState R) :
  prepare zone event = Ok (start, end_, g_event) ->
  exists ws tzs we tze,
    start = DateTime ws (Some tzs) /\ end_ = DateTime we (Some tze)
    /\ (representable (ws - 5 * hour) = true /\ representable (we + 5 * hour) = true ->
        exists q tail,
          Sync.window_query cfg start end_ = Ok q
          /\ trace (snd (Sync.process_event env cfg zone event s)) = trace s ++ CallList q :: tail
          /\ Forall (fun a => is_list_call a = false) tail
          /\ q_timeMin q = isoformat (DateTime (ws - 5 * hour) (Some tzs))
          /\ q_timeMax q = isoformat (DateTime (we + 5 * hour) (Some tze))
          /\ q_timeMin q = IsoAware (ws - 5 * hour) (utcoffset tzs (ws - 5 * hour))
          /\ q_timeMax q = IsoAware (we + 5 * hour) (utcoffset tze (we + 5 * hour))
          /\ (fixed tzs = true ->
              forall ts, instant start = Some ts ->
                         iso_instant (q_timeMin q) = Some (ts - 5 * 3600 * second))
          /\ (fixed tze = true ->
              forall te, instant end_ = Some te ->
                         iso_instant (q_timeMax q) = Some (te + 5 * 3600 * second))
          /\ q_maxResults q = 10
          /\ q_orderBy q = "startTime"
          /\ q_singleEvents q = true
          /\ q_calendarId q = CALENDAR_ID cfg)
    /\ (representable (ws - 5 * hour) = false \/ representable (we + 5 * hour) = false ->
        exists ex,
          Sync.window_query cfg start end_ = Raise ex
          /\ list_calls (trace (snd (Sync.process_event env cfg zone event s)))
             = list_calls (trace s)
          /\ store_calls (trace (snd (Sync.process_event env cfg zone event s)))
             = store_calls (trace s)
          /\ stats (snd (Sync.process_event env cfg zone event s)) = bump_errors (stats s)).
Proof.
  intros Hprep.
  assert (Haware : exists ws tzs we tze,
            start = DateTime ws (Some tzs) /\ end_ = DateTime we (Some tze)).
  { unfold prepare in Hprep.
    destruct (normalize zone (ev_start event)) as [start' | ?] eqn:Hs; [| discriminate].
    destruct (normalize zone (ev_end event)) as [end' | ?] eqn:He; [| discriminate].
    destruct (Sync.build_payload event start' end') as [g | ?] eqn:Hpay; [| discriminate].
    injection Hprep as -> -> ->.
    destruct (normalize_result zone _ _ Hs) as [(d & _ & ->) | (ws & tzs & ->)];
      [discriminate Hpay |].
    destruct (normalize_result zone _ _ He) as [(d & _ & ->) | (we & tze & ->)];
      [discriminate Hpay |].
    eauto 10. }
  destruct Haware as (ws & tzs & we & tze & -> & ->).
  exists ws, tzs, we, tze. split; [reflexivity |]. split; [reflexivity |].
  pose proof (window_query_bounds cfg ws (Some tzs) we (Some tze)) as Hq.
  split.
  - intros [Hlo Hhi]. rewrite Hlo, Hhi in Hq.
    destruct (process_event_queries_once cfg zone event _ _ _ s Hprep) as (tail & Htr & Hno).
    unfold window_listing in Htr. rewrite Hq in Htr.
    eexists _, tail. split; [exact Hq |]. split; [exact Htr |]. split; [exact Hno |].
    simpl. repeat split.
    + intros Hfixed ts Hts. injection Hts as <-.
      rewrite (fixed_utcoffset tzs (ws - 5 * hour) ws Hfixed). unfold hour. f_equal. lia.
    + intros Hfixed te Hte. injection Hte as <-.
      rewrite (fixed_utcoffset tze (we + 5 * hour) we Hfixed). unfold hour. f_equal. lia.
  - intros Hout.
    assert (Hraise : Sync.window_query cfg (DateTime ws (Some tzs)) (DateTime we (Some tze))
                     = Raise (OverflowError "date value out of range")).
    { rewrite Hq. destruct Hout as [-> | ->]; [reflexivity |].
      destruct (representable (ws - 5 * hour)); reflexivity. }
    exists (OverflowError "date value out of range"). split; [exact Hraise |].
    destruct (process_event_without_window cfg zone event _ _ _ s _ Hprep Hraise) as [Htr Hst].
    rewrite Htr. unfold list_calls, store_calls, log_entry.
    destruct (on_log env); rewrite !filter_app; simpl; rewrite ?app_nil_r; auto.
Qed.

End QueryFacts.

(** ** Two runs against a faithful store *)

Section FaithfulFacts.

Import FaithfulStore.

Lemma candidates_elem lo hi n (s : Store) item :
  item ∈ candidates lo hi n s ->
  s !! fst item = Some (snd item) /\ in_window lo hi item = true.
Proof.
  unfold candidates. intros H.
  apply (subseteq_take n) in H.
  rewrite merge_sort_Permutation in H.
  apply list_elem_of_filter in H as [Hwin Hin].
  destruct item as [id body]. apply elem_of_map_to_list in Hin. auto.
Qed.

(** A listing leaves nothing out when the window holds no more events
    than it may return. *)
Lemma candidates_all lo hi n (s : Store) id body :
  (held_within lo hi s <= n)%nat ->
  s !! id = Some body ->
  in_window lo hi (id, body) = true ->
  (id, body) ∈ candidates lo hi n s.
Proof.
  intros Hsize Hlook Hwin. unfold candidates.
  rewrite take_ge.
  - rewrite merge_sort_Permutation. apply list_elem_of_filter.
    split; [exact Hwin | apply elem_of_map_to_list; exact Hlook].
  - rewrite merge_sort_Permutation. exact Hsize.
Qed.

(** The listing of the store is what the interface promises: no more than
    the limit, every item inside the window, in ascending order of start. *)
Lemma candidates_capped lo hi n (s : Store) : (length (candidates lo hi n s) <= n)%nat.
Proof. unfold candidates. rewrite length_take. lia. Qed.

Lemma sorted_take {A : Type} (Rel : relation A) (n : nat) (l : list A) :
  StronglySorted Rel l -> StronglySorted Rel (take n l).
Proof.
  intros H. revert n. induction H as [| x l Hl IH Hx]; intros [| n]; simpl;
    try constructor.
  - apply IH.
  - apply Forall_forall. intros y Hy. apply (subseteq_take n) in Hy.
    rewrite Forall_forall in Hx. apply Hx. exact Hy.
Qed.

Lemma candidates_ascending lo hi n (s : Store) :
  StronglySorted starts_before (candidates lo hi n s).
Proof.
  unfold candidates. apply sorted_take.
  assert (Htrans : Transitive starts_before) by (intros a b c; unfold starts_before; lia).
  assert (Htotal : Total starts_before) by (intros a b; unfold starts_before; lia).
  apply StronglySorted_merge_sort; assumption.
Qed.

Lemma render_instant item : candidate_instant (render item) = start_instant (snd item).
Proof. reflexivity. Qed.

Lemma render_readable lo hi item : in_window lo hi item = true -> readable (render item).
Proof.
  unfold in_window. intros H. right. rewrite render_instant.
  destruct (start_instant (snd item)); [eauto | discriminate].
Qed.

Lemma qualifies_render ts summary item :
  qualifies ts summary (render item) = true ->
  p_summary (snd item) = summary
  /\ exists t, start_instant (snd item) = Some t /\ Z.abs (ts - t) <= 18000 * second.
Proof.
  unfold qualifies. rewrite render_instant.
  destruct (start_instant (snd item)) as [t |]; [| discriminate].
  intros H. apply andb_true_iff in H as [Ht H]. apply bool_decide_eq_true in H.
  apply Z.leb_le in Ht. simpl in H. split; [congruence | eauto].
Qed.

Lemma qualifies_same_start ts id body :
  start_instant body = Some ts ->
  qualifies ts (p_summary body) (render (id, body)) = true.
Proof.
  intros H. unfold qualifies. rewrite render_instant. simpl. rewrite H.
  apply andb_true_iff. split.
  - apply Z.leb_le. replace (ts - ts) with 0 by lia. unfold second. simpl. lia.
  - apply bool_decide_eq_true. reflexivity.
Qed.

Lemma in_window_start lo hi id body t :
  start_instant body = Some t ->
  in_window lo hi (id, body) = (lo <=? t) && (t <=? hi).
Proof. intros H. unfold in_window. simpl. rewrite H. reflexivity. Qed.

Lemma find_some_of_elem {A : Type} (f : A -> bool) (l : list A) (x : A) :
  x ∈ l -> f x = true -> exists y, List.find f l = Some y.
Proof.
  intros Hin Hx. destruct (List.find f l) as [y |] eqn:Hfind; [eauto |].
  apply list_elem_of_In in Hin.
  rewrite (List.find_none _ _ Hfind x Hin) in Hx. discriminate.
Qed.

Lemma find_some_elem {A : Type} (f : A -> bool) (l : list A) (x : A) :
  List.find f l = Some x -> x ∈ l /\ f x = true.
Proof.
  intros H. apply List.find_some in H as [Hin Hx].
  split; [apply list_elem_of_In; exact Hin | exact Hx].
Qed.

Lemma iso_instant_isoformat t : iso_instant (isoformat t) = instant t.
Proof. destruct t as [d | w [tz |]]; reflexivity. Qed.

Lemma window_query_shape cfg start end_ q :
  Sync.window_query cfg start end_ = Ok q ->
  q_maxResults q = 10 /\ q_calendarId q = CALENDAR_ID cfg.
Proof.
  unfold Sync.window_query.
  destruct (sub_timedelta start _); [| discriminate].
  destruct (add_timedelta end_ _); [| discriminate].
  intros H. injection H as <-. split; reflexivity.
Qed.

Lemma prepare_payload zone e start end_ g :
  prepare zone e = Ok (start, end_, g) ->
  p_summary g = ev_summary e /\ start_instant g = instant start.
Proof.
  intros Hprep.
  destruct (prepare_aware zone e _ _ _ Hprep) as (ws & tzs & we & tze & -> & -> & Hsum & Hs & _).
  split; [exact Hsum |]. unfold start_instant. rewrite Hs. reflexivity.
Qed.

(** What a well-ranged event brings to its turn. *)
Lemma well_ranged_data cfg zone e :
  well_ranged cfg zone e ->
  exists start end_ g q ts lo hi,
    prepare zone e = Ok (start, end_, g)
    /\ Sync.window_query cfg start end_ = Ok q
    /\ instant start = Some ts
    /\ iso_instant (q_timeMin q) = Some lo
    /\ iso_instant (q_timeMax q) = Some hi
    /\ start_at zone e = Some ts
    /\ window_at cfg zone e = Some (lo, hi)
    /\ lo <= ts <= hi.
Proof.
  intros (ts & lo & hi & Hs & Hw & Hin).
  pose proof Hw as Hw'. unfold window_at, query_of in Hw'.
  destruct (prepare zone e) as [[[start end_] g] | ex] eqn:Hprep; [| discriminate].
  destruct (Sync.window_query cfg start end_) as [q | ex] eqn:Hq; [| discriminate].
  destruct (iso_instant (q_timeMin q)) as [lo' |] eqn:Hlo; [| discriminate].
  destruct (iso_instant (q_timeMax q)) as [hi' |] eqn:Hhi; [| discriminate].
  injection Hw' as -> ->.
  destruct (prepare_normalized _ _ _ _ _ Hprep) as (Hns & _ & _).
  pose proof Hs as Hs'. unfold start_at in Hs'. rewrite Hns in Hs'.
  exists start, end_, g, q, ts, lo, hi. auto 10.
Qed.

(** One turn against the store, for an event whose window is listed: it
    returns; either it updates, under its identifier, a stored event that
    qualifies, or no candidate qualifies and it inserts under a fresh
    identifier. *)
Lemma faithful_turn zones cfg zone e start end_ g q ts lo hi (st : RunState Store) :
  prepare zone e = Ok (start, end_, g) ->
  Sync.window_query cfg start end_ = Ok q ->
  instant start = Some ts ->
  iso_instant (q_timeMin q) = Some lo ->
  iso_instant (q_timeMax q) = Some hi ->
  exists st',
    Sync.process_event (env zones) cfg zone e st = (Ok tt, st')
    /\ errors (stats st') = errors (stats st)
    /\ ((exists id body,
           world st !! id = Some body
           /\ qualifies ts (ev_summary e) (render (id, body)) = true
           /\ stats st' = bump_updated (stats st)
           /\ world st' = <[id := g]> (world st))
        \/ (List.find (qualifies ts (ev_summary e))
              (render <$> candidates lo hi 10 (world st)) = None
            /\ stats st' = bump_created (stats st)
            /\ world st' = <[fresh (dom (world st)) := g]> (world st))).
Proof.
  intros Hprep Hq Hs Hlo Hhi.
  rewrite (process_event_prepared (env zones) cfg zone e _ _ _ st Hprep).
  unfold try_except, Sync.guarded_body, bind, lift at 1. rewrite Hq.
  unfold bind, interact, lift. simpl. unfold list_in_window. rewrite Hlo, Hhi.
  destruct (window_query_shape _ _ _ _ Hq) as [-> _]. simpl.
  change (Z.to_nat 10) with 10%nat.
  set (cands := candidates lo hi 10 (world st)).
  assert (Hread : Forall readable (render <$> cands)).
  { apply Forall_forall. intros m Hm. apply list_elem_of_fmap in Hm as (item & -> & Hitem).
    apply candidates_elem in Hitem as [_ Hwin]. eapply render_readable; eauto. }
  rewrite (match_existing_total start ts (ev_summary e) _ Hs Hread).
  destruct (List.find _ _) as [m |] eqn:Hfind; simpl.
  - apply find_some_elem in Hfind as [Hm Hqual].
    apply list_elem_of_fmap in Hm as (item & -> & Hitem).
    apply candidates_elem in Hitem as [Hlook _].
    simpl. unfold update_event. rewrite Hlook. simpl.
    unfold set_stats, Sync.log, ret. simpl.
    eexists. split; [reflexivity |]. split; [reflexivity |].
    left. exists (fst item), (snd item). simpl.
    destruct item as [id body]. auto.
  - unfold insert_event, set_stats, Sync.log, ret. simpl.
    eexists. split; [reflexivity |]. split; [reflexivity |]. right. simpl. auto.
Qed.

(** Any turn against the store, whatever the event: the store is as it
    was, or a stored event that bore the summary of the source event has
    been given its payload, or the payload has been added under a fresh
    identifier. *)
Lemma faithful_turn_any zones cfg zone e (st : RunState Store) :
  exists r st',
    Sync.process_event (env zones) cfg zone e st = (r, st')
    /\ ((world st' = world st
         /\ created (stats st') = created (stats st)
         /\ updated (stats st') = updated (stats st)
         /\ ((r = Ok tt /\ errors (stats st') = S (errors (stats st))
              /\ prepared zone e /\ query_of cfg zone e = None)
             \/ ((exists ex, r = Raise ex) /\ stats st' = stats st /\ ~ prepared zone e)))
        \/ (r = Ok tt /\ is_Some (query_of cfg zone e)
            /\ errors (stats st') = errors (stats st)
            /\ exists g,
                 p_summary g = ev_summary e
                 /\ ((exists id body,
                        world st !! id = Some body
                        /\ p_summary body = ev_summary e
                        /\ stats st' = bump_updated (stats st)
                        /\ world st' = <[id := g]> (world st))
                     \/ (stats st' = bump_created (stats st)
                         /\ world st' = <[fresh (dom (world st)) := g]> (world st))))).
Proof.
  destruct (prepare zone e) as [[[start end_] g] | ex] eqn:Hprep.
  2:{ exists (Raise ex), st.
      rewrite (process_event_unprepared (env zones) cfg zone e ex st Hprep).
      split; [reflexivity |]. left. repeat split. right.
      split; [eauto |]. split; [reflexivity |].
      intros (s0 & e0 & g0 & H). rewrite Hprep in H. discriminate. }
  destruct (Sync.window_query cfg start end_) as [q | ex] eqn:Hq.
  - destruct (prepare_aware zone e _ _ _ Hprep)
      as (ws & tzs & we & tze & -> & -> & Hsum & _ & _).
    pose proof Hq as Hq'. rewrite window_query_bounds in Hq'.
    destruct (representable (ws - 5 * hour)); [| discriminate].
    destruct (representable (we + 5 * hour)); [| discriminate].
    injection Hq' as Hq'.
    destruct (faithful_turn zones cfg zone e _ _ g q (ws - utcoffset tzs ws)
                (ws - 5 * hour - utcoffset tzs (ws - 5 * hour))
                (we + 5 * hour - utcoffset tze (we + 5 * hour)) st Hprep Hq eq_refl)
      as (st' & Hturn & Herr & Hcase).
    { rewrite <- Hq'. reflexivity. }
    { rewrite <- Hq'. reflexivity. }
    exists (Ok tt), st'. split; [exact Hturn |]. right. split; [reflexivity |].
    split; [unfold query_of; rewrite Hprep, Hq; eauto |].
    split; [exact Herr |]. exists g. split; [exact Hsum |].
    destruct Hcase as [(id & body & Hlook & Hqual & Hst & Hw) | (_ & Hst & Hw)].
    + left. exists id, body. apply qualifies_render in Hqual as [Hs _]. auto.
    + right. auto.
  - eexists (Ok tt), _. split.
    + rewrite (process_event_prepared (env zones) cfg zone e _ _ _ st Hprep).
      unfold try_except, Sync.guarded_body, bind, lift at 1. rewrite Hq.
      unfold Sync.on_fault, bind, set_stats, Sync.log, ret. simpl. reflexivity.
    + left. simpl. repeat split. left. repeat split.
      * exists start, end_, g. exact Hprep.
      * unfold query_of. rewrite Hprep, Hq. reflexivity.
Qed.

(** *** Counting what a window holds *)

Lemma count_insert_new (P : string * Payload -> Prop) `{!forall x, Decision (P x)}
    (s : Store) id g :
  s !! id = None ->
  length (filter P (map_to_list (<[id := g]> s)))
  = ((if decide (P (id, g)) then 1 else 0) + length (filter P (map_to_list s)))%nat.
Proof.
  intros Hnone. rewrite (map_to_list_insert s id g Hnone), filter_cons.
  destruct (decide (P (id, g))); reflexivity.
Qed.

Lemma count_insert_old (P : string * Payload -> Prop) `{!forall x, Decision (P x)}
    (s : Store) id b g :
  s !! id = Some b ->
  (length (filter P (map_to_list (<[id := g]> s))) + (if decide (P (id, b)) then 1 else 0)
   = (if decide (P (id, g)) then 1 else 0) + length (filter P (map_to_list s)))%nat.
Proof.
  intros Hb. rewrite <- (insert_delete_eq s id g).
  rewrite (map_to_list_insert (delete id s) id g (lookup_delete_eq s id)).
  rewrite <- (map_to_list_delete s id b Hb), !filter_cons.
  destruct (decide (P (id, g))), (decide (P (id, b))); simpl; lia.
Qed.

Lemma filter_length_split {A : Type} (P Q : A -> Prop)
    `{!forall x, Decision (P x)} `{!forall x, Decision (Q x)} (l : list A) :
  (length (filter P l)
   <= length (filter Q l) + length (filter (fun x => ~ Q x /\ P x) l))%nat.
Proof.
  induction l as [| x l IH]; [reflexivity |].
  rewrite !filter_cons.
  destruct (decide (P x)), (decide (Q x)), (decide (~ Q x /\ P x)); simpl; try lia; tauto.
Qed.

Lemma keys_of_base_bound (base s : Store) :
  (length (filter (fun item : string * Payload => fst item ∈ dom base) (map_to_list s))
   <= size base)%nat.
Proof.
  rewrite <- (size_dom base). unfold size, set_size. simpl.
  rewrite <- (length_fmap fst (filter _ (map_to_list s))).
  apply submseteq_length, NoDup_submseteq.
  - apply (sublist_NoDup _ (fst <$> map_to_list s)); [apply NoDup_fst_map_to_list |].
    apply fmap_sublist, sublist_filter.
  - intros id Hid. apply list_elem_of_fmap in Hid as (item & -> & Hitem).
    apply list_elem_of_filter in Hitem as [Hbase _]. apply elem_of_elements. exact Hbase.
Qed.

Lemma held_within_bound (base : Store) lo hi (s : Store) :
  (held_within lo hi s <= size base + added_within base lo hi s)%nat.
Proof.
  unfold held_within, added_within.
  etransitivity;
    [apply (filter_length_split _ (fun item : string * Payload => fst item ∈ dom base)) |].
  apply Nat.add_le_mono_r, keys_of_base_bound.
Qed.

Lemma added_within_base (base : Store) lo hi : added_within base lo hi base = 0%nat.
Proof.
  unfold added_within.
  destruct (filter _ (map_to_list base)) as [| item rest] eqn:Hf; [reflexivity |].
  assert (Hin : item ∈ item :: rest) by apply list_elem_of_here.
  rewrite <- Hf in Hin. apply list_elem_of_filter in Hin as [[Hnew _] Hin].
  destruct item as [id body]. apply elem_of_map_to_list in Hin.
  apply elem_of_dom_2 in Hin. contradiction.
Qed.

Lemma starts_within_cons zone e rest lo hi :
  starts_within zone (e :: rest) lo hi
  = ((if starts_between zone lo hi e then 1 else 0) + starts_within zone rest lo hi)%nat.
Proof.
  unfold starts_within. rewrite filter_cons.
  destruct (decide (starts_between zone lo hi e = true)) as [-> | Hn]; [reflexivity |].
  destruct (starts_between zone lo hi e); [congruence | reflexivity].
Qed.

(** *** What a turn keeps *)

Section Turns.

Variables (zones : string -> option TimeZone) (cfg : Config) (zone : TimeZone).
Variables (base : Store) (all : list SourceEvent).

Hypothesis Hranged : Forall (well_ranged cfg zone) all.
Hypothesis Hseparated : separated zone all.

(** Replacing a stored event by the payload of a source event for which it
    qualifies moves no new event into or out of a window. *)
Lemma added_within_update (s : Store) id b g e ts lo hi :
  added_are_events zone base all s ->
  e ∈ all -> start_at zone e = Some ts ->
  start_instant g = Some ts ->
  s !! id = Some b ->
  qualifies ts (ev_summary e) (render (id, b)) = true ->
  added_within base lo hi (<[id := g]> s) = added_within base lo hi s.
Proof.
  intros Hadded He Hts Hg Hb Hqual. unfold added_within.
  pose proof (count_insert_old
                (fun item : string * Payload =>
                   (fst item ∉ dom base) /\ in_window lo hi item = true)
                s id b g Hb) as Hcount.
  apply qualifies_render in Hqual as [Hsum (t & Ht & Hclose)]. simpl in Hsum, Ht.
  assert (Hsame : (id ∉ dom base) -> in_window lo hi (id, b) = in_window lo hi (id, g)).
  { intros Hnew. destruct (Hadded id b Hb Hnew) as (e0 & t0 & He0 & Hsum0 & Hts0 & Ht0).
    rewrite Ht in Ht0. injection Ht0 as <-.
    assert (ts = t) as <-.
    { apply (Hseparated e e0 ts t He He0); [congruence | exact Hts | exact Hts0 | exact Hclose]. }
    rewrite (in_window_start lo hi id b ts Ht), (in_window_start lo hi id g ts Hg).
    reflexivity. }
  simpl in Hcount.
  destruct (decide ((id ∉ dom base) /\ in_window lo hi (id, g) = true)) as [[Hn Hw] | Hng];
    destruct (decide ((id ∉ dom base) /\ in_window lo hi (id, b) = true)) as [[Hn' Hw'] | Hnb];
    try lia.
  - exfalso. apply Hnb. split; [exact Hn |]. rewrite (Hsame Hn). exact Hw.
  - exfalso. apply Hng. split; [exact Hn' |]. rewrite <- (Hsame Hn'). exact Hw'.
Qed.

Lemma added_within_insert (s : Store) g e ts lo hi :
  start_at zone e = Some ts ->
  start_instant g = Some ts ->
  (added_within base lo hi (<[fresh (dom s) := g]> s)
   <= (if starts_between zone lo hi e then 1 else 0) + added_within base lo hi s)%nat.
Proof.
  intros Hts Hg. unfold added_within.
  rewrite count_insert_new by (apply not_elem_of_dom, is_fresh).
  apply Nat.add_le_mono_r.
  destruct (decide _) as [[_ Hw] |]; [| lia].
  rewrite (in_window_start lo hi _ g ts Hg) in Hw.
  unfold starts_between. rewrite Hts, Hw. reflexivity.
Qed.

Lemma added_are_events_put (s : Store) id g e ts :
  added_are_events zone base all s ->
  e ∈ all -> start_at zone e = Some ts ->
  p_summary g = ev_summary e -> start_instant g = Some ts ->
  added_are_events zone base all (<[id := g]> s).
Proof.
  intros Hadded He Hts Hsum Hg id' body' Hlook Hnew.
  destruct (decide (id = id')) as [<- | Hne].
  - rewrite lookup_insert_eq in Hlook. injection Hlook as <-. exists e, ts. auto.
  - rewrite lookup_insert_ne in Hlook by exact Hne. apply (Hadded id' body' Hlook Hnew).
Qed.

Lemma represented_put (s : Store) id g t :
  start_instant g = Some t -> represented (<[id := g]> s) (p_summary g) t.
Proof. intros H. exists id, g. rewrite lookup_insert_eq. auto. Qed.

Lemma represented_after_insert (s : Store) g summary t :
  represented s summary t ->
  represented (<[fresh (dom s) := g]> s) summary t.
Proof.
  intros (id' & body' & Hlook' & Hsum & Hstart).
  exists id', body'. split; [| auto].
  rewrite lookup_insert_ne; [exact Hlook' |].
  intros Heq. pose proof (is_fresh (dom s)) as Hfresh.
  apply not_elem_of_dom in Hfresh. rewrite Heq, Hlook' in Hfresh. discriminate.
Qed.

(** A source event that is represented stays so when a stored event is
    replaced by the payload of a source event for which it qualifies. *)
Lemma represented_after_update (s : Store) id b g e ts e' ts' :
  e ∈ all -> start_at zone e = Some ts ->
  p_summary g = ev_summary e -> start_instant g = Some ts ->
  s !! id = Some b ->
  qualifies ts (ev_summary e) (render (id, b)) = true ->
  e' ∈ all -> start_at zone e' = Some ts' ->
  represented s (ev_summary e') ts' ->
  represented (<[id := g]> s) (ev_summary e') ts'.
Proof.
  intros He Hts Hsum Hg Hb Hqual He' Hts' (id0 & b0 & Hlook & Hsum0 & Hstart0).
  destruct (decide (id = id0)) as [<- | Hne].
  - rewrite Hb in Hlook. injection Hlook as <-.
    apply qualifies_render in Hqual as [Hsumb (t & Ht & Hclose)]. simpl in Hsumb, Ht.
    rewrite Hstart0 in Ht. injection Ht as <-.
    assert (ts = ts') as <-.
    { apply (Hseparated e e' ts ts' He He'); [congruence | exact Hts | exact Hts' | exact Hclose]. }
    exists id, g. rewrite lookup_insert_eq. split; [reflexivity |].
    split; [congruence | exact Hg].
  - exists id0, b0. rewrite lookup_insert_ne by exact Hne. auto.
Qed.

(** One turn for a source event: it returns without an error and keeps
    what is known of the store; it has updated, which moves no new event
    into a window, or no candidate qualified and it has inserted. *)
Lemma turn_keeps e todo (st : RunState Store) :
  e ∈ all ->
  added_are_events zone base all (world st) ->
  done_are_represented zone all (e :: todo) (world st) ->
  exists st' ts lo hi,
    Sync.process_event (env zones) cfg zone e st = (Ok tt, st')
    /\ start_at zone e = Some ts
    /\ window_at cfg zone e = Some (lo, hi)
    /\ lo <= ts <= hi
    /\ errors (stats st') = errors (stats st)
    /\ added_are_events zone base all (world st')
    /\ done_are_represented zone all todo (world st')
    /\ ((created (stats st') = created (stats st)
         /\ updated (stats st') = S (updated (stats st))
         /\ forall lo' hi',
              added_within base lo' hi' (world st') = added_within base lo' hi' (world st))
        \/ (List.find (qualifies ts (ev_summary e))
              (render <$> candidates lo hi 10 (world st)) = None
            /\ created (stats st') = S (created (stats st))
            /\ updated (stats st') = updated (stats st)
            /\ forall lo' hi',
                 (added_within base lo' hi' (world st')
                  <= (if starts_between zone lo' hi' e then 1 else 0)
                     + added_within base lo' hi' (world st))%nat)).
Proof.
  intros He Hadded Hdone.
  rewrite Forall_forall in Hranged.
  destruct (well_ranged_data cfg zone e (Hranged e He))
    as (start & end_ & g & q & ts & lo & hi & Hprep & Hq & Hs & Hlo & Hhi & Hts & Hw & Hin).
  destruct (prepare_payload zone e _ _ _ Hprep) as [Hsum Hg]. rewrite Hs in Hg.
  destruct (faithful_turn zones cfg zone e _ _ g q ts lo hi st Hprep Hq Hs Hlo Hhi)
    as (st' & Hturn & Herr & Hcase).
  exists st', ts, lo, hi.
  split; [exact Hturn |]. split; [exact Hts |]. split; [exact Hw |]. split; [exact Hin |].
  split; [exact Herr |].
  assert (Hown : forall id, represented (<[id := g]> (world st)) (ev_summary e) ts).
  { intros id. rewrite <- Hsum. apply represented_put. exact Hg. }
  destruct Hcase as [(id & b & Hb & Hqual & Hst & Hworld) | (Hnone & Hst & Hworld)];
    rewrite Hworld, Hst; simpl.
  - split; [apply (added_are_events_put (world st) _ g e ts Hadded He Hts Hsum Hg) |]. split.
    + intros e' ts' He' Hts'. destruct (Hdone e' ts' He' Hts') as [Hmem | Hrep].
      * apply elem_of_cons in Hmem as [-> | Hmem]; [| left; exact Hmem].
        right. rewrite Hts in Hts'. injection Hts' as <-. apply Hown.
      * right.
        apply (represented_after_update (world st) id b g e ts e' ts'
                 He Hts Hsum Hg Hb Hqual He' Hts' Hrep).
    + left. split; [reflexivity |]. split; [reflexivity |].
      intros lo' hi'.
      apply (added_within_update (world st) id b g e ts lo' hi' Hadded He Hts Hg Hb Hqual).
  - split; [apply (added_are_events_put (world st) _ g e ts Hadded He Hts Hsum Hg) |]. split.
    + intros e' ts' He' Hts'. destruct (Hdone e' ts' He' Hts') as [Hmem | Hrep].
      * apply elem_of_cons in Hmem as [-> | Hmem]; [| left; exact Hmem].
        right. rewrite Hts in Hts'. injection Hts' as <-. apply Hown.
      * right. apply represented_after_insert. exact Hrep.
    + right. split; [exact Hnone |]. split; [reflexivity |]. split; [reflexivity |].
      intros lo' hi'. apply (added_within_insert (world st) g e ts lo' hi' Hts Hg).
Qed.

(** The first pass over the events: it returns without an error, every
    event created or updated, and leaves every event represented. *)
Lemma first_pass todo :
  (forall e, e ∈ todo -> e ∈ all) ->
  forall st : RunState Store,
  added_are_events zone base all (world st) ->
  added_are_counted zone base all todo (world st) ->
  done_are_represented zone all todo (world st) ->
  exists st',
    for_each (Sync.process_event (env zones) cfg zone) todo st = (Ok tt, st')
    /\ errors (stats st') = errors (stats st)
    /\ (created (stats st') + updated (stats st')
        = created (stats st) + updated (stats st) + length todo)%nat
    /\ added_are_events zone base all (world st')
    /\ added_are_counted zone base all [] (world st')
    /\ done_are_represented zone all [] (world st').
Proof.
  induction todo as [| e todo IH]; intros Hsub st Hadded Hcounted Hdone.
  - exists st. simpl. unfold ret. repeat split; auto; lia.
  - destruct (turn_keeps e todo st (Hsub e (list_elem_of_here _ _)) Hadded Hdone)
      as (st1 & ts & lo & hi & Hturn & _ & _ & _ & Herr & Hadded1 & Hdone1 & Hcase).
    assert (Hcounted1 : added_are_counted zone base all todo (world st1)).
    { intros lo' hi'. specialize (Hcounted lo' hi').
      rewrite starts_within_cons in Hcounted.
      destruct Hcase as [(_ & _ & Hsame) | (_ & _ & _ & Hmore)].
      - rewrite Hsame. lia.
      - specialize (Hmore lo' hi'). lia. }
    destruct (IH (fun e' H => Hsub e' (list_elem_of_further _ _ _ H)) st1
                Hadded1 Hcounted1 Hdone1)
      as (st' & Hloop & Herr' & Hsum' & Hinv).
    exists st'. simpl. unfold bind. rewrite Hturn. split; [exact Hloop |].
    split; [congruence |].
    split; [destruct Hcase as [(Hc & Hu & _) | (_ & Hc & Hu & _)]; lia |].
    exact Hinv.
Qed.

(** A later pass, when no window is crowded: every turn finds the event
    that represents its source event, and updates. *)
Lemma later_pass todo :
  uncrowded cfg zone all (size base) ->
  (forall e, e ∈ todo -> e ∈ all) ->
  forall st : RunState Store,
  added_are_events zone base all (world st) ->
  added_are_counted zone base all [] (world st) ->
  done_are_represented zone all [] (world st) ->
  exists st',
    for_each (Sync.process_event (env zones) cfg zone) todo st = (Ok tt, st')
    /\ errors (stats st') = errors (stats st)
    /\ created (stats st') = created (stats st)
    /\ updated (stats st') = (updated (stats st) + length todo)%nat.
Proof.
  intros Hroom. induction todo as [| e todo IH]; intros Hsub st Hadded Hcounted Hdone.
  - exists st. simpl. unfold ret. repeat split; lia.
  - assert (He : e ∈ all) by (apply Hsub, list_elem_of_here).
    assert (Hdone0 : done_are_represented zone all [e] (world st)).
    { intros e' ts' He' Hts'. destruct (Hdone e' ts' He' Hts') as [Hmem | Hrep]; [| auto].
      apply elem_of_nil in Hmem. destruct Hmem. }
    destruct (turn_keeps e [] st He Hadded Hdone0)
      as (st1 & ts & lo & hi & Hturn & Hts & Hw & Hin & Herr & Hadded1 & Hdone1 & Hcase).
    destruct Hcase as [(Hc & Hu & Hsame) | (Hnone & _)].
    + destruct (IH (fun e' H => Hsub e' (list_elem_of_further _ _ _ H)) st1 Hadded1)
        as (st' & Hloop & Herr' & Hc' & Hu'); [| exact Hdone1 |].
      { intros lo' hi'. rewrite Hsame. apply Hcounted. }
      exists st'. simpl. unfold bind. rewrite Hturn. split; [exact Hloop |].
      repeat split; lia.
    + exfalso.
      destruct (Hdone e ts He Hts) as [Hmem | (id & body & Hlook & Hsum & Hstart)];
        [apply elem_of_nil in Hmem; destruct Hmem |].
      assert (Hwin : in_window lo hi (id, body) = true).
      { rewrite (in_window_start lo hi id body ts Hstart).
        apply andb_true_iff. split; apply Z.leb_le; lia. }
      assert (Hcand : render (id, body) ∈ render <$> candidates lo hi 10 (world st)).
      { apply list_elem_of_fmap_2. apply candidates_all; [| exact Hlook | exact Hwin].
        pose proof (held_within_bound base lo hi (world st)) as Hheld.
        specialize (Hcounted lo hi). specialize (Hroom e lo hi He Hw).
        unfold starts_within at 1 in Hcounted. simpl in Hcounted. lia. }
      destruct (find_some_of_elem (qualifies ts (ev_summary e)) _ _ Hcand) as [y Hy].
      * rewrite <- Hsum. apply qualifies_same_start. exact Hstart.
      * rewrite Hy in Hnone. discriminate.
Qed.

End Turns.

(** Before the first turn nothing has been added and every event is to
    come. *)
Lemma initial_store_invariants zone (s : Store) (events : list SourceEvent) :
  added_are_events zone s events s
  /\ added_are_counted zone s events events s
  /\ done_are_represented zone events events s.
Proof.
  split; [| split].
  - intros id body Hlook Hnew. apply elem_of_dom_2 in Hlook. contradiction.
  - intros lo hi. rewrite added_within_base. lia.
  - intros e ts He _. left. exact He.
Qed.

(** Events with datetime bounds inside the range of [datetime], zone
    objects of one offset, and a start no more than five hours after the
    end are well ranged. *)
Lemma ordinary_events_are_well_ranged cfg zone e ws tzs we tze :
  normalize zone (ev_start e) = Ok (DateTime ws (Some tzs)) ->
  normalize zone (ev_end e) = Ok (DateTime we (Some tze)) ->
  fixed tzs = true -> fixed tze = true ->
  representable (ws - 5 * hour) = true ->
  representable (we + 5 * hour) = true ->
  ws - utcoffset tzs ws <= we - utcoffset tze we + 5 * hour ->
  well_ranged cfg zone e.
Proof.
  intros Hs He Hfs Hfe Hlo Hhi Hle.
  exists (ws - utcoffset tzs ws), (ws - 5 * hour - utcoffset tzs (ws - 5 * hour)),
    (we + 5 * hour - utcoffset tze (we + 5 * hour)).
  split; [unfold start_at; rewrite Hs; reflexivity |]. split.
  - unfold window_at, query_of, prepare. rewrite Hs, He.
    unfold Sync.build_payload. simpl.
    rewrite window_query_bounds, Hlo, Hhi. reflexivity.
  - rewrite (fixed_utcoffset tzs (ws - 5 * hour) ws Hfs).
    rewrite (fixed_utcoffset tze (we + 5 * hour) we Hfe).
    assert (0 < hour) by (vm_compute; reflexivity). lia.
Qed.


End FaithfulFacts.
(** ** The design scenarios, run *)

(** One shift against an empty window: created, by one listing followed by
    one insert of the payload. *)
Example shift_on_empty_window_is_created :
  let '(r, s) := Sync.run Sample.flaky Sample.cfg [Sample.shift "Shift A" 9] Sample.quiet in
  r = Ok {| created := 1; updated := 0; errors := 0 |}
  /\ store_calls (trace s)
     = [CallList (Sample.shift_query 9);
        CallInsert "primary" (Sample.shift_payload "Shift A" 9)].
Proof. vm_compute. split; reflexivity. Qed.

(** The same shift against a store that holds it: updated. *)
Example shift_on_matching_window_is_updated :
  fst (Sync.run (FaithfulStore.env Sample.zones) Sample.cfg [Sample.shift "Shift A" 9]
         {["r1" := Sample.shift_payload "Shift A" 9]})
  = Ok {| created := 0; updated := 1; errors := 0 |}.
Proof. vm_compute. reflexivity. Qed.

(** A failing insert for one event among five: one error, four created, and
    the callback was told the reason. *)
Example one_fault_among_five :
  let '(r, s) := Sync.run Sample.flaky Sample.cfg Sample.five Sample.quiet in
  r = Ok {| created := 4; updated := 0; errors := 1 |}
  /\ LogError "C" (HttpError 503 "Backend Error") ∈ logged (trace s).
Proof. vm_compute. split; [reflexivity |]. do 2 apply list_elem_of_further. apply list_elem_of_here. Qed.

(** The tolerance is inclusive: of the sample candidates the one exactly
    18000 seconds away is selected, the one a second further is not. *)
Example tolerance_is_inclusive :
  Sync.match_existing Sample.nine "Shift A" Sample.listing
  = Ok (Some (Sample.item "r4" "Shift A" (9 * 3600 + 18000))).
Proof. vm_compute. reflexivity. Qed.

(** Three shifts with one summary on three days in a row, against an
    empty store: the second run updates all three. *)
Example daily_shifts_second_run :
  FaithfulStore.run_twice Sample.zones Sample.cfg Sample.daily ∅
  = (Ok {| created := 3; updated := 0; errors := 0 |},
     Ok {| created := 0; updated := 3; errors := 0 |}).
Proof. vm_compute. reflexivity. Qed.

(** ** Where the callback matters *)

(** C1, as stated, fails.  The counter goes up before the callback is
    called, inside the guard, so a callback that fails on the message of a
    created event has the event counted a second time, as an error: one
    event, and statistics that add up to two. *)
Lemma failing_callback_counts_twice :
  exists st,
    fst (Sync.run Sample.touchy Sample.cfg [Sample.shift "A" 1] Sample.quiet) = Ok st
    /\ st = {| created := 1; updated := 0; errors := 1 |}
    /\ (created st + updated st + errors st)%nat <> length [Sample.shift "A" 1].
Proof.
  eexists. split; [vm_compute; reflexivity |]. split; [reflexivity |]. simpl. lia.
Qed.

(** C3, as stated, fails.  The callback is called from the [except]
    clause, outside any guard: when it fails on the message of an error,
    the failing insert of the third of five shifts ends the upload, which
    raises after three listings and never looks at the last two shifts.
    And without a callback the reason of the fault is kept nowhere: the
    trace of the run holds calendar calls only, the statistics a count. *)
Lemma failing_callback_aborts_the_batch :
  (exists s',
     Sync.run Sample.deaf Sample.cfg Sample.five Sample.quiet
     = (Raise (OtherError "log failed"), s')
     /\ stats s' = {| created := 2; updated := 0; errors := 1 |}
     /\ list_calls (trace s')
        = [CallList (Sample.shift_query 1); CallList (Sample.shift_query 3);
           CallList (Sample.shift_query 5)])
  /\ (exists s',
        Sync.run Sample.silent Sample.cfg Sample.five Sample.quiet
        = (Ok {| created := 4; updated := 0; errors := 1 |}, s')
        /\ logged (trace s') = []).
Proof.
  split; eexists; (split; [vm_compute; reflexivity |]); repeat split.
Qed.

(** ** Where the older script differs *)

(** Its matching loop does not look at the summary: on the sample
    candidates it selects the close one that bears another summary. *)
Lemma older_script_matches_on_time_alone :
  HumanForce_Sync.match_existing Sample.nine Sample.listing
  = Ok (Some (Sample.item "r2" "Shift B" (9 * 3600))).
Proof. vm_compute. reflexivity. Qed.

(** Its window is the range of the event itself, and it asks for five
    results. *)
Lemma older_script_window_is_not_widened (start end_ : PyTime) :
  q_timeMin (HumanForce_Sync.window_query start end_) = isoformat start
  /\ q_timeMax (HumanForce_Sync.window_query start end_) = isoformat end_
  /\ q_maxResults (HumanForce_Sync.window_query start end_) = 5.
Proof. repeat split. Qed.

(** ** Idempotence does not hold in general *)


(** The cap of ten candidates breaks it as well: with eleven events in
    one window the listing leaves the last one out, and the second run
    creates it again although all summaries differ. *)
Lemma eleventh_is_created_again :
  ~ second_run_creates_nothing Sample.zones Sample.cfg Sample.crowd ∅.
Proof.
  intros H.
  specialize (H {| created := 11; updated := 0; errors := 0 |}
                {| created := 1; updated := 10; errors := 0 |}).
  assert (Hrun : FaithfulStore.run_twice Sample.zones Sample.cfg Sample.crowd ∅
                 = (Ok {| created := 11; updated := 0; errors := 0 |},
                    Ok {| created := 1; updated := 10; errors := 0 |}))
    by (vm_compute; reflexivity).
  specialize (H Hrun eq_refl). discriminate H.
Qed.

(** ** At the limits of [datetime], and where the clocks change *)

(** C5, as stated, fails.  For a shift that ends one hour before the last
    time a [datetime] holds, [end + 5h] raises inside the guard: the turn
    makes no listing at all and counts an error.  And for a shift two hours
    after the clocks went forward, whose bounds carry a zone object that
    looks its offset up, [start - 5h] falls before the change: the window
    begins four hours before the start, not five. *)
Lemma window_is_not_always_five_hours_wide :
  (exists s',
     Sync.run Sample.flaky Sample.cfg [Sample.last_shift] Sample.quiet
     = (Ok {| created := 0; updated := 0; errors := 1 |}, s')
     /\ store_calls (trace s') = []
     /\ logged (trace s')
        = [LogError "Last" (OverflowError "date value out of range")])
  /\ start_at Sample.melbourne Sample.after_the_change = Some (- 9 * hour)
  /\ end_at Sample.melbourne Sample.after_the_change = Some (- 8 * hour)
  /\ window_at Sample.cfg Sample.melbourne Sample.after_the_change
     = Some (- 9 * hour - 4 * hour, - 8 * hour + 5 * hour).
Proof.
  split; [eexists; split; [vm_compute; reflexivity | split; reflexivity] |].
  repeat split; vm_compute; reflexivity.
Qed.

(** C6, as stated, fails.  A naive time within a day of the last time a
    [datetime] holds is not localized by a zone with transitions:
    [localize] raises, and so does the normalisation, outside the guard of
    the upload. *)
Lemma naive_time_at_the_limit_is_not_localized :
  normalize Sample.melbourne Sample.last_evening
  = Raise (OverflowError "date value out of range")
  /\ ~ (exists t, normalize Sample.melbourne Sample.last_evening = Ok t)
  /\ fst (Sync.run Sample.flaky Sample.cfg
            [{| ev_summary := "Late"; ev_start := Sample.last_evening;
                ev_end := Sample.last_evening; ev_uid := "uid";
                ev_description := None |}] Sample.quiet)
     = Raise (OverflowError "date value out of range").
Proof.
  assert (H : normalize Sample.melbourne Sample.last_evening
              = Raise (OverflowError "date value out of range"))
    by (vm_compute; reflexivity).
  split; [exact H |]. split.
  - intros [t Ht]. rewrite H in Ht. discriminate Ht.
  - vm_compute. reflexivity.
Qed.

(** ** The properties at work on the sample data *)

Ltac settle_prepared :=
  repeat (apply Forall_cons_2; [eexists _, _, _; vm_compute; reflexivity |]);
  apply Forall_nil_2.

Ltac split_members H :=
  repeat (apply elem_of_cons in H as [-> | H]); [.. | apply elem_of_nil in H; destruct H].

Lemma flaky_log_returns : log_returns Sample.flaky.
Proof. intros m w. reflexivity. Defined.

Lemma five_are_prepared : Forall (prepared Sample.melbourne) Sample.five.
Proof. settle_prepared. Defined.

Lemma flaky_log_returns_on_success : log_returns_on_success Sample.flaky.
Proof. intros m _ w. reflexivity. Defined.

(** The five sample shifts against the failing insert: statistics are
    returned and add up to five. *)
Lemma five_events_are_accounted_for :
  log_returns_on_success Sample.flaky
  /\ log_returns Sample.flaky
  /\ fst (get_calendar_service Sample.flaky Sample.quiet) = Ok tt
  /\ pytz_timezone Sample.flaky (TIMEZONE Sample.cfg) = Some Sample.melbourne
  /\ Forall (prepared Sample.melbourne) Sample.five
  /\ exists st s',
       Sync.run Sample.flaky Sample.cfg Sample.five Sample.quiet = (Ok st, s')
       /\ (created st + updated st + errors st)%nat = length Sample.five.
Proof.
  split; [exact flaky_log_returns_on_success |]. split; [exact flaky_log_returns |].
  split; [reflexivity |]. split; [reflexivity |]. split; [exact five_are_prepared |].
  destruct (stats_account_for_every_event Sample.flaky Sample.cfg Sample.five Sample.quiet
              flaky_log_returns_on_success) as [_ H].
  destruct (H Sample.melbourne eq_refl eq_refl) as [Hret _].
  exact (Hret flaky_log_returns five_are_prepared).
Defined.

Lemma sample_listing_readable : Forall readable Sample.listing.
Proof.
  constructor; [right; eexists; reflexivity |].
  constructor; [right; eexists; reflexivity |].
  constructor; [left; reflexivity |].
  constructor; [right; eexists; reflexivity |].
  constructor; [right; eexists; reflexivity |].
  constructor.
Defined.

(** The sample candidates around 09:00: the loop returns the first
    qualifying one. *)
Lemma sample_listing_first_qualifying :
  instant Sample.nine = Some (-2 * hour)
  /\ Forall readable Sample.listing
  /\ Sync.match_existing Sample.nine "Shift A" Sample.listing
     = Ok (List.find (qualifies (-2 * hour) "Shift A") Sample.listing).
Proof.
  split; [reflexivity |]. split; [exact sample_listing_readable |].
  apply (proj1 (proj2 (matcher_selects_first_qualifying
                         Sample.nine (-2 * hour) "Shift A" Sample.listing eq_refl))).
  exact sample_listing_readable.
Defined.

Lemma shift_is_prepared (summary : string) (h : Z) :
  representable (h * hour - day) = true -> representable (h * hour + day) = true ->
  representable ((h + 1) * hour - day) = true -> representable ((h + 1) * hour + day) = true ->
  prepare Sample.melbourne (Sample.shift summary h)
  = Ok (DateTime (h * hour) (Some (PytzInfo "Australia/Melbourne" (11 * hour))),
        DateTime ((h + 1) * hour) (Some (PytzInfo "Australia/Melbourne" (11 * hour))),
        Sample.shift_payload summary h).
Proof.
  intros H1 H2 H3 H4. unfold prepare, Sample.shift, normalize, localize. simpl.
  unfold pytz_zone. simpl. rewrite H1, H2, H3, H4. reflexivity.
Defined.

(** The failing insert of the shift [C]: counted as one error, the reason
    handed to the callback, and the loop goes on with [D] and [E]. *)
Lemma failing_insert_is_counted :
  log_accepts Sample.flaky (LogError (ev_summary (Sample.shift "C" 5))
                                     (HttpError 503 "Backend Error"))
  /\ prepare Sample.melbourne (Sample.shift "C" 5)
     = Ok (DateTime (5 * hour) (Some (PytzInfo "Australia/Melbourne" (11 * hour))),
           DateTime ((5 + 1) * hour) (Some (PytzInfo "Australia/Melbourne" (11 * hour))),
           Sample.shift_payload "C" 5)
  /\ Fault Sample.flaky Sample.cfg (Sample.shift "C" 5)
       (DateTime (5 * hour) (Some (PytzInfo "Australia/Melbourne" (11 * hour))))
       (DateTime ((5 + 1) * hour) (Some (PytzInfo "Australia/Melbourne" (11 * hour))))
       (Sample.shift_payload "C" 5) (world (started Sample.quiet))
       (HttpError 503 "Backend Error")
  /\ exists s2,
       Sync.process_event Sample.flaky Sample.cfg Sample.melbourne (Sample.shift "C" 5)
         (started Sample.quiet) = (Ok tt, s2)
       /\ stats s2 = bump_errors (stats (started Sample.quiet))
       /\ logged (trace s2)
          = logged (trace (started Sample.quiet))
            ++ [LogError "C" (HttpError 503 "Backend Error")]
       /\ for_each (Sync.process_event Sample.flaky Sample.cfg Sample.melbourne)
            (Sample.shift "C" 5 :: [Sample.shift "D" 7; Sample.shift "E" 9])
            (started Sample.quiet)
          = for_each (Sync.process_event Sample.flaky Sample.cfg Sample.melbourne)
              [Sample.shift "D" 7; Sample.shift "E" 9] s2.
Proof.
  assert (Hp : prepare Sample.melbourne (Sample.shift "C" 5)
     = Ok (DateTime (5 * hour) (Some (PytzInfo "Australia/Melbourne" (11 * hour))),
           DateTime ((5 + 1) * hour) (Some (PytzInfo "Australia/Melbourne" (11 * hour))),
           Sample.shift_payload "C" 5)) by (vm_compute; reflexivity).
  assert (Hfault : Fault Sample.flaky Sample.cfg (Sample.shift "C" 5)
       (DateTime (5 * hour) (Some (PytzInfo "Australia/Melbourne" (11 * hour))))
       (DateTime ((5 + 1) * hour) (Some (PytzInfo "Australia/Melbourne" (11 * hour))))
       (Sample.shift_payload "C" 5) (world (started Sample.quiet))
       (HttpError 503 "Backend Error")).
  { apply (fault_insert _ _ _ _ _ _ _ _ (Sample.shift_query 5) {| items := Some [] |}
             Sample.quiet Sample.quiet); vm_compute; reflexivity. }
  assert (Hlog : log_accepts Sample.flaky (LogError (ev_summary (Sample.shift "C" 5))
                                                    (HttpError 503 "Backend Error")))
    by (intros w; reflexivity).
  split; [exact Hlog |]. split; [exact Hp |]. split; [exact Hfault |].
  destruct (store_fault_is_counted_and_loop_goes_on Sample.flaky Sample.cfg Sample.melbourne
              (Sample.shift "C" 5) [Sample.shift "D" 7; Sample.shift "E" 9] _ _ _
              (started Sample.quiet) (HttpError 503 "Backend Error")
              Hlog Hp Hfault)
    as (s1 & s2 & _ & _ & Hrun & Hstats & _ & Htold & _ & Hnext).
  exists s2. split; [exact Hrun |]. split; [exact Hstats |].
  split; [apply Htold; eexists; reflexivity | exact Hnext].
Defined.

Ltac settle_well_ranged :=
  repeat (apply Forall_cons_2;
          [eexists _, _, _; split; [vm_compute; reflexivity |];
           split; [vm_compute; reflexivity | split; vm_compute; discriminate] |]);
  apply Forall_nil_2.

Lemma daily_well_ranged : Forall (well_ranged Sample.cfg Sample.melbourne) Sample.daily.
Proof. settle_well_ranged. Defined.

Lemma daily_separated : separated Sample.melbourne Sample.daily.
Proof.
  intros e1 e2 t1 t2 H1 H2 _ Ht1 Ht2 Habs.
  split_members H1; split_members H2;
    vm_compute in Ht1; vm_compute in Ht2;
    injection Ht1 as <-; injection Ht2 as <-;
    first [reflexivity | exfalso; vm_compute in Habs; apply Habs; reflexivity].
Defined.

Lemma daily_uncrowded :
  uncrowded Sample.cfg Sample.melbourne Sample.daily (size (∅ : FaithfulStore.Store)).
Proof.
  intros e lo hi He Hw.
  split_members He; vm_compute in Hw; injection Hw as <- <-; vm_compute; lia.
Defined.


(** The window queried for the shift at nine: from five hours before its
    start to five hours after its end, ten results at most. *)
Lemma shift_at_nine_window :
  prepare Sample.melbourne (Sample.shift "Shift A" 9)
  = Ok (DateTime (9 * hour) (Some (PytzInfo "Australia/Melbourne" (11 * hour))),
        DateTime ((9 + 1) * hour) (Some (PytzInfo "Australia/Melbourne" (11 * hour))),
        Sample.shift_payload "Shift A" 9)
  /\ exists q tail,
       Sync.window_query Sample.cfg
         (DateTime (9 * hour) (Some (PytzInfo "Australia/Melbourne" (11 * hour))))
         (DateTime ((9 + 1) * hour) (Some (PytzInfo "Australia/Melbourne" (11 * hour))))
       = Ok q
       /\ trace (snd (Sync.process_event Sample.flaky Sample.cfg Sample.melbourne
                        (Sample.shift "Shift A" 9) (started Sample.quiet)))
          = trace (started Sample.quiet) ++ CallList q :: tail
       /\ Forall (fun a => is_list_call a = false) tail
       /\ iso_instant (q_timeMin q) = Some (-2 * hour - 5 * 3600 * second)
       /\ iso_instant (q_timeMax q) = Some (-1 * hour + 5 * 3600 * second)
       /\ q_maxResults q = 10
       /\ q_orderBy q = "startTime"
       /\ q_singleEvents q = true
       /\ q_calendarId q = "primary".
Proof.
  assert (Hp : prepare Sample.melbourne (Sample.shift "Shift A" 9)
    = Ok (DateTime (9 * hour) (Some (PytzInfo "Australia/Melbourne" (11 * hour))),
          DateTime ((9 + 1) * hour) (Some (PytzInfo "Australia/Melbourne" (11 * hour))),
          Sample.shift_payload "Shift A" 9)) by (vm_compute; reflexivity).
  split; [exact Hp |].
  destruct (window_is_event_range_widened_by_five_hours Sample.flaky Sample.cfg
              Sample.melbourne (Sample.shift "Shift A" 9) _ _ _ (started Sample.quiet) Hp)
    as (ws & tzs & we & tze & Hs & He & Hin & _).
  injection Hs as <- <-. injection He as <- <-.
  destruct Hin as (q & tail & Hq & Htr & Htail & _ & _ & _ & _ & Hmin & Hmax & Hn & Ho & Hsi & Hc);
    [split; vm_compute; reflexivity |].
  exists q, tail. split; [exact Hq |]. split; [exact Htr |]. split; [exact Htail |].
  split; [apply Hmin; reflexivity |]. split; [apply Hmax; reflexivity |].
  split; [exact Hn |]. split; [exact Ho |]. split; [exact Hsi | exact Hc].
Defined.

Lemma melbourne_keeps_wall_clock : keeps_wall_clock Sample.melbourne.
Proof. apply pytz_zone_keeps_wall_clock. Defined.

(** The naive 09:00 in the sample zone: the same wall clock with the
    offset of the zone; and the result is left alone when normalised
    again. *)
Lemma nine_is_localized :
  keeps_wall_clock Sample.melbourne
  /\ normalize Sample.melbourne (DateTime (9 * hour) None) = Ok Sample.nine
  /\ normalize Sample.melbourne Sample.nine = Ok Sample.nine
  /\ exists tz,
       tz_localize Sample.melbourne (9 * hour) = Ok (9 * hour, tz)
       /\ Sample.nine = DateTime (9 * hour) (Some tz)
       /\ isoformat Sample.nine = IsoAware (9 * hour) (utcoffset tz (9 * hour))
       /\ instant Sample.nine = Some (9 * hour - utcoffset tz (9 * hour)).
Proof.
  assert (Hn : normalize Sample.melbourne (DateTime (9 * hour) None) = Ok Sample.nine)
    by (vm_compute; reflexivity).
  destruct (normalize_keeps_zoned_and_localizes_naive Sample.melbourne
              melbourne_keeps_wall_clock) as (Hzoned & Hnaive & _ & Hagain).
  split; [exact melbourne_keeps_wall_clock |]. split; [exact Hn |].
  split; [exact (Hagain _ _ Hn) |].
  exact (Hnaive (9 * hour) Sample.nine Hn).
Defined.

(** A hundred and one appended records on top of an unreadable file. *)
Lemma hundred_and_one_records :
  (History.HISTORY_MAX < length (Sample.entries 101))%nat
  /\ History._load_history (History.record_all History.Corrupt (Sample.entries 101))
     = drop (length (Sample.entries 101) - 100) (Sample.entries 101)
  /\ length (History._load_history (History.record_all History.Corrupt (Sample.entries 101)))
     = 100%nat
  /\ History._load_history (History._save_history (Sample.entries 101))
     = drop (length (Sample.entries 101) - 100) (Sample.entries 101).
Proof.
  assert (Hlen : (History.HISTORY_MAX < length (Sample.entries 101))%nat)
    by (vm_compute; lia).
  split; [exact Hlen |].
  exact (history_keeps_the_last_hundred History.Corrupt (Sample.entries 101) Hlen).
Defined.

(** A zone the database does not know. *)
Lemma unknown_zone_run :
  pytz_timezone Sample.flaky (TIMEZONE Sample.bad_cfg) = None
  /\ exists ex s',
       Sync.run Sample.flaky Sample.bad_cfg Sample.five Sample.quiet = (Raise ex, s')
       /\ trace s' = [CallService]
       /\ store_calls (trace s') = []
       /\ logged (trace s') = []
       /\ stats s' = stats_zero
       /\ (fst (get_calendar_service Sample.flaky Sample.quiet) = Ok tt ->
           ex = UnknownTimeZoneError (TIMEZONE Sample.bad_cfg)).
Proof.
  split; [reflexivity |].
  exact (unknown_timezone_aborts_before_any_event Sample.flaky Sample.bad_cfg
           Sample.five Sample.quiet eq_refl).
Defined.

(** An all-day candidate between timed ones. *)
Lemma all_day_candidate_is_transparent :
  truthy (get_start_dateTime (Sample.all_day_item "r3" "Shift A")) = false
  /\ Sync.match_existing Sample.nine "Shift A"
       ([Sample.item "r2" "Shift B" (9 * 3600)]
        ++ Sample.all_day_item "r3" "Shift A" :: [Sample.item "r5" "Shift A" (9 * 3600)])
     = Sync.match_existing Sample.nine "Shift A"
         ([Sample.item "r2" "Shift B" (9 * 3600)] ++ [Sample.item "r5" "Shift A" (9 * 3600)]).
Proof.
  split; [reflexivity |].
  exact (proj1 (candidate_without_dateTime_is_skipped Sample.nine "Shift A")
           [Sample.item "r2" "Shift B" (9 * 3600)]
           (Sample.all_day_item "r3" "Shift A")
           [Sample.item "r5" "Shift A" (9 * 3600)] eq_refl).
Defined.

Lemma all_day_is_not_timed : ~ timed_event Sample.all_day.
Proof. intros [H _]. exact H. Defined.

(** An all-day entry between two shifts: the run stops there. *)
Lemma all_day_entry_stops_the_run :
  get_calendar_service Sample.flaky Sample.quiet = (Ok tt, Sample.quiet)
  /\ pytz_timezone Sample.flaky (TIMEZONE Sample.cfg) = Some Sample.melbourne
  /\ for_each (Sync.process_event Sample.flaky Sample.cfg Sample.melbourne)
       [Sample.shift "A" 1] (started Sample.quiet)
     = (Ok tt, snd (for_each (Sync.process_event Sample.flaky Sample.cfg Sample.melbourne)
                      [Sample.shift "A" 1] (started Sample.quiet)))
  /\ ~ timed_event Sample.all_day
  /\ exists msg,
       Sync.process_event Sample.flaky Sample.cfg Sample.melbourne Sample.all_day
         (snd (for_each (Sync.process_event Sample.flaky Sample.cfg Sample.melbourne)
                 [Sample.shift "A" 1] (started Sample.quiet)))
       = (Raise (AttributeError msg),
          snd (for_each (Sync.process_event Sample.flaky Sample.cfg Sample.melbourne)
                 [Sample.shift "A" 1] (started Sample.quiet)))
       /\ Sync.run Sample.flaky Sample.cfg
            ([Sample.shift "A" 1] ++ Sample.all_day :: [Sample.shift "B" 2]) Sample.quiet
          = (Raise (AttributeError msg),
             snd (for_each (Sync.process_event Sample.flaky Sample.cfg Sample.melbourne)
                    [Sample.shift "A" 1] (started Sample.quiet))).
Proof.
  assert (Hbefore :
    for_each (Sync.process_event Sample.flaky Sample.cfg Sample.melbourne)
       [Sample.shift "A" 1] (started Sample.quiet)
     = (Ok tt, snd (for_each (Sync.process_event Sample.flaky Sample.cfg Sample.melbourne)
                      [Sample.shift "A" 1] (started Sample.quiet)))) by (vm_compute; reflexivity).
  split; [reflexivity |]. split; [reflexivity |]. split; [exact Hbefore |].
  split; [exact all_day_is_not_timed |].
  destruct (payload_fault_aborts_the_batch Sample.flaky Sample.cfg Sample.melbourne
              [Sample.shift "A" 1] Sample.all_day [Sample.shift "B" 2] Sample.quiet
              Sample.quiet _ eq_refl eq_refl Hbefore all_day_is_not_timed)
    as [(ex & Hturn & Hrun & Hkind) _].
  destruct (Hkind (Date 20000) (Date 20001) eq_refl eq_refl) as [msg ->].
  exists msg. split; [exact Hturn | exact Hrun].
Defined.

(** * Further properties of the code *)

(** ** The calendar calls of one turn *)

Section TurnCalls.

Context {R : Type} (env : Env R).

Lemma store_calls_app (a b : list Action) :
  store_calls (a ++ b) = store_calls a ++ store_calls b.
Proof. unfold store_calls. apply filter_app. Qed.

Lemma store_calls_log_entry m : store_calls (log_entry env m) = [].
Proof. unfold log_entry. destruct (on_log env); reflexivity. Qed.

Lemma log_tail m (s : RunState R) :
  exists r s', Sync.log env m s = (r, s') /\ trace s' = trace s ++ log_entry env m.
Proof.
  destruct (Sync.log env m s) as [r s'] eqn:Hlog.
  pose proof (log_trace env m s) as Htr. rewrite Hlog in Htr. eauto.
Qed.

(** The calls of the guarded part, read off the answers it gets. *)
Lemma guarded_body_calls cfg event start end_ g_event (s : RunState R) :
  exists tail,
    trace (snd (Sync.guarded_body env cfg event start end_ g_event s)) = trace s ++ tail
    /\ store_calls tail
       = match Sync.window_query cfg start end_ with
         | Raise _ => []
         | Ok q =>
             match events_list env q (world s) with
             | (Raise _, _) => [CallList q]
             | (Ok results, _) =>
                 match Sync.match_existing start (ev_summary event)
                         (default [] (items results)) with
                 | Raise _ => [CallList q]
                 | Ok None => [CallList q; CallInsert (CALENDAR_ID cfg) g_event]
                 | Ok (Some m) =>
                     match re_id m with
                     | None => [CallList q]
                     | Some event_id =>
                         [CallList q; CallUpdate (CALENDAR_ID cfg) event_id g_event]
                     end
                 end
             end
         end.
Proof.
  unfold Sync.guarded_body, bind, lift at 1.
  destruct (Sync.window_query cfg start end_) as [q | ex0]; simpl.
  2:{ exists []. rewrite app_nil_r. split; reflexivity. }
  unfold bind, lift, interact, set_stats.
  destruct (events_list env _ (world s)) as [[results | ex] w1]; simpl.
  2:{ eexists [_]. split; reflexivity. }
  destruct (Sync.match_existing _ _ _) as [[m |] | ex]; simpl.
  - unfold get_id. destruct (re_id m) as [event_id |]; simpl.
    2:{ eexists [_]. split; reflexivity. }
    destruct (events_update env _ _ _ w1) as [[[] | ex] w2]; simpl.
    2:{ eexists [_; _]. rewrite <- app_assoc. split; reflexivity. }
    match goal with |- context [Sync.log env ?m ?s0] =>
      destruct (log_tail m s0) as (r & s' & -> & Htr') end.
    simpl in *. rewrite Htr'.
    eexists ([_; _] ++ log_entry env _). rewrite <- !app_assoc. simpl.
    split; [reflexivity |].
    change (store_calls (?a :: ?b :: ?l)) with (a :: b :: store_calls l).
    rewrite store_calls_log_entry. reflexivity.
  - destruct (events_insert env _ _ w1) as [[[] | ex] w2]; simpl.
    2:{ eexists [_; _]. rewrite <- app_assoc. split; reflexivity. }
    match goal with |- context [Sync.log env ?m ?s0] =>
      destruct (log_tail m s0) as (r & s' & -> & Htr') end.
    simpl in *. rewrite Htr'.
    eexists ([_; _] ++ log_entry env _). rewrite <- !app_assoc. simpl.
    split; [reflexivity |].
    change (store_calls (?a :: ?b :: ?l)) with (a :: b :: store_calls l).
    rewrite store_calls_log_entry. reflexivity.
  - eexists [_]. split; reflexivity.
Qed.

(** The calls of one turn, read off the answers it gets. *)
Lemma process_event_calls (cfg : Config) (zone : TimeZone)
    (event : SourceEvent) (start end_ : PyTime) (g_event : Payload) (s : RunState R) :
  prepare zone event = Ok (start, end_, g_event) ->
  exists tail,
    trace (snd (Sync.process_event env cfg zone event s)) = trace s ++ tail
    /\ store_calls tail
       = match Sync.window_query cfg start end_ with
         | Raise _ => []
         | Ok q =>
             match events_list env q (world s) with
             | (Raise _, _) => [CallList q]
             | (Ok results, _) =>
                 match Sync.match_existing start (ev_summary event)
                         (default [] (items results)) with
                 | Raise _ => [CallList q]
                 | Ok None => [CallList q; CallInsert (CALENDAR_ID cfg) g_event]
                 | Ok (Some m) =>
                     match re_id m with
                     | None => [CallList q]
                     | Some event_id =>
                         [CallList q; CallUpdate (CALENDAR_ID cfg) event_id g_event]
                     end
                 end
             end
         end.
Proof.
  intros Hp.
  destruct (guarded_body_calls cfg event start end_ g_event s) as (tail & Htr & Hcalls).
  rewrite (process_event_prepared env cfg zone event start end_ g_event s Hp).
  unfold try_except.
  destruct (Sync.guarded_body env cfg event _ _ g_event s) as [[[] | ex] s1]; simpl in *.
  - exists tail. split; assumption.
  - unfold Sync.on_fault, bind, set_stats.
    match goal with |- context [Sync.log env ?m ?s0] =>
      destruct (log_tail m s0) as (r & s' & -> & Htr') end.
    simpl in *. rewrite Htr'.
    exists (tail ++ log_entry env (LogError (ev_summary event) ex)).
    rewrite Htr, <- app_assoc. split; [reflexivity |].
    rewrite store_calls_app, store_calls_log_entry, app_nil_r. exact Hcalls.
Qed.

(** X1.  One turn of the upload loop, for an event that reaches the
    guard, makes at most one listing and at most one write, and which ones
    is decided by the bounds of the event and the answers alone: no call
    at all when the window cannot be computed because a bound widened by
    five hours leaves the range of [datetime]; otherwise exactly one
    listing, and nothing is written when the listing or the matching loop
    raises or the matched item has no [id]; a match is followed by one
    update, addressed to the identifier of the matched item; no match is
    followed by one insert.  Both writes carry the payload of the
    event. *)
Theorem turn_makes_one_listing_and_at_most_one_write (cfg : Config) (zone : TimeZone)
    (event : SourceEvent) (start end_ : PyTime) (g_event : Payload) (s : RunState R) :
  prepare zone event = Ok (start, end_, g_event) ->
  exists tail,
    trace (snd (Sync.process_event env cfg zone event s)) = trace s ++ tail
    /\ store_calls tail
       = match Sync.window_query cfg start end_ with
         | Raise _ => []
         | Ok q =>
             match events_list env q (world s) with
             | (Raise _, _) => [CallList q]
             | (Ok results, _) =>
                 match Sync.match_existing start (ev_summary event)
                         (default [] (items results)) with
                 | Raise _ => [CallList q]
                 | Ok None => [CallList q; CallInsert (CALENDAR_ID cfg) g_event]
                 | Ok (Some m) =>
                     match re_id m with
                     | None => [CallList q]
                     | Some event_id =>
                         [CallList q; CallUpdate (CALENDAR_ID cfg) event_id g_event]
                     end
                 end
             end
         end.
Proof. apply process_event_calls. Qed.

End TurnCalls.

(** ** Order of the listings, and listings the loop cannot use *)

Section TurnEdges.

Context {R : Type} (env : Env R).

Lemma list_calls_app (a b : list Action) :
  list_calls (a ++ b) = list_calls a ++ list_calls b.
Proof. unfold list_calls. apply filter_app. Qed.

Lemma list_calls_none (l : list Action) :
  Forall (fun a => is_list_call a = false) l -> list_calls l = [].
Proof.
  induction 1 as [| a l Ha _ IH]; [reflexivity |].
  unfold list_calls in *. rewrite filter_cons_False; [exact IH |].
  rewrite Ha. discriminate.
Qed.

Lemma list_calls_window_listing cfg start end_ :
  list_calls (window_listing cfg start end_) = window_listing cfg start end_.
Proof. unfold window_listing. destruct (Sync.window_query cfg start end_); reflexivity. Qed.

Lemma query_of_prepared cfg zone e start end_ g_event :
  prepare zone e = Ok (start, end_, g_event) ->
  query_of cfg zone e
  = match Sync.window_query cfg start end_ with Ok q => Some q | Raise _ => None end.
Proof. intros Hp. unfold query_of. rewrite Hp. reflexivity. Qed.

Lemma start_at_prepared zone e start end_ g_event :
  prepare zone e = Ok (start, end_, g_event) -> start_at zone e = instant start.
Proof.
  intros Hp. apply prepare_normalized in Hp as (Hs & _ & _).
  unfold start_at. rewrite Hs. reflexivity.
Qed.

Lemma listings_of_cons cfg zone e events start end_ g_event :
  prepare zone e = Ok (start, end_, g_event) ->
  listings_of cfg zone (e :: events)
  = window_listing cfg start end_ ++ listings_of cfg zone events.
Proof.
  intros Hp. unfold listings_of, window_listing. simpl.
  rewrite (query_of_prepared cfg zone e start end_ g_event Hp).
  destruct (Sync.window_query cfg start end_); reflexivity.
Qed.

Lemma for_each_list_calls (Hlog : log_returns env) cfg zone events :
  Forall (prepared zone) events ->
  forall s : RunState R,
  exists s',
    for_each (Sync.process_event env cfg zone) events s = (Ok tt, s')
    /\ list_calls (trace s') = list_calls (trace s) ++ listings_of cfg zone events.
Proof.
  induction 1 as [| e events (start & end_ & g_event & Hp) _ IH]; intros s.
  - exists s. simpl. rewrite app_nil_r. split; reflexivity.
  - destruct (process_event_spec env Hlog cfg zone e start end_ g_event s Hp)
      as (s1 & Hturn & _ & tail & Htr & Hno).
    destruct (IH s1) as (s' & Hloop & Hcalls).
    exists s'. simpl. unfold bind. rewrite Hturn. split; [exact Hloop |].
    rewrite Hcalls, Htr, (listings_of_cons cfg zone e events start end_ g_event Hp).
    rewrite !list_calls_app, (list_calls_none tail Hno), app_nil_r, <- app_assoc.
    rewrite list_calls_window_listing. reflexivity.
Qed.

(** X2.  Provided the callback returns normally, the credentials are
    usable and the zone resolves: for events that reach the guard (their
    bounds are datetimes and the zone localizes those that are naive) the
    listings of a run are, in order, the window queries of the events in
    the order they were given, one for each event whose window can be
    computed, so events are reconciled strictly in input order. *)
Theorem listings_follow_the_order_of_events (cfg : Config) (zone : TimeZone)
    (events : list SourceEvent) (w : R) :
  log_returns env ->
  fst (get_calendar_service env w) = Ok tt ->
  pytz_timezone env (TIMEZONE cfg) = Some zone ->
  Forall (prepared zone) events ->
  exists st s',
    Sync.run env cfg events w = (Ok st, s')
    /\ list_calls (trace s') = listings_of cfg zone events.
Proof.
  intros Hlog Hsvc Hzone Hall.
  destruct (get_calendar_service env w) as [r w0] eqn:Hs. simpl in Hsvc. subst r.
  rewrite (run_started env cfg events w w0 zone Hs Hzone).
  destruct (for_each_list_calls Hlog cfg zone events Hall (started w0)) as (s' & Hloop & Hcalls).
  rewrite Hloop. exists (stats s'), s'. split; [reflexivity |]. exact Hcalls.
Qed.

(** A turn in which the guarded part raises: the error is counted and the
    callback is told. *)
Lemma faulty_turn (Hlog : log_returns env) cfg zone event start end_ g_event
    (s : RunState R) ex :
  prepare zone event = Ok (start, end_, g_event) ->
  Fault env cfg event start end_ g_event (world s) ex ->
  exists s2 before,
    Sync.process_event env cfg zone event s = (Ok tt, s2)
    /\ stats s2 = bump_errors (stats s)
    /\ trace s2 = before ++ log_entry env (LogError (ev_summary event) ex).
Proof.
  intros Hp HF.
  destruct (fault_raises env _ _ _ _ _ _ _ HF) as (s1 & Hbody & Hst & _).
  rewrite (process_event_prepared env cfg zone event start end_ g_event s Hp).
  unfold try_except. rewrite Hbody.
  unfold Sync.on_fault, bind, set_stats.
  match goal with |- context [Sync.log env ?m ?s0] =>
    destruct (log_run env Hlog m s0) as [w2 ->] end.
  simpl. rewrite Hst. eauto.
Qed.

Lemma match_existing_unreadable start ts summary before c after :
  instant start = Some ts ->
  Forall (fun y => readable y /\ qualifies ts summary y = false) before ->
  unreadable c ->
  exists ex, Sync.match_existing start summary (before ++ c :: after) = Raise ex.
Proof.
  intros Hs Hbefore [Htruthy Hnone].
  induction Hbefore as [| y before [Hy Hq] _ IH].
  - apply instant_aware in Hs as (w & tz & -> & ->).
    simpl. rewrite Htruthy. simpl. unfold candidate_instant in Hnone.
    destruct (get_start_dateTime c) as [[| | d | wn | wc off] |];
      simpl in *; try discriminate; eauto.
  - simpl app. destruct (readable_cases y Hy) as [Hskip | [t Ht]].
    + rewrite (match_existing_skip _ _ _ _ Hskip). exact IH.
    + rewrite (match_existing_aware start ts summary y _ t Hs Ht), Hq. exact IH.
Qed.

(** X3.  A listing item whose start [dateTime] is there but cannot be
    read as a time with an offset (text that does not parse, or a time
    without offset) makes the whole event fail once the loop reaches it:
    provided the callback returns normally, the turn counts one error,
    writes nothing to the calendar, and never looks at the items after it,
    among which there may be an exact match. *)
Theorem item_without_offset_fails_the_event (cfg : Config) (zone : TimeZone)
    (event : SourceEvent) (start end_ : PyTime) (g_event : Payload) (q : ListQuery)
    (s : RunState R) (results : ListResponse) (w1 : R) (before : list RemoteEvent)
    (c : RemoteEvent) (after : list RemoteEvent) (ts : Z) :
  log_returns env ->
  prepare zone event = Ok (start, end_, g_event) ->
  start_at zone event = Some ts ->
  query_of cfg zone event = Some q ->
  events_list env q (world s) = (Ok results, w1) ->
  default [] (items results) = before ++ c :: after ->
  Forall (fun y => readable y /\ qualifies ts (ev_summary event) y = false) before ->
  unreadable c ->
  exists ex s2 tail,
    Sync.match_existing start (ev_summary event) (before ++ c :: after) = Raise ex
    /\ Sync.process_event env cfg zone event s = (Ok tt, s2)
    /\ stats s2 = bump_errors (stats s)
    /\ trace s2 = trace s ++ tail
    /\ store_calls tail = [CallList q].
Proof.
  intros Hlog Hp Hts Hq Hlist Hitems Hbefore Hc.
  rewrite (start_at_prepared zone event start end_ g_event Hp) in Hts.
  rewrite (query_of_prepared cfg zone event start end_ g_event Hp) in Hq.
  destruct (Sync.window_query cfg start end_) as [q' | ex'] eqn:Hw; [| discriminate Hq].
  injection Hq as ->.
  destruct (match_existing_unreadable _ ts (ev_summary event) before c after Hts Hbefore Hc)
    as [ex Hm].
  assert (HF : Fault env cfg event start end_ g_event (world s) ex).
  { eapply fault_match; [exact Hw | exact Hlist |]. rewrite Hitems. exact Hm. }
  destruct (faulty_turn Hlog cfg zone event start end_ g_event s ex Hp HF)
    as (s2 & pre & Hturn & Hst & _).
  destruct (process_event_calls env cfg zone event start end_ g_event s Hp)
    as (tail & Htr & Hcalls).
  rewrite Hturn in Htr. simpl in Htr.
  rewrite Hw, Hlist, Hitems, Hm in Hcalls.
  exists ex, s2, tail. auto.
Qed.

(** X4.  A matched item that carries no [id] cannot be updated: the lookup
    [matched['id']] raises a key error inside the guard, so, provided the
    callback returns normally, the turn counts one error and issues
    neither an update nor an insert. *)
Theorem matched_item_without_id_is_an_error (cfg : Config) (zone : TimeZone)
    (event : SourceEvent) (start end_ : PyTime) (g_event : Payload) (q : ListQuery)
    (s : RunState R) (results : ListResponse) (w1 : R) (m : RemoteEvent) :
  log_returns env ->
  prepare zone event = Ok (start, end_, g_event) ->
  query_of cfg zone event = Some q ->
  events_list env q (world s) = (Ok results, w1) ->
  Sync.match_existing start (ev_summary event) (default [] (items results)) = Ok (Some m) ->
  re_id m = None ->
  exists s2 tail before,
    Sync.process_event env cfg zone event s = (Ok tt, s2)
    /\ stats s2 = bump_errors (stats s)
    /\ trace s2 = trace s ++ tail
    /\ store_calls tail = [CallList q]
    /\ trace s2 = before ++ log_entry env (LogError (ev_summary event) (KeyError "id")).
Proof.
  intros Hlog Hp Hq Hlist Hm Hid.
  rewrite (query_of_prepared cfg zone event start end_ g_event Hp) in Hq.
  destruct (Sync.window_query cfg start end_) as [q' | ex'] eqn:Hw; [| discriminate Hq].
  injection Hq as ->.
  assert (HF : Fault env cfg event start end_ g_event (world s) (KeyError "id")).
  { eapply fault_id; [exact Hw | exact Hlist | exact Hm |].
    unfold get_id. rewrite Hid. reflexivity. }
  destruct (faulty_turn Hlog cfg zone event start end_ g_event s _ Hp HF)
    as (s2 & pre & Hturn & Hst & Hlogged).
  destruct (process_event_calls env cfg zone event start end_ g_event s Hp)
    as (tail & Htr & Hcalls).
  rewrite Hturn in Htr. simpl in Htr.
  rewrite Hw, Hlist, Hm, Hid in Hcalls.
  exists s2, tail, pre. auto.
Qed.

End TurnEdges.

(** ** What a run does to a faithful store *)

Section FaithfulRun.

Import FaithfulStore.

Lemma not_in_cons_summary (summary : string) (e : SourceEvent) (rest : list SourceEvent) :
  (summary ∉ ev_summary <$> e :: rest) ->
  summary <> ev_summary e /\ (summary ∉ ev_summary <$> rest).
Proof.
  intros H. split.
  - intros ->. apply H. rewrite fmap_cons. apply list_elem_of_here.
  - intros Hin. apply H. rewrite fmap_cons. apply list_elem_of_further. exact Hin.
Qed.

Lemma omap_length_step {A B : Type} (f : A -> option B) (x : A) (l : list A) :
  length (omap f (x :: l)) = ((match f x with Some _ => 1 | None => 0 end) + length (omap f l))%nat.
Proof. simpl. destruct (f x); reflexivity. Qed.

(** The loop against the store, however it ends: one stored event more
    for each event created, nothing removed, and nothing touched that
    bears a summary foreign to the source events.  When every event
    reaches the guard the loop returns, and the errors are the events
    whose window cannot be computed. *)
Lemma faithful_loop zones cfg zone events :
  forall st : RunState Store,
  exists r st',
    for_each (Sync.process_event (env zones) cfg zone) events st = (r, st')
    /\ (size (world st') + created (stats st) = size (world st) + created (stats st'))%nat
    /\ (forall id, is_Some (world st !! id) -> is_Some (world st' !! id))
    /\ (forall id body, world st !! id = Some body ->
          (p_summary body ∉ ev_summary <$> events) -> world st' !! id = Some body)
    /\ (Forall (prepared zone) events ->
        r = Ok tt
        /\ (errors (stats st') + length (omap (query_of cfg zone) events)
            = errors (stats st) + length events)%nat).
Proof.
  induction events as [| e rest IH]; intros st.
  - exists (Ok tt), st. simpl. unfold ret. repeat split; auto.
  - destruct (faithful_turn_any zones cfg zone e st) as (r1 & st1 & Hturn & Hcase).
    assert (Hstep :
      for_each (Sync.process_event (env zones) cfg zone) (e :: rest) st
      = match r1 with
        | Ok _ => for_each (Sync.process_event (env zones) cfg zone) rest st1
        | Raise ex => (Raise ex, st1)
        end).
    { simpl. unfold bind. rewrite Hturn. destruct r1; reflexivity. }
    rewrite Hstep. clear Hstep.
    destruct Hcase as [(Hw & Hc & Hu & Hkind) | (-> & Hq & Herr & g & Hg & Hput)].
    + destruct Hkind as [(-> & Herr & _ & Hq) | ([ex ->] & Hst & Hnot)].
      * destruct (IH st1) as (r & st' & Hloop & Hsize & Hdom & Hkeep & Hret).
        exists r, st'. rewrite Hw, Hc in *. split; [exact Hloop |].
        split; [exact Hsize |]. split; [exact Hdom |].
        split; [intros id body Hid Hforeign; apply not_in_cons_summary in Hforeign as [_ Hf];
                apply Hkeep; assumption |].
        intros Hall. apply Forall_cons in Hall as [_ Hall].
        destruct (Hret Hall) as [-> Hcount]. split; [reflexivity |].
        rewrite omap_length_step, Hq. simpl length. lia.
      * exists (Raise ex), st1. rewrite Hw, Hc. split; [reflexivity |].
        split; [reflexivity |]. split; [auto |]. split; [auto |].
        intros Hall. apply Forall_cons in Hall as [He _]. contradiction.
    + destruct (IH st1) as (r & st' & Hloop & Hsize & Hdom & Hkeep & Hret).
      exists r, st'. split; [exact Hloop |].
      assert (Hlen : Forall (prepared zone) (e :: rest) ->
                     r = Ok tt
                     /\ (errors (stats st') + length (omap (query_of cfg zone) (e :: rest))
                         = errors (stats st) + length (e :: rest))%nat).
      { intros Hall. apply Forall_cons in Hall as [_ Hall].
        destruct (Hret Hall) as [-> Hcount]. split; [reflexivity |].
        destruct Hq as [q Hq]. rewrite omap_length_step, Hq. simpl length. lia. }
      destruct Hput as [(id0 & body0 & Hlook & Hsum & Hst & Hw) | (Hst & Hw)].
      * assert (Hsz : size (world st1) = size (world st))
          by (rewrite Hw; apply map_size_insert_Some; eauto).
        rewrite Hst in *. simpl in *. split; [lia |]. split; [| split; [| exact Hlen]].
        -- intros id Hid. apply Hdom. rewrite Hw.
           destruct (decide (id0 = id)) as [-> | Hne];
             [rewrite lookup_insert_eq; eauto | rewrite lookup_insert_ne; assumption].
        -- intros id body Hid Hforeign.
           apply not_in_cons_summary in Hforeign as [Hne Hforeign].
           apply Hkeep; [| exact Hforeign]. rewrite Hw, lookup_insert_ne; [exact Hid |].
           intros ->. rewrite Hlook in Hid. injection Hid as ->. congruence.
      * assert (Hfresh : world st !! fresh (dom (world st)) = None)
          by (apply not_elem_of_dom, is_fresh).
        assert (Hsz : size (world st1) = S (size (world st)))
          by (rewrite Hw; apply map_size_insert_None; exact Hfresh).
        rewrite Hst in *. simpl in *. split; [lia |]. split; [| split; [| exact Hlen]].
        -- intros id Hid. apply Hdom. rewrite Hw, lookup_insert_ne; [exact Hid |].
           intros Heq. rewrite <- Heq, Hfresh in Hid. destruct Hid as [? Hid]. discriminate.
        -- intros id body Hid Hforeign.
           apply not_in_cons_summary in Hforeign as [_ Hforeign].
           apply Hkeep; [| exact Hforeign]. rewrite Hw, lookup_insert_ne; [exact Hid |].
           intros Heq. rewrite <- Heq, Hfresh in Hid. discriminate.
Qed.

(** X5.  Against a faithful store, a run over events that reach the guard
    (their bounds are datetimes and the zone localizes those that are
    naive) returns; its errors are exactly the events whose window cannot
    be computed because a bound widened by five hours leaves the range of
    [datetime], so there is none when every window can be computed; it
    removes no stored event (every identifier held before is held after)
    and leaves the store larger by exactly the number of events it reports
    as created. *)
Theorem faithful_run_adds_what_it_creates (zones : string -> option TimeZone)
    (cfg : Config) (zone : TimeZone) (events : list SourceEvent) (s : Store) :
  zones (TIMEZONE cfg) = Some zone ->
  Forall (prepared zone) events ->
  exists st s',
    Sync.run (env zones) cfg events s = (Ok st, s')
    /\ (errors st + length (omap (query_of cfg zone) events))%nat = length events
    /\ (Forall (fun e => is_Some (query_of cfg zone e)) events -> errors st = 0%nat)
    /\ size (world s') = (size s + created st)%nat
    /\ (forall id, is_Some (s !! id) -> is_Some (world s' !! id)).
Proof.
  intros Hzone Hall.
  rewrite (run_started (env zones) cfg events s s zone eq_refl Hzone).
  destruct (faithful_loop zones cfg zone events (started s))
    as (r & s' & Hloop & Hsize & Hdom & _ & Hret).
  destruct (Hret Hall) as [-> Hcount].
  rewrite Hloop. exists (stats s'), s'. simpl in *.
  split; [reflexivity |]. split; [lia |]. split; [| split; [lia | exact Hdom]].
  intros Hq.
  assert (Hlen : length (omap (query_of cfg zone) events) = length events).
  { clear -Hq. induction Hq as [| e rest [q He] _ IH]; [reflexivity |].
    rewrite omap_length_step, He, IH. reflexivity. }
  lia.
Qed.

(** X6.  Against a faithful store, a run over events with datetime bounds
    never modifies a stored event whose summary is the summary of none of
    the source events: it is found after the run under the same
    identifier with the same body. *)
Theorem foreign_summaries_are_left_alone (zones : string -> option TimeZone)
    (cfg : Config) (zone : TimeZone) (events : list SourceEvent) (s : Store)
    (id : string) (body : Payload) :
  zones (TIMEZONE cfg) = Some zone ->
  Forall timed_event events ->
  s !! id = Some body ->
  (p_summary body ∉ ev_summary <$> events) ->
  world (snd (Sync.run (env zones) cfg events s)) !! id = Some body.
Proof.
  intros Hzone _ Hid Hforeign.
  rewrite (run_started (env zones) cfg events s s zone eq_refl Hzone).
  destruct (faithful_loop zones cfg zone events (started s))
    as (r & s' & Hloop & _ & _ & Hkeep & _).
  rewrite Hloop. destruct r; simpl; apply Hkeep; assumption.
Qed.

End FaithfulRun.

(** ** Parsing the roster files *)

Section ParseFacts.

Import Pipeline.

Variable strip : string -> string.

Lemma parse_component_bounded c :
  bounded c -> exists e, parse_component strip c = Ok e.
Proof.
  intros [[start Hs] [end_ He]]. unfold parse_component. rewrite Hs, He. eauto.
Qed.

Lemma parse_component_unbounded c :
  ~ bounded c -> parse_component strip c = Raise no_dt.
Proof.
  intros H. unfold parse_component.
  destruct (c_dtstart c) as [start |] eqn:Hs; [| reflexivity].
  destruct (c_dtend c) as [end_ |] eqn:He; [| reflexivity].
  exfalso. apply H. split; eauto.
Qed.

Lemma parse_component_raises c ex :
  parse_component strip c = Raise ex -> ex = no_dt.
Proof.
  unfold parse_component.
  destruct (c_dtstart c); [| intros Heq; injection Heq as <-; reflexivity].
  destruct (c_dtend c); [| intros Heq; injection Heq as <-; reflexivity].
  discriminate.
Qed.

Lemma parse_events_only_raises_no_dt walk ex :
  parse_events strip walk = Raise ex -> ex = no_dt.
Proof.
  induction walk as [| c rest IH]; simpl; [discriminate |].
  case_bool_decide as Hname; [| exact IH].
  unfold parse_component.
  destruct (c_dtstart c); [| intros Heq; injection Heq as <-; reflexivity].
  destruct (c_dtend c); [| intros Heq; injection Heq as <-; reflexivity].
  destruct (parse_events strip rest) as [events | ex']; [discriminate |].
  intros Heq. injection Heq as <-. apply IH. reflexivity.
Qed.

(** The loop on a file whose events all have their bounds. *)
Lemma parse_events_bounded (walk : list Component) :
  Forall (fun c => vevent c -> bounded c) walk ->
  exists events,
    parse_events strip walk = Ok events
    /\ Forall2 (fun c e => parse_component strip c = Ok e) (filter vevent walk) events
    /\ length events = length (filter vevent walk).
Proof.
  induction 1 as [| c rest Hc _ (events & Hparse & Hall & Hlen)].
  - exists []. repeat split. constructor.
  - simpl. unfold vevent in *. case_bool_decide as Hname.
    + destruct (parse_component_bounded c (Hc Hname)) as [e He].
      rewrite He, Hparse. exists (e :: events).
      rewrite filter_cons_True by exact Hname.
      repeat split; [constructor; assumption | simpl; congruence].
    + rewrite filter_cons_False by exact Hname. eauto.
Qed.

(** X7.  When every [VEVENT] of a file has a start and an end,
    [parse_ical]'s loop returns one event per [VEVENT], in the order of
    the file, each built from its component; components of any other kind
    (the calendar itself, time zones, alarms) contribute nothing. *)
Theorem parse_returns_one_event_per_vevent (walk : list Component) :
  Forall (fun c => vevent c -> bounded c) walk ->
  exists events,
    parse_events strip walk = Ok events
    /\ Forall2 (fun c e => parse_component strip c = Ok e) (filter vevent walk) events
    /\ length events = length (filter vevent walk).
Proof. apply parse_events_bounded. Qed.

(** The loop on a file with an event that lacks a bound. *)
Lemma parse_events_unbounded (walk : list Component) (c : Component) :
  c ∈ walk -> vevent c -> ~ bounded c ->
  parse_events strip walk = Raise no_dt.
Proof.
  intros Hin Hv Hb. induction walk as [| d rest IH]; [apply elem_of_nil in Hin; destruct Hin |].
  simpl. apply elem_of_cons in Hin as [<- | Hin].
  - unfold vevent in Hv. rewrite bool_decide_eq_true_2 by exact Hv.
    rewrite (parse_component_unbounded c Hb). reflexivity.
  - specialize (IH Hin). rewrite IH.
    case_bool_decide as Hname; [| reflexivity].
    destruct (parse_component strip d) as [e | ex] eqn:Hd; [reflexivity |].
    rewrite (parse_component_raises d ex Hd). reflexivity.
Qed.

(** X8.  A single [VEVENT] that lacks its start or its end (an entry that
    gives a duration instead of an end, say) makes the loop raise the
    attribute error of [None.dt]: no event of the file is returned,
    whatever the other components are. *)
Theorem vevent_without_bound_fails_the_file (walk : list Component) (c : Component) :
  c ∈ walk -> vevent c -> ~ bounded c ->
  parse_events strip walk = Raise no_dt.
Proof. apply parse_events_unbounded. Qed.

(** X9.  An event that comes out of the parser always has a description,
    the stripped text of the component or the stripped empty text, so the
    payload built for it carries that text: the fallback text of the
    payload, [Imported from Humanforce], is never used for a parsed event.
    Its summary is the text of the component, or the text [None] when the
    component has no summary. *)
Theorem parsed_event_payload_texts (c : Component) (e : SourceEvent)
    (start end_ : PyTime) (g_event : Payload) :
  parse_component strip c = Ok e ->
  Sync.build_payload e start end_ = Ok g_event ->
  p_description g_event = strip (default EmptyString (c_description c))
  /\ p_summary g_event = default "None" (c_summary c).
Proof.
  unfold parse_component, Sync.build_payload.
  destruct (c_dtstart c); [| discriminate]. destruct (c_dtend c); [| discriminate].
  intros H. injection H as <-. simpl.
  destruct (tzinfo_of start); [| discriminate]. destruct (tzinfo_of end_); [| discriminate].
  intros H. injection H as <-. split; reflexivity.
Qed.

End ParseFacts.

(** ** A whole sync *)

Section SyncFacts.

Import Pipeline.

Variable strip : string -> string.

Context {R : Type} (env : SyncEnv R).

Lemma emit_returns (Hlog : sync_log_returns env) m w :
  exists w', emit env m w = (Ok tt, w').
Proof.
  unfold emit, sync_log_returns in *. destruct (sync_log env) as [callback |]; [| eauto].
  specialize (Hlog m w). destruct (callback m w) as [r w']. simpl in Hlog. subst r. eauto.
Qed.

Lemma upload_env_log_returns (Hlog : sync_log_returns env) : log_returns (upload_env env).
Proof.
  intros m w. destruct (emit_returns Hlog (MsgUpload m) w) as [w' ->]. reflexivity.
Qed.

Lemma parse_events_app walk1 walk2 :
  parse_events strip (walk1 ++ walk2)
  = match parse_events strip walk1 with
    | Raise ex => Raise ex
    | Ok events1 =>
        match parse_events strip walk2 with
        | Raise ex => Raise ex
        | Ok events2 => Ok (events1 ++ events2)
        end
    end.
Proof.
  induction walk1 as [| c rest IH]; simpl.
  - destruct (parse_events strip walk2); reflexivity.
  - case_bool_decide as Hname; [| exact IH].
    destruct (parse_component strip c) as [e | ex]; [| reflexivity].
    rewrite IH. destruct (parse_events strip rest) as [events | ex]; [| reflexivity].
    destruct (parse_events strip walk2); reflexivity.
Qed.

(** With a callback that returns and files that can be read, parsing the
    files one after the other is parsing their components in a row. *)
Lemma parse_all_concat (Hlog : sync_log_returns env) (walk_of : string -> list Component)
    (files : list string) :
  (forall p w, p ∈ files -> fst (read_ical env p w) = Ok (walk_of p)) ->
  forall w, exists w',
    parse_all strip env files w
    = (parse_events strip (concat (walk_of <$> files)), w').
Proof.
  induction files as [| p rest IH]; intros Hread w.
  - exists w. reflexivity.
  - simpl. unfold parse_ical.
    pose proof (Hread p w (list_elem_of_here _ _)) as Hp.
    destruct (read_ical env p w) as [r w1]. simpl in Hp. subst r.
    rewrite parse_events_app.
    destruct (parse_events strip (walk_of p)) as [events | ex] eqn:Hparse; [| eauto].
    destruct (emit_returns Hlog (MsgParsed (length events) p) w1) as [w2 ->].
    destruct (IH (fun q w0 Hq => Hread q w0 (list_elem_of_further _ _ _ Hq)) w2) as [w' ->].
    change (list_fmap string (list Component) walk_of rest) with (walk_of <$> rest).
    destruct (parse_events strip (concat (walk_of <$> rest))); eauto.
Qed.

Lemma parse_component_prepared zone c e :
  timed_component zone c -> parse_component strip c = Ok e -> prepared zone e.
Proof.
  intros (start & end_ & start' & end' & Hs & He & Hts & Hte & Hns & Hne).
  unfold parse_component. rewrite Hs, He.
  intros H. injection H as <-. apply prepared_iff. simpl.
  split; [split; assumption |]. split; eauto.
Qed.

Lemma timed_component_bounded zone c : timed_component zone c -> bounded c.
Proof. intros (start & end_ & _ & _ & Hs & He & _). split; eauto. Qed.

Lemma parse_events_prepared zone walk :
  Forall (fun c => vevent c -> timed_component zone c) walk ->
  exists events,
    parse_events strip walk = Ok events
    /\ Forall (prepared zone) events
    /\ length events = length (filter vevent walk).
Proof.
  intros Hall.
  destruct (parse_events_bounded strip walk) as (events & Hparse & Hpair & Hlen).
  { eapply Forall_impl; [exact Hall |].
    intros c Hc Hv. eapply timed_component_bounded; eauto. }
  exists events. repeat split; [exact Hparse | | exact Hlen].
  assert (Hv : Forall (fun c => timed_component zone c) (filter vevent walk)).
  { apply Forall_forall. intros c Hc. apply list_elem_of_filter in Hc as [Hv Hin].
    rewrite Forall_forall in Hall. auto. }
  clear Hparse Hlen Hall. induction Hpair as [| c e cs es Hce _ IH]; [constructor |].
  apply Forall_cons in Hv as [Hc Hcs].
  constructor; [eapply parse_component_prepared; eassumption | auto].
Qed.

Lemma elem_of_concat {A : Type} (x : A) (l : list A) (ls : list (list A)) :
  x ∈ l -> l ∈ ls -> x ∈ concat ls.
Proof.
  intros Hx Hl. apply list_elem_of_In. apply in_concat.
  exists l. split; apply list_elem_of_In; assumption.
Qed.

(** X10.  With a callback that returns, a download that delivers its files
    and files that can be read: if any of the files holds a [VEVENT]
    without start or end, [do_sync] raises the attribute error of the
    parser and the upload is never entered, so the calendar service is not
    even built and nothing of the other files reaches the calendar. *)
Theorem unbounded_vevent_aborts_before_the_calendar (cfg : Config)
    (walk_of : string -> list Component) (files : list string) (p : string)
    (c : Component) (w : R) :
  sync_log_returns env ->
  (forall w0, fst (download_icals env w0) = Ok files) ->
  (forall q w0, q ∈ files -> fst (read_ical env q w0) = Ok (walk_of q)) ->
  p ∈ files -> c ∈ walk_of p -> vevent c -> ~ bounded c ->
  exists w', do_sync strip env cfg w = (Raise no_dt, w', []).
Proof.
  intros Hlog Hdl Hread Hp Hc Hv Hb. unfold do_sync.
  destruct (emit_returns Hlog MsgStarting w) as [w1 ->].
  specialize (Hdl w1). destruct (download_icals env w1) as [r w2]. simpl in Hdl. subst r.
  destruct (parse_all_concat Hlog walk_of files Hread w2) as [w3 ->].
  rewrite (parse_events_unbounded strip (concat (walk_of <$> files)) c); eauto.
  eapply elem_of_concat; [exact Hc |]. apply list_elem_of_fmap_2. exact Hp.
Qed.

(** X11.  With a callback that returns, usable credentials, a zone that
    resolves, a download that delivers its files and files that can be
    read and whose events have datetime bounds that the zone can
    normalise (a zone with transitions fails to localize a naive time
    within a day of the limits of [datetime]): [do_sync] returns
    statistics; the events uploaded are those of the files in the order
    of the files and, within a file, of its components; the three
    counters add up to the number of [VEVENT] components of all files;
    and the calendar is queried in that order, once for each event whose
    window can be computed. *)
Theorem sync_uploads_every_parsed_event_in_file_order (cfg : Config) (zone : TimeZone)
    (walk_of : string -> list Component) (files : list string) (w : R) :
  sync_log_returns env ->
  (forall w0, fst (get_calendar_service (calendar env) w0) = Ok tt) ->
  pytz_timezone (calendar env) (TIMEZONE cfg) = Some zone ->
  (forall w0, fst (download_icals env w0) = Ok files) ->
  (forall q w0, q ∈ files -> fst (read_ical env q w0) = Ok (walk_of q)) ->
  (forall q, q ∈ files -> Forall (fun c => vevent c -> timed_component zone c) (walk_of q)) ->
  exists st w' tr events,
    do_sync strip env cfg w = (Ok st, w', tr)
    /\ parse_events strip (concat (walk_of <$> files)) = Ok events
    /\ (created st + updated st + errors st)%nat
       = length (filter vevent (concat (walk_of <$> files)))
    /\ list_calls tr = listings_of cfg zone events.
Proof.
  intros Hlog Hsvc Hzone Hdl Hread Htimed. unfold do_sync.
  destruct (emit_returns Hlog MsgStarting w) as [w1 ->].
  specialize (Hdl w1). destruct (download_icals env w1) as [r w2]. simpl in Hdl. subst r.
  destruct (parse_all_concat Hlog walk_of files Hread w2) as [w3 ->].
  destruct (parse_events_prepared zone (concat (walk_of <$> files)))
    as (events & -> & Hall & Hlen).
  { apply Forall_forall. intros c Hc. apply list_elem_of_In, in_concat in Hc as (l & Hl & Hc).
    apply list_elem_of_In, list_elem_of_fmap in Hl as (q & -> & Hq).
    specialize (Htimed q Hq). rewrite Forall_forall in Htimed.
    apply Htimed. apply list_elem_of_In. exact Hc. }
  destruct (emit_returns Hlog (MsgUploading (length events)) w3) as [w4 ->].
  pose proof (upload_env_log_returns Hlog) as Hlog'.
  pose proof (Hsvc w4) as Hs.
  destruct (get_calendar_service (calendar env) w4) as [r w5] eqn:Hsvc4. simpl in Hs. subst r.
  rewrite (run_started (upload_env env) cfg events w4 w5 zone Hsvc4 Hzone).
  destruct (for_each_list_calls (upload_env env) Hlog' cfg zone events Hall (started w5))
    as (s' & Hloop & Hcalls).
  rewrite Hloop.
  destruct (emit_returns Hlog MsgComplete (world s')) as [w6 ->].
  exists (stats s'), w6, (trace s'), events. repeat split.
  - apply (for_each_counts (upload_env env) (log_returns_success _ Hlog')) in Hloop.
    unfold total in Hloop. simpl in Hloop. lia.
  - exact Hcalls.
Qed.

End SyncFacts.

(** ** What the history says about a run *)

Section RecordFacts.

Import Pipeline History.

Context {R : Type} (env : Env R).

(** X12.  Provided the callback returns normally, the credentials are
    usable, the zone resolves and the events before it reach the guard
    (their bounds are datetimes and the zone localizes those that are
    naive): a run that is aborted by an event with a plain date has, by
    then, handled all the events before it: it made a listing for each of
    them whose window can be computed and counted each of them.  The
    exception is all the caller gets, so the worker of the sync button
    records the run as created 0, updated 0, errors 1, whatever was
    written to the calendar, and the headless entry point records nothing
    at all. *)
Theorem aborted_run_is_recorded_as_one_error (cfg : Config) (zone : TimeZone)
    (before : list SourceEvent) (event : SourceEvent) (after : list SourceEvent)
    (w w0 : R) (now : string) (f : HistoryFile) :
  log_returns env ->
  get_calendar_service env w = (Ok tt, w0) ->
  pytz_timezone env (TIMEZONE cfg) = Some zone ->
  Forall (prepared zone) before ->
  ~ timed_event event ->
  exists ex s',
    Sync.run env cfg (before ++ event :: after) w = (Raise ex, s')
    /\ list_calls (trace s') = listings_of cfg zone before
    /\ (created (stats s') + updated (stats s') + errors (stats s'))%nat = length before
    /\ h_created (sync_now_record now (Raise ex)) = 0
    /\ h_updated (sync_now_record now (Raise ex)) = 0
    /\ h_errors (sync_now_record now (Raise ex)) = 1
    /\ headless_sync now (Raise ex) f = Raise ex.
Proof.
  intros Hlog Hsvc Hzone Hbefore Hdate.
  destruct (for_each_list_calls env Hlog cfg zone before Hbefore (started w0))
    as (s1 & Hloop & Hcalls).
  destruct (prepare_date zone event Hdate) as (ex & Hp & _).
  destruct (unprepared_event_aborts env cfg zone before event after w w0 s1 ex
              Hsvc Hzone Hloop Hp) as [_ Hrun].
  exists ex, s1. split; [exact Hrun |]. repeat split.
  - exact Hcalls.
  - apply (for_each_counts env (log_returns_success env Hlog)) in Hloop. unfold total in Hloop. simpl in Hloop. lia.
Qed.

End RecordFacts.

Section HistoryMore.

Import Pipeline History.

(** X13.  Saving a history of at most a hundred records and loading it
    again gives the same records in the same order. *)
Theorem history_round_trip (entries : list Entry) :
  (length entries <= HISTORY_MAX)%nat ->
  _load_history (_save_history entries) = entries.
Proof. intros H. simpl. apply last_n_short. exact H. Qed.

Lemma last_n_suffix {A : Type} (n : nat) (l : list A) :
  exists dropped, l = dropped ++ last_n n l.
Proof. exists (take (length l - n) l). unfold last_n. symmetry. apply take_drop. Qed.

Lemma last_n_last {A : Type} (n : nat) (l : list A) (x : A) :
  last (last_n (S n) (l ++ [x])) = Some x.
Proof.
  unfold last_n. rewrite length_app. simpl.
  replace (length l + 1 - S n)%nat with (length l - n)%nat by lia.
  rewrite drop_app_le by lia. apply last_snoc.
Qed.

(** X14.  Recording a run when [history.json] is missing, unreadable or
    holds a JSON list: the new record is the last one of the file; the
    file holds the older records followed by the new one, less the oldest
    ones beyond a hundred, so never more than a hundred even if it held
    more before; and a missing or unreadable file is replaced by a history
    of the new record alone.  When the file holds JSON that is not a list,
    the append raises an attribute error and the file is left as it
    was. *)
Theorem recording_appends_the_newest_record (h : Held) (entry : Entry) :
  match h with
  | Expected f =>
      load_history h = inl (_load_history f)
      /\ record h entry = (Ok tt, Expected (record_history f entry))
      /\ last (_load_history (record_history f entry)) = Some entry
      /\ length (_load_history (record_history f entry))
         = Nat.min 100 (length (_load_history f) + 1)
      /\ (exists dropped,
            _load_history f ++ [entry]
            = dropped ++ _load_history (record_history f entry))
      /\ (f = Missing \/ f = Corrupt -> record_history f entry = Stored [entry])
  | Unexpected type_name =>
      load_history h = inr type_name
      /\ record h entry = (Raise (no_append type_name), Unexpected type_name)
      /\ exists msg, no_append type_name = AttributeError msg
  end.
Proof.
  destruct h as [f | type_name].
  - unfold record, load_history, record_history, _save_history, HISTORY_MAX.
    cbn [_load_history]. repeat split.
    + apply last_n_last.
    + rewrite last_n_length, length_app. simpl. reflexivity.
    + apply last_n_suffix.
    + intros [-> | ->]; reflexivity.
  - split; [reflexivity |]. split; [reflexivity |]. eexists. reflexivity.
Qed.

(** X15.  The history tab shows at most fifty rows, the newest record
    first: row [i] is the record [i] places before the last one. *)
Theorem history_rows_are_newest_first (hist : list Entry) :
  length (refresh_rows hist) = Nat.min 50 (length hist)
  /\ forall i, (i < Nat.min 50 (length hist))%nat ->
       refresh_rows hist !! i = hist !! (length hist - 1 - i)%nat.
Proof.
  unfold refresh_rows. split.
  - rewrite length_reverse, last_n_length. reflexivity.
  - intros i Hi. rewrite reverse_lookup by (rewrite last_n_length; exact Hi).
    unfold last_n. rewrite lookup_drop, length_drop. f_equal. lia.
Qed.

End HistoryMore.

(** ** The months to export *)

Section DateFacts.

Import Dates.

Lemma days_in_month_bounds y m : 28 <= days_in_month y m <= 31.
Proof.
  unfold days_in_month. destruct (m =? 2); [destruct (is_leap y); lia |].
  destruct ((m =? 4) || (m =? 6) || (m =? 9) || (m =? 11)); lia.
Qed.

Lemma replace_day_inside d n :
  1 <= n <= 28 ->
  replace_day d n = Ok {| year := year d; month := month d; dom := n |}.
Proof.
  intros Hn. unfold replace_day.
  pose proof (days_in_month_bounds (year d) (month d)) as Hb.
  destruct (Z.leb_spec 1 n); [| lia].
  destruct (Z.leb_spec n (days_in_month (year d) (month d))); [reflexivity | lia].
Qed.

Lemma next_day_inside d :
  dom d < days_in_month (year d) (month d) ->
  next_day d = {| year := year d; month := month d; dom := dom d + 1 |}.
Proof.
  intros H. unfold next_day.
  destruct (Z.ltb_spec (dom d) (days_in_month (year d) (month d))); [reflexivity | lia].
Qed.

Lemma next_day_last d :
  days_in_month (year d) (month d) <= dom d ->
  next_day d
  = if month d <? 12
    then {| year := year d; month := month d + 1; dom := 1 |}
    else {| year := year d + 1; month := 1; dom := 1 |}.
Proof.
  intros H. unfold next_day.
  destruct (Z.ltb_spec (dom d) (days_in_month (year d) (month d))); [lia | reflexivity].
Qed.

Ltac step_inside :=
  match goal with
  | |- context [next_day {| year := ?a; month := ?b; dom := ?c |}] =>
      rewrite (next_day_inside {| year := a; month := b; dom := c |})
        by (cbn [year month dom]; pose proof (days_in_month_bounds a b); lia);
      cbn [year month dom]
  end.

Ltac step_last :=
  match goal with
  | |- context [next_day {| year := ?a; month := ?b; dom := ?c |}] =>
      rewrite (next_day_last {| year := a; month := b; dom := c |})
        by (cbn [year month dom]; lia);
      cbn [year month dom]
  end.

(** Four days after the 28th is one of the first four days of the month
    that follows. *)
Lemma four_days_after_the_28th y m :
  exists k,
    1 <= k <= 4
    /\ Nat.iter 4 next_day {| year := y; month := m; dom := 28 |}
       = if m <? 12
         then {| year := y; month := m + 1; dom := k |}
         else {| year := y + 1; month := 1; dom := k |}.
Proof.
  pose proof (days_in_month_bounds y m) as Hb.
  assert (Hdim : days_in_month y m = 28 \/ days_in_month y m = 29
                 \/ days_in_month y m = 30 \/ days_in_month y m = 31) by lia.
  change (Nat.iter 4 next_day ?d) with (next_day (next_day (next_day (next_day d)))).
  destruct Hdim as [Hdim | [Hdim | [Hdim | Hdim]]].
  - step_last. destruct (m <? 12); do 3 step_inside; eexists; (split; [| reflexivity]); lia.
  - step_inside. step_last.
    destruct (m <? 12); do 2 step_inside; eexists; (split; [| reflexivity]); lia.
  - do 2 step_inside. step_last.
    destruct (m <? 12); step_inside; eexists; (split; [| reflexivity]); lia.
  - do 3 step_inside. step_last.
    destruct (m <? 12); eexists; (split; [| reflexivity]); lia.
Qed.

(** X16.  For every date [datetime] can hold, the two dates the download
    asks its exports from are the first day of the month of [today] and
    the first day of the month after it, December being followed by
    January of the next year: the computation through day 28 plus four
    days never leaves the following month.  It raises in one case only,
    in December of the last year, where the addition overflows. *)
Theorem exports_start_on_the_first_of_this_and_next_month (today : CivilDate) :
  valid today ->
  export_dates today
  = if last_month today
    then Raise (OtherError "OverflowError: date value out of range")
    else Ok ({| year := year today; month := month today; dom := 1 |},
             {| year := if month today <? 12 then year today else year today + 1;
                month := if month today <? 12 then month today + 1 else 1;
                dom := 1 |}).
Proof.
  destruct today as [y m d]. unfold valid, last_month. cbn [year month dom].
  intros (Hy & Hm & _).
  unfold export_dates.
  rewrite replace_day_inside by lia. cbn [year month dom].
  rewrite replace_day_inside by lia. cbn [year month dom].
  unfold add_days.
  destruct (four_days_after_the_28th y m) as (k & Hk & ->).
  unfold MAXYEAR in *.
  destruct (Z.ltb_spec m 12) as [Hlt | Hge]; cbn [year month dom].
  - destruct (Z.leb_spec y 9999); [| lia].
    rewrite replace_day_inside by (cbn [year month dom]; lia).
    destruct (Z.eqb_spec m 12); [lia |]. rewrite andb_false_r. reflexivity.
  - destruct (Z.eqb_spec m 12); [| lia]. rewrite andb_true_r.
    destruct (Z.eqb_spec y 9999) as [-> | Hne].
    + reflexivity.
    + destruct (Z.leb_spec (y + 1) 9999); [| lia].
      rewrite replace_day_inside by (cbn [year month dom]; lia). reflexivity.
Qed.

End DateFacts.

(** ** Building the calendar service *)

Section AuthFacts.

Import Auth.

Lemma build_returns o c s :
  build_error o = None -> build o c s = (Ok c, act (Built c) s).
Proof. intros H. unfold build. rewrite H. reflexivity. Qed.

(** X17.  Whatever [token.json] holds (nothing, text that is not JSON, JSON
    the library rejects, credentials that are valid or not): when
    [credentials.json] is usable, the OAuth flow succeeds and the service
    can be built, [get_calendar_service] of sync.py returns a service.  It
    is built with the credentials of the token only if these are valid,
    and with those of the flow otherwise. *)
Theorem unusable_token_never_blocks_the_service (o : Outside) (s : AuthState)
    (c : Creds) :
  secrets s = SecretsJson (Ok tt) ->
  flow_outcome o = Ok c ->
  build_error o = None ->
  exists c' s',
    get_calendar_service o s = (Ok c', s')
    /\ ((token s = TokenJson (Ok c') /\ cred_valid c' = true)
        \/ (c' = c /\ forall t, token s = TokenJson (Ok t) -> cred_valid t = false)).
Proof.
  intros Hsec Hflow Hbuild. unfold get_calendar_service, read_token.
  assert (Hflowed : forall s0, secrets s0 = SecretsJson (Ok tt) ->
            exists s1, authorize o s0 = (Ok c, s1)).
  { intros s0 Hs0. unfold authorize. rewrite Hs0, Hflow.
    destruct (write_outcome o); eauto. }
  destruct (token s) as [| | [t | ex]] eqn:Htok.
  - destruct (Hflowed s Hsec) as [s1 ->]. rewrite build_returns by exact Hbuild.
    eexists _, _. split; [reflexivity |]. right. split; [reflexivity | discriminate].
  - destruct (remove_error o);
      match goal with |- context [authorize o ?s0] =>
        destruct (Hflowed s0 Hsec) as [s1 ->] end;
      rewrite build_returns by exact Hbuild;
      eexists _, _; (split; [reflexivity |]); right; (split; [reflexivity | discriminate]).
  - destruct (cred_valid t) eqn:Hvalid.
    + rewrite build_returns by exact Hbuild. eexists _, _. split; [reflexivity |]. left. auto.
    + destruct (Hflowed s Hsec) as [s1 ->]. rewrite build_returns by exact Hbuild.
      eexists _, _. split; [reflexivity |]. right. split; [reflexivity |].
      intros t' Ht'. injection Ht' as <-. exact Hvalid.
  - match goal with |- context [authorize o ?s0] =>
      destruct (Hflowed s0 Hsec) as [s1 ->] end.
    rewrite build_returns by exact Hbuild.
    eexists _, _. split; [reflexivity |]. right. split; [reflexivity | discriminate].
Qed.

(** X18.  What [get_calendar_service] of sync.py never does, whatever the
    outcome: it removes [token.json] only when the file is there and is
    not JSON; it starts the OAuth flow only when [credentials.json] has
    loaded and the token did not give valid credentials; it writes a token
    only after the flow, with the credentials the flow returned; and a
    service it returns was built by this very call. *)
Theorem service_setup_guards (o : Outside) (s : AuthState) :
  exists new,
    done (snd (get_calendar_service o s)) = done s ++ new
    /\ (RemovedToken ∈ new -> token s = TokenNotJson)
    /\ (RanFlow ∈ new ->
        (exists u, secrets s = SecretsJson (Ok u))
        /\ forall t, token s = TokenJson (Ok t) -> cred_valid t = false)
    /\ (forall c, WroteToken c ∈ new -> RanFlow ∈ new /\ flow_outcome o = Ok c)
    /\ (forall c, fst (get_calendar_service o s) = Ok c -> Built c ∈ new).
Proof.
  unfold get_calendar_service, read_token, authorize, build.
  destruct s as [tok sec dn]. simpl.
  destruct tok as [| | [t | ex]]; simpl;
    try destruct (cred_valid t) eqn:Hvalid; simpl;
    destruct (remove_error o); simpl;
    destruct sec as [| | [[] | ex']]; simpl;
    destruct (flow_outcome o) as [c0 | ex0] eqn:Hflow; simpl;
    destruct (write_outcome o); simpl;
    destruct (build_error o); simpl;
    rewrite <- ?app_assoc; simpl;
    (eexists; split; [first [reflexivity | symmetry; apply app_nil_r] |]);
    repeat split;
    repeat match goal with
    | |- forall _, _ => intro
    | H : _ ∈ [] |- _ => apply elem_of_nil in H; destruct H
    | H : _ ∈ _ :: _ |- _ => apply elem_of_cons in H as [H | H]
    | H : @eq AuthAction _ _ |- _ => first [discriminate H | injection H as ->]
    | H : Ok _ = Ok _ |- _ => injection H as ->
    | H : TokenJson _ = TokenJson _ |- _ => injection H as ->
    | H : Raise _ = Ok _ |- _ => discriminate H
    | H : @eq TokenFile _ _ |- _ => discriminate H
    end;
    eauto; try congruence;
    try (repeat first [apply list_elem_of_here | apply list_elem_of_further]).
Qed.

(** X19.  Once a call of [get_calendar_service] of sync.py has gone
    through (usable secrets, a flow that returns valid credentials, the
    token written, the service built), the next call finds the credentials
    in [token.json] and builds the service from them: it runs no flow,
    removes and writes nothing, and returns the same credentials.  The
    token is taken to be read back as the credentials it was written
    from, still valid: the code never refreshes credentials, so once they
    have expired the flow is run again. *)
Theorem next_call_reuses_the_stored_token (o : Outside) (s : AuthState) (c : Creds) :
  secrets s = SecretsJson (Ok tt) ->
  flow_outcome o = Ok c ->
  cred_valid c = true ->
  write_outcome o = Written ->
  build_error o = None ->
  exists c1 s1,
    get_calendar_service o s = (Ok c1, s1)
    /\ get_calendar_service o s1 = (Ok c1, act (Built c1) s1).
Proof.
  intros Hsec Hflow Hvalid Hwrite Hbuild.
  assert (Hstored : forall t s0, token s0 = TokenJson (Ok t) -> cred_valid t = true ->
            get_calendar_service o s0 = (Ok t, act (Built t) s0)).
  { intros t s0 Ht Hv. unfold get_calendar_service, read_token.
    rewrite Ht, Hv. apply build_returns. exact Hbuild. }
  assert (Hflowed : forall s0, secrets s0 = SecretsJson (Ok tt) ->
            authorize o s0
            = (Ok c, act (WroteToken c) (set_token (TokenJson (Ok c)) (act RanFlow s0)))).
  { intros s0 Hs0. unfold authorize. rewrite Hs0, Hflow, Hwrite. reflexivity. }
  unfold get_calendar_service at 1. unfold read_token.
  destruct (token s) as [| | [t | ex]] eqn:Htok.
  - rewrite (Hflowed s Hsec), build_returns by exact Hbuild.
    eexists _, _. split; [reflexivity |]. apply Hstored; [reflexivity | exact Hvalid].
  - destruct (remove_error o);
      match goal with |- context [authorize o ?s0] => rewrite (Hflowed s0 Hsec) end;
      rewrite build_returns by exact Hbuild;
      eexists _, _; (split; [reflexivity |]);
      (apply Hstored; [reflexivity | exact Hvalid]).
  - destruct (cred_valid t) eqn:Hv.
    + rewrite build_returns by exact Hbuild.
      eexists _, _. split; [reflexivity |]. apply Hstored; [exact Htok | exact Hv].
    + rewrite (Hflowed s Hsec), build_returns by exact Hbuild.
      eexists _, _. split; [reflexivity |]. apply Hstored; [reflexivity | exact Hvalid].
  - match goal with |- context [authorize o ?s0] => rewrite (Hflowed s0 Hsec) end.
    rewrite build_returns by exact Hbuild.
    eexists _, _. split; [reflexivity |]. apply Hstored; [reflexivity | exact Hvalid].
Qed.

(** X20.  With a [token.json] that is there but cannot be used (not JSON,
    or JSON the library rejects), the older script raises while reading
    it: it starts no flow, builds nothing and leaves the file as it is,
    so every later run fails the same way; sync.py, in the same state and
    with usable secrets, a successful flow and build, returns the service
    built with the credentials of the flow. *)
Theorem older_script_stops_at_an_unusable_token (o : Outside) (s : AuthState) :
  token s = TokenNotJson \/ (exists ex, token s = TokenJson (Raise ex)) ->
  (exists ex, legacy_get_calendar_service o s = (Raise ex, s))
  /\ (forall c,
        secrets s = SecretsJson (Ok tt) ->
        flow_outcome o = Ok c ->
        build_error o = None ->
        exists s', get_calendar_service o s = (Ok c, s')).
Proof.
  intros Htok. split.
  - unfold legacy_get_calendar_service.
    destruct Htok as [-> | [ex ->]]; eauto.
  - intros c Hsec Hflow Hbuild.
    assert (Hflowed : forall s0, secrets s0 = SecretsJson (Ok tt) ->
              exists s1, authorize o s0 = (Ok c, s1)).
    { intros s0 Hs0. unfold authorize. rewrite Hs0, Hflow.
      destruct (write_outcome o); eauto. }
    unfold get_calendar_service, read_token.
    destruct Htok as [-> | [ex ->]].
    + destruct (remove_error o);
        match goal with |- context [authorize o ?s0] =>
          destruct (Hflowed s0 Hsec) as [s1 ->] end;
        rewrite build_returns by exact Hbuild; eauto.
    + match goal with |- context [authorize o ?s0] =>
        destruct (Hflowed s0 Hsec) as [s1 ->] end.
      rewrite build_returns by exact Hbuild. eauto.
Qed.

End AuthFacts.

(** ** The older script *)

Section OlderScript.

Context {R : Type} (env : Env R).

Lemma older_turn_of_candidate start ts c rest :
  instant start = Some ts ->
  HumanForce_Sync.match_existing start (c :: rest) = Ok (Some c)
  /\ older_rule ts c = true
  \/ HumanForce_Sync.match_existing start (c :: rest)
     = HumanForce_Sync.match_existing start rest
     /\ older_rule ts c = false
  \/ (exists ex, HumanForce_Sync.match_existing start (c :: rest) = Raise ex)
     /\ ~ older_readable c.
Proof.
  intros Hs. apply instant_aware in Hs as (w & tz & -> & ->).
  unfold older_rule, older_readable, candidate_instant. simpl.
  destruct (truthy (get_start_dateTime c)) eqn:Hts; simpl; [| auto].
  destruct (truthy (get_end_dateTime c)) eqn:Hte; simpl; [| auto].
  destruct (get_start_dateTime c) as [[| | d | wn | wc off] |]; simpl in *;
    try discriminate;
    try (right; right; split; [eauto |]; intros [Hf | [[t Ht] _]]; discriminate).
  - destruct (get_end_dateTime c) as [[| | de | wne | wce offe] |]; simpl in *;
      try discriminate;
      try (right; right; split; [eauto |]; intros [Hf | [_ [dt Hdt]]]; discriminate);
      try (right; right; split; [eauto |]; intros [Hf | [[t Ht] _]]; discriminate).
  - destruct (get_end_dateTime c) as [[| | de | wne | wce offe] |]; simpl in *;
      try discriminate;
      try (right; right; split; [eauto |]; intros [Hf | [_ [dt Hdt]]]; discriminate);
      try (right; right; split; [eauto |]; intros [Hf | [[t Ht] _]]; discriminate).
  - unfold within_tolerance.
    destruct (get_end_dateTime c) as [[| | de | wne | wce offe] |]; simpl in *;
      try discriminate;
      try (right; right; split; [eauto |]; intros [Hf | [_ [dt Hdt]]]; discriminate);
      destruct (Z.abs _ <=? _); auto.
Qed.

(** X21.  The matching loop of the older script, for a source start that
    denotes the instant [ts]: whenever it returns, its answer is the first
    candidate that carries a [dateTime] both for its start and for its
    end and starts at most 18000 seconds from [ts]; the summary plays no
    part, and a candidate without an end [dateTime] is passed over.  It
    does return on every sequence of candidates it can read. *)
Theorem older_matcher_selects_on_time_alone (start : PyTime) (ts : Z)
    (cands : list RemoteEvent) :
  instant start = Some ts ->
  (forall r, HumanForce_Sync.match_existing start cands = Ok r ->
             r = List.find (older_rule ts) cands)
  /\ (Forall older_readable cands ->
      HumanForce_Sync.match_existing start cands = Ok (List.find (older_rule ts) cands)).
Proof.
  intros Hs. split.
  - induction cands as [| c rest IH]; intros r.
    + simpl. congruence.
    + simpl List.find.
      destruct (older_turn_of_candidate start ts c rest Hs)
        as [[-> ->] | [[-> ->] | [[ex ->] _]]]; [congruence | exact (IH r) | discriminate].
  - induction 1 as [| c rest Hc _ IH]; [reflexivity |].
    simpl List.find.
    destruct (older_turn_of_candidate start ts c rest Hs)
      as [[-> ->] | [[-> ->] | [_ Hbad]]]; [reflexivity | exact IH | contradiction].
Qed.

Lemma older_print m (s : RunState R) :
  HumanForce_Sync.print m s
  = (Ok tt, {| stats := stats s; world := world s; trace := trace s ++ [CallLog m] |}).
Proof. reflexivity. Qed.

Lemma older_process_event_prepared zone event start end_ g_event (s : RunState R) :
  prepare zone event = Ok (start, end_, g_event) ->
  HumanForce_Sync.process_event env zone event s
  = try_except (HumanForce_Sync.guarded_body env event start end_ g_event)
               (fun ex => HumanForce_Sync.print (LogError (ev_summary event) ex)) s.
Proof.
  unfold prepare, HumanForce_Sync.process_event, bind, lift.
  destruct (normalize zone (ev_start event)) as [start' | ex]; [| discriminate].
  destruct (normalize zone (ev_end event)) as [end' | ex]; [| discriminate].
  destruct (Sync.build_payload event start' end') as [g | ex]; [| discriminate].
  intros H. injection H as <- <- <-. reflexivity.
Qed.

(** One turn of the older loop, for an event that reaches the guard: it
    returns, having made one listing, with the range of the event itself
    as its window, and one print. *)
Lemma older_turn zone event start end_ g_event (s : RunState R) :
  prepare zone event = Ok (start, end_, g_event) ->
  exists s' tail,
    HumanForce_Sync.process_event env zone event s = (Ok tt, s')
    /\ stats s' = stats s
    /\ trace s' = trace s ++ CallList (HumanForce_Sync.window_query start end_) :: tail
    /\ Forall (fun a => is_list_call a = false) tail
    /\ length (logged tail) = 1%nat.
Proof.
  intros Hp. rewrite (older_process_event_prepared zone event start end_ g_event s Hp).
  unfold try_except.
  unfold HumanForce_Sync.guarded_body, HumanForce_Sync.print, bind, lift, interact.
  assert (Hdone : forall (s' : RunState R) tail,
            stats s' = stats s ->
            trace s' = trace s ++ CallList (HumanForce_Sync.window_query start end_) :: tail ->
            Forall (fun a => is_list_call a = false) tail ->
            length (logged tail) = 1%nat ->
            exists s'' tail',
              (Ok tt, s') = (Ok tt, s'')
              /\ stats s'' = stats s
              /\ trace s'' = trace s ++ CallList (HumanForce_Sync.window_query start end_) :: tail'
              /\ Forall (fun a => is_list_call a = false) tail'
              /\ length (logged tail') = 1%nat) by eauto 10.
  destruct (events_list env _ (world s)) as [[results | ex] w1]; simpl.
  2:{ (eapply Hdone; [reflexivity | simpl; repeat rewrite <- app_assoc; reflexivity
                    | simpl; repeat constructor | reflexivity]). }
  destruct (HumanForce_Sync.match_existing _ _) as [[m |] | ex]; simpl.
  - destruct (get_id m) as [event_id | ex]; simpl.
    2:{ (eapply Hdone; [reflexivity | simpl; repeat rewrite <- app_assoc; reflexivity
                    | simpl; repeat constructor | reflexivity]). }
    destruct (events_update env _ _ _ w1) as [[[] | ex] w2]; simpl;
      (eapply Hdone; [reflexivity | simpl; repeat rewrite <- app_assoc; reflexivity
                    | simpl; repeat constructor | reflexivity]).
  - destruct (events_insert env _ _ w1) as [[[] | ex] w2]; simpl;
      (eapply Hdone; [reflexivity | simpl; repeat rewrite <- app_assoc; reflexivity
                    | simpl; repeat constructor | reflexivity]).
  - (eapply Hdone; [reflexivity | simpl; repeat rewrite <- app_assoc; reflexivity
                    | simpl; repeat constructor | reflexivity]).
Qed.

Lemma older_listing_cons zone e events start end_ g_event :
  prepare zone e = Ok (start, end_, g_event) ->
  omap (older_query_of zone) (e :: events)
  = HumanForce_Sync.window_query start end_ :: omap (older_query_of zone) events.
Proof. intros Hp. simpl. unfold older_query_of at 1. rewrite Hp. reflexivity. Qed.

Lemma older_loop zone events :
  Forall (prepared zone) events ->
  forall s : RunState R,
  exists s',
    for_each (HumanForce_Sync.process_event env zone) events s = (Ok tt, s')
    /\ stats s' = stats s
    /\ list_calls (trace s')
       = list_calls (trace s) ++ (CallList <$> omap (older_query_of zone) events)
    /\ length (logged (trace s')) = (length (logged (trace s)) + length events)%nat.
Proof.
  induction 1 as [| e events (start & end_ & g_event & Hp) _ IH]; intros s.
  - exists s. simpl. rewrite app_nil_r. repeat split. lia.
  - destruct (older_turn zone e start end_ g_event s Hp)
      as (s1 & tail & Hturn & Hst & Htr & Hno & Hlog).
    destruct (IH s1) as (s' & Hloop & Hst' & Hcalls & Hlogs).
    exists s'. split; [simpl; unfold bind; rewrite Hturn; exact Hloop |].
    split; [congruence |]. split.
    + rewrite Hcalls, Htr, (older_listing_cons zone e events start end_ g_event Hp).
      change (CallList ?q :: tail) with ([CallList q] ++ tail).
      rewrite !list_calls_app, (list_calls_none tail Hno), app_nil_r, <- app_assoc.
      reflexivity.
    + rewrite Hlogs, Htr. change (CallList ?q :: tail) with ([CallList q] ++ tail).
      rewrite !logged_app, !length_app, Hlog. simpl. lia.
Qed.

Lemma older_queries zone (events : list SourceEvent) q :
  q ∈ omap (older_query_of zone) events ->
  exists e start end_ g_event,
    e ∈ events /\ prepare zone e = Ok (start, end_, g_event)
    /\ q = HumanForce_Sync.window_query start end_.
Proof.
  intros Hq. apply list_elem_of_omap in Hq as (e & He & Hq).
  unfold older_query_of in Hq.
  destruct (prepare zone e) as [[[start end_] g_event] | ex] eqn:Hp; [| discriminate].
  injection Hq as <-. eauto 10.
Qed.

Lemma older_queries_length zone events :
  Forall (prepared zone) events ->
  length (omap (older_query_of zone) events) = length events.
Proof.
  induction 1 as [| e events (start & end_ & g_event & Hp) _ IH]; [reflexivity |].
  rewrite (older_listing_cons zone e events start end_ g_event Hp). simpl. rewrite IH.
  reflexivity.
Qed.

(** X22.  The upload of the older script, with usable credentials and its
    fixed zone resolved, on events that reach the guard (their bounds are
    datetimes and the zone localizes those that are naive; the
    normalisation stands outside the guard here as well): it returns
    normally whatever the calendar answers, faults included, and reports
    nothing back (no counter moves); it queries the calendar once per
    event, in the order of the events, with the range of the event itself
    as the window and five results at most; and it prints exactly one line
    per event. *)
Theorem older_upload_goes_through_every_event (zone : TimeZone)
    (events : list SourceEvent) (w w0 : R) :
  get_calendar_service env w = (Ok tt, w0) ->
  pytz_timezone env "Australia/Melbourne" = Some zone ->
  Forall (prepared zone) events ->
  exists s',
    HumanForce_Sync.upload_events_to_gcal env events (init_state w) = (Ok tt, s')
    /\ stats s' = stats_zero
    /\ list_calls (trace s') = CallList <$> omap (older_query_of zone) events
    /\ length (list_calls (trace s')) = length events
    /\ Forall (fun a => forall q, a = CallList q ->
                 q_maxResults q = 5
                 /\ exists e start end_ g_event,
                      e ∈ events /\ prepare zone e = Ok (start, end_, g_event)
                      /\ q_timeMin q = isoformat start
                      /\ q_timeMax q = isoformat end_)
              (list_calls (trace s'))
    /\ length (logged (trace s')) = length events.
Proof.
  intros Hsvc Hzone Hall.
  unfold HumanForce_Sync.upload_events_to_gcal, bind, interact, ret, init_state.
  simpl. rewrite Hsvc, Hzone. simpl.
  destruct (older_loop zone events Hall
              {| stats := stats_zero; world := w0; trace := [CallService] |})
    as (s' & Hloop & Hst & Hcalls & Hlogs).
  exists s'. split; [exact Hloop |]. simpl in *. split; [exact Hst |].
  split; [exact Hcalls |].
  split; [rewrite Hcalls, length_fmap; apply older_queries_length; exact Hall |].
  split; [| exact Hlogs].
  rewrite Hcalls. apply Forall_forall. intros a Ha q ->.
  apply list_elem_of_fmap in Ha as (q' & Heq & Hq). injection Heq as ->.
  apply older_queries in Hq as (e & start & end_ & g_event & He & Hp & ->).
  split; [reflexivity |]. exists e, start, end_, g_event. auto.
Qed.

End OlderScript.

(** ** Duplicates in one batch, and the reach of the window *)

Section BatchFacts.

Import FaithfulStore.


(** X24.  The window of sync.py is wide enough for its own matching rule:
    for an event whose bounds carry zone objects with one offset each (as
    pytz gives them), whose window can be computed and that does not end
    before it starts, the window queried runs from five hours before the
    start to five hours after the end, and every stored event that the
    rule accepts starts inside it, so the store never withholds a match
    because of the window.  The window of the older script is not: it is
    the range of the event itself, and a stored event that starts before
    the event, up to 18000 seconds earlier, is accepted by the rule of the
    older script and left out of the window it queries. *)
Theorem window_reaches_every_match (cfg : Config) (ws we : Z) (tzs tze : tzinfo)
    (ts te : Z) (q : ListQuery) (summary : string) (item : string * Payload) :
  fixed tzs = true -> fixed tze = true ->
  instant (DateTime ws (Some tzs)) = Some ts ->
  instant (DateTime we (Some tze)) = Some te ->
  ts <= te ->
  Sync.window_query cfg (DateTime ws (Some tzs)) (DateTime we (Some tze)) = Ok q ->
  (iso_instant (q_timeMin q) = Some (ts - 5 * hour)
   /\ iso_instant (q_timeMax q) = Some (te + 5 * hour)
   /\ (qualifies ts summary (render item) = true ->
       in_window (ts - 5 * hour) (te + 5 * hour) item = true))
  /\ (iso_instant (q_timeMin (HumanForce_Sync.window_query
                                (DateTime ws (Some tzs)) (DateTime we (Some tze))))
      = Some ts
      /\ iso_instant (q_timeMax (HumanForce_Sync.window_query
                                   (DateTime ws (Some tzs)) (DateTime we (Some tze))))
         = Some te
      /\ forall t,
           start_instant (snd item) = Some t ->
           dateTime (p_end (snd item)) <> IsoEmpty ->
           t < ts -> ts - t <= 18000 * second ->
           older_rule ts (render item) = true /\ in_window ts te item = false).
Proof.
  intros Hfs Hfe Hts Hte Hle Hq.
  rewrite window_query_bounds in Hq.
  destruct (representable (ws - 5 * hour)); [| discriminate Hq].
  destruct (representable (we + 5 * hour)); [| discriminate Hq].
  injection Hq as <-. simpl in Hts, Hte. injection Hts as <-. injection Hte as <-.
  split; [split; [| split] | split; [| split]].
  - simpl. rewrite (fixed_utcoffset tzs (ws - 5 * hour) ws Hfs). f_equal. lia.
  - simpl. rewrite (fixed_utcoffset tze (we + 5 * hour) we Hfe). f_equal. lia.
  - unfold qualifies, in_window. rewrite render_instant.
    destruct (start_instant (snd item)) as [t |]; [| discriminate].
    intros H. apply andb_true_iff in H as [H _]. apply Z.leb_le in H.
    unfold hour, second in *. apply andb_true_iff. split; apply Z.leb_le; lia.
  - reflexivity.
  - reflexivity.
  - intros t Ht Hend Hlt Hclose. split.
    + unfold older_rule. rewrite render_instant, Ht. simpl.
      unfold start_instant, iso_instant in Ht.
      destruct (dateTime (p_start (snd item))); try discriminate.
      destruct (dateTime (p_end (snd item))); try contradiction; simpl;
        apply Z.leb_le; unfold second in *; lia.
    + unfold in_window. rewrite Ht. apply andb_false_iff. left. apply Z.leb_gt. exact Hlt.
Qed.

End BatchFacts.

(** ** The further properties on the sample data *)

Lemma listing_calendar_log_returns listing : log_returns (Cases.calendar_listing listing).
Proof. intros m w. reflexivity. Defined.

Lemma pair_is_timed : Forall timed_event Sample.pair_of_shifts.
Proof. repeat constructor. Defined.

Lemma pair_is_prepared : Forall (prepared Sample.melbourne) Sample.pair_of_shifts.
Proof. settle_prepared. Defined.

(** The turn of the shift whose insert fails: one listing, one insert. *)
Lemma failing_insert_turn_calls :
  prepare Sample.melbourne (Sample.shift "C" 5)
  = Ok (Sample.at_hour 5, Sample.at_hour 6, Sample.shift_payload "C" 5)
  /\ exists tail,
       trace (snd (Sync.process_event Sample.flaky Sample.cfg Sample.melbourne
                     (Sample.shift "C" 5) (started Sample.quiet)))
       = trace (started Sample.quiet) ++ tail
       /\ store_calls tail
          = [CallList (Sample.shift_query 5);
             CallInsert "primary" (Sample.shift_payload "C" 5)].
Proof.
  assert (Hp : prepare Sample.melbourne (Sample.shift "C" 5)
               = Ok (Sample.at_hour 5, Sample.at_hour 6, Sample.shift_payload "C" 5))
    by (vm_compute; reflexivity).
  split; [exact Hp |].
  destruct (turn_makes_one_listing_and_at_most_one_write Sample.flaky Sample.cfg
              Sample.melbourne (Sample.shift "C" 5) _ _ _ (started Sample.quiet) Hp)
    as (tail & Htr & Hcalls).
  exists tail. split; [exact Htr |].
  rewrite Hcalls. vm_compute. reflexivity.
Defined.

(** The five sample shifts: five listings, in the order of the shifts. *)
Lemma five_listings_in_order :
  log_returns Sample.flaky
  /\ fst (get_calendar_service Sample.flaky Sample.quiet) = Ok tt
  /\ pytz_timezone Sample.flaky (TIMEZONE Sample.cfg) = Some Sample.melbourne
  /\ Forall (prepared Sample.melbourne) Sample.five
  /\ listings_of Sample.cfg Sample.melbourne Sample.five
     = CallList <$> (Sample.shift_query <$> [1; 3; 5; 7; 9])
  /\ exists st s',
       Sync.run Sample.flaky Sample.cfg Sample.five Sample.quiet = (Ok st, s')
       /\ list_calls (trace s') = listings_of Sample.cfg Sample.melbourne Sample.five.
Proof.
  split; [exact flaky_log_returns |]. split; [reflexivity |]. split; [reflexivity |].
  split; [exact five_are_prepared |]. split; [vm_compute; reflexivity |].
  exact (listings_follow_the_order_of_events Sample.flaky Sample.cfg Sample.melbourne
           Sample.five Sample.quiet flaky_log_returns eq_refl eq_refl five_are_prepared).
Defined.

Lemma naive_item_unreadable : unreadable Cases.naive_item.
Proof. split; reflexivity. Defined.

Lemma shift_a_is_prepared :
  prepare Sample.melbourne (Sample.shift "Shift A" 9)
  = Ok (Sample.at_hour 9, Sample.at_hour 10, Sample.shift_payload "Shift A" 9).
Proof. vm_compute. reflexivity. Defined.

Lemma shift_a_starts : start_at Sample.melbourne (Sample.shift "Shift A" 9) = Some (-2 * hour).
Proof. vm_compute. reflexivity. Defined.

Lemma shift_a_query :
  query_of Sample.cfg Sample.melbourne (Sample.shift "Shift A" 9)
  = Some (Sample.shift_query 9).
Proof. vm_compute. reflexivity. Defined.

(** A start without offset in front of an exact match: one error, one
    listing, no write. *)
Lemma naive_item_fails_the_shift :
  log_returns (Cases.calendar_listing
                 [Cases.naive_item; Sample.item "r5" "Shift A" (9 * 3600)])
  /\ prepare Sample.melbourne (Sample.shift "Shift A" 9)
     = Ok (Sample.at_hour 9, Sample.at_hour 10, Sample.shift_payload "Shift A" 9)
  /\ start_at Sample.melbourne (Sample.shift "Shift A" 9) = Some (-2 * hour)
  /\ query_of Sample.cfg Sample.melbourne (Sample.shift "Shift A" 9)
     = Some (Sample.shift_query 9)
  /\ unreadable Cases.naive_item
  /\ exists ex s2 tail,
       Sync.match_existing (Sample.at_hour 9) (ev_summary (Sample.shift "Shift A" 9))
         ([] ++ Cases.naive_item :: [Sample.item "r5" "Shift A" (9 * 3600)]) = Raise ex
       /\ Sync.process_event
            (Cases.calendar_listing [Cases.naive_item; Sample.item "r5" "Shift A" (9 * 3600)])
            Sample.cfg Sample.melbourne (Sample.shift "Shift A" 9) (started Sample.quiet)
          = (Ok tt, s2)
       /\ stats s2 = bump_errors (stats (started Sample.quiet))
       /\ trace s2 = trace (started Sample.quiet) ++ tail
       /\ store_calls tail = [CallList (Sample.shift_query 9)].
Proof.
  split; [apply listing_calendar_log_returns |]. split; [exact shift_a_is_prepared |].
  split; [exact shift_a_starts |]. split; [exact shift_a_query |].
  split; [exact naive_item_unreadable |].
  exact (item_without_offset_fails_the_event
           (Cases.calendar_listing [Cases.naive_item; Sample.item "r5" "Shift A" (9 * 3600)])
           Sample.cfg Sample.melbourne (Sample.shift "Shift A" 9)
           (Sample.at_hour 9) (Sample.at_hour 10)
           (Sample.shift_payload "Shift A" 9) (Sample.shift_query 9) (started Sample.quiet)
           {| items := Some [Cases.naive_item; Sample.item "r5" "Shift A" (9 * 3600)] |}
           Sample.quiet [] Cases.naive_item [Sample.item "r5" "Shift A" (9 * 3600)]
           (-2 * hour) (listing_calendar_log_returns _) shift_a_is_prepared shift_a_starts
           shift_a_query eq_refl eq_refl (Forall_nil_2 _) naive_item_unreadable).
Defined.

(** A match without identifier: one error, one listing, no write. *)
Lemma anonymous_match_is_an_error :
  log_returns (Cases.calendar_listing [Cases.anonymous_item])
  /\ prepare Sample.melbourne (Sample.shift "Shift A" 9)
     = Ok (Sample.at_hour 9, Sample.at_hour 10, Sample.shift_payload "Shift A" 9)
  /\ query_of Sample.cfg Sample.melbourne (Sample.shift "Shift A" 9)
     = Some (Sample.shift_query 9)
  /\ Sync.match_existing (Sample.at_hour 9) (ev_summary (Sample.shift "Shift A" 9))
       [Cases.anonymous_item]
     = Ok (Some Cases.anonymous_item)
  /\ re_id Cases.anonymous_item = None
  /\ exists s2 tail before,
       Sync.process_event (Cases.calendar_listing [Cases.anonymous_item])
         Sample.cfg Sample.melbourne (Sample.shift "Shift A" 9) (started Sample.quiet)
       = (Ok tt, s2)
       /\ stats s2 = bump_errors (stats (started Sample.quiet))
       /\ trace s2 = trace (started Sample.quiet) ++ tail
       /\ store_calls tail = [CallList (Sample.shift_query 9)]
       /\ trace s2
          = before ++ log_entry (Cases.calendar_listing [Cases.anonymous_item])
                        (LogError (ev_summary (Sample.shift "Shift A" 9)) (KeyError "id")).
Proof.
  assert (Hm : Sync.match_existing (Sample.at_hour 9)
                 (ev_summary (Sample.shift "Shift A" 9)) [Cases.anonymous_item]
               = Ok (Some Cases.anonymous_item)) by (vm_compute; reflexivity).
  split; [apply listing_calendar_log_returns |]. split; [exact shift_a_is_prepared |].
  split; [exact shift_a_query |]. split; [exact Hm |]. split; [reflexivity |].
  exact (matched_item_without_id_is_an_error
           (Cases.calendar_listing [Cases.anonymous_item])
           Sample.cfg Sample.melbourne (Sample.shift "Shift A" 9)
           (Sample.at_hour 9) (Sample.at_hour 10)
           (Sample.shift_payload "Shift A" 9) (Sample.shift_query 9) (started Sample.quiet)
           {| items := Some [Cases.anonymous_item] |} Sample.quiet Cases.anonymous_item
           (listing_calendar_log_returns _) shift_a_is_prepared shift_a_query
           eq_refl Hm eq_refl).
Defined.

Lemma pair_has_windows :
  Forall (fun e => is_Some (query_of Sample.cfg Sample.melbourne e)) Sample.pair_of_shifts.
Proof.
  repeat (apply Forall_cons_2; [eexists; vm_compute; reflexivity |]). apply Forall_nil_2.
Defined.

(** Two shifts uploaded next to a private appointment. *)
Lemma upload_next_to_an_appointment :
  Sample.zones (TIMEZONE Sample.cfg) = Some Sample.melbourne
  /\ Forall (prepared Sample.melbourne) Sample.pair_of_shifts
  /\ Forall (fun e => is_Some (query_of Sample.cfg Sample.melbourne e)) Sample.pair_of_shifts
  /\ exists st s',
       Sync.run (FaithfulStore.env Sample.zones) Sample.cfg Sample.pair_of_shifts
         Cases.private_store = (Ok st, s')
       /\ errors st = 0%nat
       /\ size (world s') = (size Cases.private_store + created st)%nat
       /\ (forall id, is_Some (Cases.private_store !! id) -> is_Some (world s' !! id)).
Proof.
  split; [reflexivity |]. split; [exact pair_is_prepared |]. split; [exact pair_has_windows |].
  destruct (faithful_run_adds_what_it_creates Sample.zones Sample.cfg Sample.melbourne
              Sample.pair_of_shifts Cases.private_store eq_refl pair_is_prepared)
    as (st & s' & Hrun & _ & Herr & Hsize & Hdom).
  exists st, s'. split; [exact Hrun |]. split; [exact (Herr pair_has_windows) |].
  split; [exact Hsize | exact Hdom].
Defined.

Lemma dentist_is_foreign :
  p_summary (Sample.shift_payload "Dentist" 9) ∉ (ev_summary <$> Sample.pair_of_shifts).
Proof.
  intros H. apply elem_of_cons in H as [H | H]; [discriminate H |].
  apply elem_of_cons in H as [H | H]; [discriminate H |].
  apply elem_of_nil in H. exact H.
Defined.

(** The private appointment is still there after the upload. *)
Lemma appointment_survives_the_upload :
  Sample.zones (TIMEZONE Sample.cfg) = Some Sample.melbourne
  /\ Forall timed_event Sample.pair_of_shifts
  /\ Cases.private_store !! "r9" = Some (Sample.shift_payload "Dentist" 9)
  /\ (p_summary (Sample.shift_payload "Dentist" 9)
        ∉ (ev_summary <$> Sample.pair_of_shifts))
  /\ world (snd (Sync.run (FaithfulStore.env Sample.zones) Sample.cfg
                   Sample.pair_of_shifts Cases.private_store)) !! "r9"
     = Some (Sample.shift_payload "Dentist" 9).
Proof.
  assert (Hlook : Cases.private_store !! "r9" = Some (Sample.shift_payload "Dentist" 9))
    by (vm_compute; reflexivity).
  split; [reflexivity |]. split; [exact pair_is_timed |]. split; [exact Hlook |].
  split; [exact dentist_is_foreign |].
  exact (foreign_summaries_are_left_alone Sample.zones Sample.cfg Sample.melbourne
           Sample.pair_of_shifts Cases.private_store "r9" _ eq_refl pair_is_timed
           Hlook dentist_is_foreign).
Defined.

Ltac settle_component :=
  let Hv := fresh "Hv" in
  intros Hv;
  first [ discriminate Hv
        | split; eexists; reflexivity
        | eexists _, _, _, _;
          split; [reflexivity |]; split; [reflexivity |];
          split; [exact I |]; split; [exact I |];
          split; vm_compute; reflexivity ].

Lemma this_month_is_bounded :
  Forall (fun c => vevent c -> bounded c) Cases.this_month.
Proof. repeat (apply Forall_cons_2; [settle_component |]). apply Forall_nil_2. Defined.

(** The roster of this month: four components, two events. *)
Lemma this_month_gives_two_events :
  Forall (fun c => vevent c -> bounded c) Cases.this_month
  /\ exists events,
       Pipeline.parse_events Cases.strip Cases.this_month = Ok events
       /\ Forall2 (fun c e => Pipeline.parse_component Cases.strip c = Ok e)
            (filter vevent Cases.this_month) events
       /\ length events = length (filter vevent Cases.this_month).
Proof.
  split; [exact this_month_is_bounded |].
  exact (parse_returns_one_event_per_vevent Cases.strip Cases.this_month
           this_month_is_bounded).
Defined.

Lemma on_call_in_broken_month : Cases.open_ended "On call" 8 ∈ Cases.broken_month.
Proof. apply list_elem_of_further, list_elem_of_further, list_elem_of_here. Defined.

Lemma on_call_is_unbounded : ~ bounded (Cases.open_ended "On call" 8).
Proof. intros [_ [x Hx]]. discriminate Hx. Defined.

(** A shift without end makes the whole file fail. *)
Lemma open_ended_shift_fails_the_file :
  Cases.open_ended "On call" 8 ∈ Cases.broken_month
  /\ vevent (Cases.open_ended "On call" 8)
  /\ ~ bounded (Cases.open_ended "On call" 8)
  /\ Pipeline.parse_events Cases.strip Cases.broken_month = Raise Pipeline.no_dt.
Proof.
  split; [exact on_call_in_broken_month |]. split; [reflexivity |].
  split; [exact on_call_is_unbounded |].
  exact (vevent_without_bound_fails_the_file Cases.strip Cases.broken_month
           (Cases.open_ended "On call" 8) on_call_in_broken_month eq_refl
           on_call_is_unbounded).
Defined.

(** The shift [Early], which has no description, is uploaded with an
    empty one. *)
Lemma early_shift_payload_texts :
  Pipeline.parse_component Cases.strip (Cases.shift_component "Early" 9)
  = Ok ParsedCase.early_event
  /\ Sync.build_payload ParsedCase.early_event (Sample.at_hour 9) (Sample.at_hour 10)
     = Ok ParsedCase.early_payload
  /\ prepare Sample.melbourne ParsedCase.early_event
     = Ok (Sample.at_hour 9, Sample.at_hour 10, ParsedCase.early_payload)
  /\ p_description ParsedCase.early_payload = EmptyString
  /\ p_summary ParsedCase.early_payload = "Early".
Proof.
  split; [reflexivity |]. split; [reflexivity |]. split; [vm_compute; reflexivity |].
  exact (parsed_event_payload_texts Cases.strip (Cases.shift_component "Early" 9)
           ParsedCase.early_event (Sample.at_hour 9) (Sample.at_hour 10)
           ParsedCase.early_payload eq_refl eq_refl).
Defined.

Lemma sample_sync_log_returns walks : sync_log_returns (Cases.sync_env walks).
Proof. intros m w. reflexivity. Defined.

Lemma next_roster_is_listed : "roster_next.ics" ∈ Cases.files.
Proof. apply list_elem_of_further, list_elem_of_here. Defined.

(** A shift without end in the second file: the sync stops before the
    calendar is touched. *)
Lemma broken_roster_stops_the_sync :
  sync_log_returns (Cases.sync_env Cases.broken_walk_of)
  /\ "roster_next.ics" ∈ Cases.files
  /\ Cases.open_ended "On call" 8 ∈ Cases.broken_walk_of "roster_next.ics"
  /\ vevent (Cases.open_ended "On call" 8)
  /\ ~ bounded (Cases.open_ended "On call" 8)
  /\ exists w',
       Pipeline.do_sync Cases.strip (Cases.sync_env Cases.broken_walk_of) Sample.cfg []
       = (Raise Pipeline.no_dt, w', []).
Proof.
  split; [apply sample_sync_log_returns |]. split; [exact next_roster_is_listed |].
  split; [exact on_call_in_broken_month |]. split; [reflexivity |].
  split; [exact on_call_is_unbounded |].
  exact (unbounded_vevent_aborts_before_the_calendar Cases.strip
           (Cases.sync_env Cases.broken_walk_of) Sample.cfg Cases.broken_walk_of
           Cases.files "roster_next.ics" (Cases.open_ended "On call" 8) []
           (sample_sync_log_returns _) (fun w0 => eq_refl) (fun q w0 _ => eq_refl)
           next_roster_is_listed on_call_in_broken_month eq_refl on_call_is_unbounded).
Defined.

Lemma rosters_are_timed q :
  q ∈ Cases.files ->
  Forall (fun c => vevent c -> timed_component Sample.melbourne c) (Cases.walk_of q).
Proof.
  intros Hq. apply elem_of_cons in Hq as [-> | Hq].
  - repeat (apply Forall_cons_2; [settle_component |]). apply Forall_nil_2.
  - apply elem_of_cons in Hq as [-> | Hq].
    + repeat (apply Forall_cons_2; [settle_component |]). apply Forall_nil_2.
    + apply elem_of_nil in Hq. destruct Hq.
Defined.

(** Two roster files with three shifts in all: three listings, in the
    order of the files. *)
Lemma two_rosters_are_uploaded_in_order :
  sync_log_returns (Cases.sync_env Cases.walk_of)
  /\ pytz_timezone (Pipeline.calendar (Cases.sync_env Cases.walk_of)) (TIMEZONE Sample.cfg)
     = Some Sample.melbourne
  /\ exists st w' tr events,
       Pipeline.do_sync Cases.strip (Cases.sync_env Cases.walk_of) Sample.cfg []
       = (Ok st, w', tr)
       /\ Pipeline.parse_events Cases.strip (concat (Cases.walk_of <$> Cases.files))
          = Ok events
       /\ (created st + updated st + errors st)%nat
          = length (filter vevent (concat (Cases.walk_of <$> Cases.files)))
       /\ list_calls tr = listings_of Sample.cfg Sample.melbourne events.
Proof.
  split; [apply sample_sync_log_returns |]. split; [reflexivity |].
  exact (sync_uploads_every_parsed_event_in_file_order Cases.strip
           (Cases.sync_env Cases.walk_of) Sample.cfg Sample.melbourne Cases.walk_of
           Cases.files [] (sample_sync_log_returns _) (fun w0 => eq_refl) eq_refl
           (fun w0 => eq_refl) (fun q w0 _ => eq_refl) rosters_are_timed).
Defined.

Lemma one_shift_is_prepared : Forall (prepared Sample.melbourne) [Sample.shift "A" 1].
Proof. settle_prepared. Defined.

(** A day of leave after one shift: the run is recorded with one error. *)
Lemma leave_day_is_recorded_as_one_error :
  log_returns Sample.flaky
  /\ Forall (prepared Sample.melbourne) [Sample.shift "A" 1]
  /\ ~ timed_event Sample.all_day
  /\ exists ex s',
       Sync.run Sample.flaky Sample.cfg
         ([Sample.shift "A" 1] ++ Sample.all_day :: [Sample.shift "B" 2]) Sample.quiet
       = (Raise ex, s')
       /\ list_calls (trace s')
          = listings_of Sample.cfg Sample.melbourne [Sample.shift "A" 1]
       /\ (created (stats s') + updated (stats s') + errors (stats s'))%nat
          = length [Sample.shift "A" 1]
       /\ History.h_created (Pipeline.sync_now_record "2025-08-14 10:00:00" (Raise ex)) = 0
       /\ History.h_updated (Pipeline.sync_now_record "2025-08-14 10:00:00" (Raise ex)) = 0
       /\ History.h_errors (Pipeline.sync_now_record "2025-08-14 10:00:00" (Raise ex)) = 1
       /\ Pipeline.headless_sync "2025-08-14 10:00:00" (Raise ex) History.Missing
          = Raise ex.
Proof.
  split; [exact flaky_log_returns |]. split; [exact one_shift_is_prepared |].
  split; [exact all_day_is_not_timed |].
  exact (aborted_run_is_recorded_as_one_error Sample.flaky Sample.cfg Sample.melbourne
           [Sample.shift "A" 1] Sample.all_day [Sample.shift "B" 2] Sample.quiet
           Sample.quiet "2025-08-14 10:00:00" History.Missing flaky_log_returns eq_refl
           eq_refl one_shift_is_prepared all_day_is_not_timed).
Defined.

Lemma two_entries_fit : (length (Sample.entries 2) <= History.HISTORY_MAX)%nat.
Proof. vm_compute. repeat constructor. Defined.

(** Two records are read back as they were saved. *)
Lemma two_records_round_trip :
  (length (Sample.entries 2) <= History.HISTORY_MAX)%nat
  /\ History._load_history (History._save_history (Sample.entries 2)) = Sample.entries 2.
Proof.
  split; [exact two_entries_fit |].
  exact (history_round_trip (Sample.entries 2) two_entries_fit).
Defined.

(** A record appended to a corrupt history file starts a new history;
    on a file that holds a JSON object nothing is recorded. *)
Lemma record_after_a_corrupt_file :
  History.record_history History.Corrupt (Sample.entry 1)
  = History.Stored [Sample.entry 1]
  /\ last (History._load_history (History.record_history History.Corrupt (Sample.entry 1)))
     = Some (Sample.entry 1)
  /\ Pipeline.record (Pipeline.Unexpected "dict") (Sample.entry 1)
     = (Raise (AttributeError "'dict' object has no attribute 'append'"),
        Pipeline.Unexpected "dict").
Proof.
  pose proof (recording_appends_the_newest_record (Pipeline.Expected History.Corrupt)
                (Sample.entry 1)) as Hlist.
  pose proof (recording_appends_the_newest_record (Pipeline.Unexpected "dict")
                (Sample.entry 1)) as Hdict.
  cbv beta iota in Hlist, Hdict.
  destruct Hlist as (_ & _ & Hlast & _ & _ & Hfresh). destruct Hdict as (_ & Hdict & _).
  split; [exact (Hfresh (or_intror eq_refl)) |]. split; [exact Hlast | exact Hdict].
Defined.

(** Of sixty records the table shows fifty, the newest on top. *)
Lemma sixty_records_show_fifty :
  length (Pipeline.refresh_rows (Sample.entries 60)) = 50%nat
  /\ Pipeline.refresh_rows (Sample.entries 60) !! 0%nat = Some (Sample.entry 59).
Proof.
  destruct (history_rows_are_newest_first (Sample.entries 60)) as [Hlen Hrows].
  split; [exact Hlen |].
  refine (eq_trans (Hrows 0%nat _) _); [vm_compute; lia | reflexivity].
Defined.

Lemma last_of_january_is_valid : Dates.valid Cases.last_of_january.
Proof. unfold Dates.valid. vm_compute. repeat split; discriminate. Defined.

(** On 31 January 2025 the exports start on 1 January and 1 February. *)
Lemma january_exports :
  Dates.valid Cases.last_of_january
  /\ Dates.export_dates Cases.last_of_january
     = Ok ({| Dates.year := 2025; Dates.month := 1; Dates.dom := 1 |},
           {| Dates.year := 2025; Dates.month := 2; Dates.dom := 1 |}).
Proof.
  split; [exact last_of_january_is_valid |].
  exact (exports_start_on_the_first_of_this_and_next_month Cases.last_of_january
           last_of_january_is_valid).
Defined.

(** An empty [token.json]: the service is built for the consented
    account. *)
Lemma empty_token_is_replaced :
  Auth.secrets Cases.empty_token = Auth.SecretsJson (Ok tt)
  /\ Auth.flow_outcome Cases.all_goes_well = Ok Cases.alice
  /\ Auth.build_error Cases.all_goes_well = None
  /\ exists c' s',
       Auth.get_calendar_service Cases.all_goes_well Cases.empty_token = (Ok c', s')
       /\ ((Auth.token Cases.empty_token = Auth.TokenJson (Ok c')
            /\ Auth.cred_valid c' = true)
           \/ (c' = Cases.alice
               /\ forall t, Auth.token Cases.empty_token = Auth.TokenJson (Ok t) ->
                            Auth.cred_valid t = false)).
Proof.
  split; [reflexivity |]. split; [reflexivity |]. split; [reflexivity |].
  exact (unusable_token_never_blocks_the_service Cases.all_goes_well Cases.empty_token
           Cases.alice eq_refl eq_refl eq_refl).
Defined.

(** With an empty [token.json] the steps taken obey the guards. *)
Lemma empty_token_steps_are_guarded :
  exists new,
    Auth.done (snd (Auth.get_calendar_service Cases.all_goes_well Cases.empty_token))
    = Auth.done Cases.empty_token ++ new
    /\ (Auth.RemovedToken ∈ new -> Auth.token Cases.empty_token = Auth.TokenNotJson)
    /\ (forall c, Auth.WroteToken c ∈ new ->
          Auth.RanFlow ∈ new /\ Auth.flow_outcome Cases.all_goes_well = Ok c).
Proof.
  destruct (service_setup_guards Cases.all_goes_well Cases.empty_token)
    as (new & Hdone & Hremoved & _ & Hwrote & _).
  exists new. split; [exact Hdone |]. split; [exact Hremoved | exact Hwrote].
Defined.

(** After the consent the next call finds the token and asks nothing. *)
Lemma second_call_asks_nothing :
  Auth.secrets Cases.empty_token = Auth.SecretsJson (Ok tt)
  /\ Auth.cred_valid Cases.alice = true
  /\ Auth.write_outcome Cases.all_goes_well = Auth.Written
  /\ exists c1 s1,
       Auth.get_calendar_service Cases.all_goes_well Cases.empty_token = (Ok c1, s1)
       /\ Auth.get_calendar_service Cases.all_goes_well s1
          = (Ok c1, Auth.act (Auth.Built c1) s1).
Proof.
  split; [reflexivity |]. split; [reflexivity |]. split; [reflexivity |].
  exact (next_call_reuses_the_stored_token Cases.all_goes_well Cases.empty_token
           Cases.alice eq_refl eq_refl eq_refl eq_refl eq_refl).
Defined.

(** The older script fails on the empty [token.json] that sync.py
    replaces. *)
Lemma older_script_fails_on_the_empty_token :
  Auth.token Cases.empty_token = Auth.TokenNotJson
  /\ (exists ex,
        Auth.legacy_get_calendar_service Cases.all_goes_well Cases.empty_token
        = (Raise ex, Cases.empty_token))
  /\ exists s',
       Auth.get_calendar_service Cases.all_goes_well Cases.empty_token
       = (Ok Cases.alice, s').
Proof.
  destruct (older_script_stops_at_an_unusable_token Cases.all_goes_well Cases.empty_token
              (or_introl eq_refl)) as [Hlegacy Hnew].
  split; [reflexivity |]. split; [exact Hlegacy |].
  exact (Hnew Cases.alice eq_refl eq_refl eq_refl).
Defined.

Lemma sample_listing_older_readable : Forall older_readable Sample.listing.
Proof.
  constructor; [right; split; [eexists; reflexivity | eexists; reflexivity] |].
  constructor; [right; split; [eexists; reflexivity | eexists; reflexivity] |].
  constructor; [left; reflexivity |].
  constructor; [right; split; [eexists; reflexivity | eexists; reflexivity] |].
  constructor; [right; split; [eexists; reflexivity | eexists; reflexivity] |].
  constructor.
Defined.

(** On the sample listing the older script takes the item of another
    shift, which the rule of sync.py passes over. *)
Lemma older_script_takes_another_shift :
  instant Sample.nine = Some (-2 * hour)
  /\ Forall older_readable Sample.listing
  /\ HumanForce_Sync.match_existing Sample.nine Sample.listing
     = Ok (Some (Sample.item "r2" "Shift B" (9 * 3600))).
Proof.
  destruct (older_matcher_selects_on_time_alone Sample.nine (-2 * hour) Sample.listing
              eq_refl) as [_ Hfound].
  split; [reflexivity |]. split; [exact sample_listing_older_readable |].
  exact (Hfound sample_listing_older_readable).
Defined.

(** The five sample shifts in the older script: five listings of at most
    five items, five printed lines, no statistics. *)
Lemma older_upload_of_five :
  pytz_timezone Sample.flaky "Australia/Melbourne" = Some Sample.melbourne
  /\ Forall (prepared Sample.melbourne) Sample.five
  /\ exists s',
       HumanForce_Sync.upload_events_to_gcal Sample.flaky Sample.five
         (init_state Sample.quiet) = (Ok tt, s')
       /\ stats s' = stats_zero
       /\ list_calls (trace s') = CallList <$> omap (older_query_of Sample.melbourne) Sample.five
       /\ length (list_calls (trace s')) = length Sample.five
       /\ length (logged (trace s')) = length Sample.five.
Proof.
  destruct (older_upload_goes_through_every_event Sample.flaky Sample.melbourne
              Sample.five Sample.quiet Sample.quiet eq_refl eq_refl five_are_prepared)
    as (s' & Hrun & Hstats & Hcalls & Hlen & _ & Hlogged).
  split; [reflexivity |]. split; [exact five_are_prepared |].
  exists s'. repeat split; assumption.
Defined.

Lemma pair_is_well_ranged :
  Forall (well_ranged Sample.cfg Sample.melbourne) Sample.pair_of_shifts.
Proof. settle_well_ranged. Defined.

Lemma pair_is_separated : separated Sample.melbourne Sample.pair_of_shifts.
Proof.
  intros e1 e2 t1 t2 H1 H2 Hsum Ht1 Ht2 Habs.
  split_members H1; split_members H2;
    vm_compute in Ht1; vm_compute in Ht2;
    injection Ht1 as <-; injection Ht2 as <-;
    first [reflexivity | discriminate Hsum].
Defined.

Lemma pair_is_uncrowded :
  uncrowded Sample.cfg Sample.melbourne Sample.pair_of_shifts
            (size (∅ : FaithfulStore.Store)).
Proof.
  intros e lo hi He Hw.
  split_members He; vm_compute in Hw; injection Hw as <- <-; vm_compute; lia.
Defined.


(** A stored shift that starts four hours before the source event is
    reached by the window of sync.py, and missed by the query of the
    older script although its rule would accept it. *)
Lemma earlier_shift_and_the_two_windows :
  instant (Sample.at_hour 13) = Some (2 * hour)
  /\ instant (Sample.at_hour 14) = Some (3 * hour)
  /\ Sync.window_query Sample.cfg (Sample.at_hour 13) (Sample.at_hour 14)
     = Ok (Sample.shift_query 13)
  /\ iso_instant (q_timeMin (Sample.shift_query 13)) = Some (2 * hour - 5 * hour)
  /\ iso_instant (q_timeMax (Sample.shift_query 13)) = Some (3 * hour + 5 * hour)
  /\ (qualifies (2 * hour) "Shift A"
        (FaithfulStore.render ("r1", Sample.shift_payload "Shift A" 9)) = true ->
      FaithfulStore.in_window (2 * hour - 5 * hour) (3 * hour + 5 * hour)
        ("r1", Sample.shift_payload "Shift A" 9) = true)
  /\ iso_instant (q_timeMin (HumanForce_Sync.window_query (Sample.at_hour 13)
                                (Sample.at_hour 14))) = Some (2 * hour)
  /\ older_rule (2 * hour) (FaithfulStore.render ("r1", Sample.shift_payload "Shift A" 9))
     = true
  /\ FaithfulStore.in_window (2 * hour) (3 * hour) ("r1", Sample.shift_payload "Shift A" 9)
     = false.
Proof.
  assert (Hts : instant (Sample.at_hour 13) = Some (2 * hour)) by (vm_compute; reflexivity).
  assert (Hte : instant (Sample.at_hour 14) = Some (3 * hour)) by (vm_compute; reflexivity).
  assert (Hq : Sync.window_query Sample.cfg (Sample.at_hour 13) (Sample.at_hour 14)
               = Ok (Sample.shift_query 13)) by (vm_compute; reflexivity).
  assert (Hle : 2 * hour <= 3 * hour) by (vm_compute; discriminate).
  destruct (window_reaches_every_match Sample.cfg (13 * hour) (14 * hour)
              (PytzInfo "Australia/Melbourne" (11 * hour))
              (PytzInfo "Australia/Melbourne" (11 * hour))
              (2 * hour) (3 * hour) (Sample.shift_query 13) "Shift A"
              ("r1", Sample.shift_payload "Shift A" 9) eq_refl eq_refl Hts Hte Hle Hq)
    as [(Hmin & Hmax & Hnew) (Hlo & _ & Holder)].
  split; [exact Hts |]. split; [exact Hte |]. split; [exact Hq |].
  split; [exact Hmin |]. split; [exact Hmax |]. split; [exact Hnew |].
  split; [exact Hlo |].
  apply (Holder (-2 * hour)).
  - reflexivity.
  - discriminate.
  - vm_compute. reflexivity.
  - vm_compute. discriminate.
Defined.
